(** * Billing, payment processing and notification dispatch of the gym
      management system: a shallow embedding of the JavaScript services
      ([PaymentService], [NotificationService], the formatters of [utils]
      and the in-process [Logger]) and the properties established of them.

    Conventions of the embedding.
    - A JavaScript string is a [string]; its characters are the code units
      below 256.
    - Monetary amounts and timestamps are integers ([Z]); the clock does
      not advance while a method runs.
    - [Math.random()] is a rational in [[0,1)] drawn from an oracle; the
      persistence layer may reject any operation, which is a second oracle.
    - An [async] method is a function from the world to a result (a value
      or a thrown error) and the world it leaves behind. Every write the
      document store accepts is appended to a journal, so that what a
      concurrent reader can observe between two suspension points is the
      replay of a prefix of that journal. *)

From Stdlib Require Import ZArith QArith Qround String Ascii List Lia.
From stdpp Require Import base option list gmap strings pretty.

Close Scope Q_scope.
Local Open Scope string_scope.
Local Open Scope list_scope.
Local Open Scope Z_scope.

(** ** JavaScript strings *)

Module JsString.

Definition code (c : ascii) : nat := nat_of_ascii c.

(** The character class [\d]. *)
Definition is_digit (c : ascii) : bool :=
  ((48 <=? code c) && (code c <=? 57))%nat.

(** The character class [\s], restricted to code units below 256: tab,
    line feed, vertical tab, form feed, carriage return, space and the
    no-break space. *)
Definition is_space (c : ascii) : bool :=
  ((9 <=? code c) && (code c <=? 13) || (code c =? 32) || (code c =? 160))%nat.

(** [parseInt] of one decimal digit character. *)
Definition digit_value (c : ascii) : Z := Z.of_nat (code c) - 48.

Definition chars (s : string) : list ascii := list_ascii_of_string s.

(** [s.replace(/\s/g, '')] *)
Fixpoint strip_spaces (s : string) : string :=
  match s with
  | EmptyString => EmptyString
  | String c r => if is_space c then strip_spaces r else String c (strip_spaces r)
  end.

(** [/^\d{lo,hi}$/.test(s)] *)
Definition all_digits_between (lo hi : nat) (s : string) : bool :=
  forallb is_digit (chars s)
  && (lo <=? String.length s)%nat && (String.length s <=? hi)%nat.

(** [s.split(sep)] for a one-character separator. *)
Fixpoint split_go (sep : ascii) (cur : string) (s : string) : list string :=
  match s with
  | EmptyString => [String.rev cur]
  | String c r =>
      if Ascii.eqb c sep then String.rev cur :: split_go sep EmptyString r
      else split_go sep (String c cur) r
  end.

Definition split (sep : ascii) (s : string) : list string :=
  split_go sep EmptyString s.

(** [s.slice(-n)] *)
Definition slice_last (n : nat) (s : string) : string :=
  String.substring (String.length s - n) n s.

(** [s.padStart(n, '0')] *)
Definition padStart0 (n : nat) (s : string) : string :=
  string_of_list_ascii (repeat "0"%char (n - String.length s)) +:+ s.

(** The value of a character as a digit of radix at most 36, as
    [parseInt] reads it. *)
Definition radix_digit (c : ascii) : option Z :=
  let n := code c in
  if ((48 <=? n) && (n <=? 57))%nat then Some (Z.of_nat n - 48)
  else if ((97 <=? n) && (n <=? 122))%nat then Some (Z.of_nat n - 87)
  else if ((65 <=? n) && (n <=? 90))%nat then Some (Z.of_nat n - 55)
  else None.

(** The longest prefix of digits of the radix, accumulated from the left;
    [None] when there is no digit at all. *)
Fixpoint parse_digits (radix : Z) (acc : option Z) (s : string) : option Z :=
  match s with
  | EmptyString => acc
  | String c r =>
      match radix_digit c with
      | Some d =>
          if d <? radix
          then parse_digits radix (Some (default 0 acc * radix + d)) r
          else acc
      | None => acc
      end
  end.

Fixpoint drop_spaces (s : string) : string :=
  match s with
  | String c r => if is_space c then drop_spaces r else s
  | EmptyString => EmptyString
  end.

(** [parseInt(s)] without a radix argument: leading white space, an
    optional sign, an optional [0x] prefix selecting radix 16. [None] is
    [NaN]. *)
Definition parseInt (s : string) : option Z :=
  let t := drop_spaces s in
  let '(neg, u) :=
    match t with
    | String "-"%char r => (true, r)
    | String "+"%char r => (false, r)
    | _ => (false, t)
    end in
  let '(radix, v) :=
    match u with
    | String "0"%char (String "x"%char r) => (16, r)
    | String "0"%char (String "X"%char r) => (16, r)
    | _ => (10, u)
    end in
  (fun n => if neg : bool then - n else n) <$> parse_digits radix None v.

(** Comparisons of numbers one of which may be [NaN]: false on [NaN]. *)
Definition num_lt (a b : option Z) : bool :=
  match a, b with Some x, Some y => x <? y | _, _ => false end.

Definition num_eq (a b : option Z) : bool :=
  match a, b with Some x, Some y => x =? y | _, _ => false end.

End JsString.

(** ** Validation of payment instruments ([PaymentService], validation part) *)

Record CardData := mkCardData {
  number : string;
  expiry : string;
  cvv : string
}.

(** The calendar date the clock shows: full year, month 1 to 12, day. *)
Record Today := mkToday {
  fullYear : Z;
  monthOfYear : Z;
  dayOfMonth : Z
}.

(** The body of the [for] loop of [validateCardNumber], over the
    characters still to visit (from the rightmost to the leftmost), with
    the loop variables [sum] and [isEven]. *)
Fixpoint luhn_loop (rest : list ascii) (sum : Z) (isEven : bool) : Z :=
  match rest with
  | [] => sum
  | c :: rest' =>
      let digit := JsString.digit_value c in
      let digit := if isEven then digit * 2 else digit in
      let digit := if isEven && (9 <? digit) then digit - 9 else digit in
      luhn_loop rest' (sum + digit) (negb isEven)
  end.

Definition validateCardNumber (cardNumber : string) : bool :=
  let cleaned := JsString.strip_spaces cardNumber in
  if negb (JsString.all_digits_between 13 19 cleaned) then false
  else luhn_loop (rev (JsString.chars cleaned)) 0 false mod 10 =? 0.

Definition validateExpiryDate (today : Today) (expiry : string) : bool :=
  let parts := JsString.split "/"%char expiry in
  let currentYear := Some (fullYear today mod 100) in
  let currentMonth := Some (monthOfYear today) in
  let expMonth := parts !! 0%nat ≫= JsString.parseInt in
  let expYear := parts !! 1%nat ≫= JsString.parseInt in
  if JsString.num_lt expMonth (Some 1) || JsString.num_lt (Some 12) expMonth then false
  else if JsString.num_lt expYear currentYear
          || (JsString.num_eq expYear currentYear && JsString.num_lt expMonth currentMonth)
  then false
  else true.

Definition validateCVV (cvv : string) : bool :=
  JsString.all_digits_between 3 4 cvv.

(** The array [errors] that [validateCardData] has filled when it reaches
    its [return]. *)
Definition cardDataErrors (today : Today) (cardData : CardData) : list string :=
  let errors := [] in
  let errors :=
    if negb (validateCardNumber (number cardData))
    then errors ++ ["Invalid card number"] else errors in
  let errors :=
    if negb (validateExpiryDate today (expiry cardData))
    then errors ++ ["Invalid expiry date"] else errors in
  let errors :=
    if negb (validateCVV (cvv cardData))
    then errors ++ ["Invalid CVV"] else errors in
  errors.

Definition validateCardData (today : Today) (cardData : CardData) : bool :=
  (length (cardDataErrors today cardData) =? 0)%nat.

Definition getCardType (cardNumber : string) : string :=
  let cleaned := JsString.strip_spaces cardNumber in
  match cleaned with
  | String "4"%char _ => "visa"
  | String "5"%char (String c _) =>
      if ((49 <=? JsString.code c) && (JsString.code c <=? 53))%nat
      then "mastercard"
      else "unknown"
  | String "3"%char (String c _) =>
      if Ascii.eqb c "4"%char || Ascii.eqb c "7"%char then "amex" else "unknown"
  | String "6"%char _ => "discover"
  | _ => "unknown"
  end.

(** ** Documents *)

Inductive PaymentStatus := PENDING | COMPLETED | FAILED | REFUNDED | CANCELLED.

(** [this.paymentStatuses] *)
Definition paymentStatuses (s : PaymentStatus) : string :=
  match s with
  | PENDING => "pending"
  | COMPLETED => "completed"
  | FAILED => "failed"
  | REFUNDED => "refunded"
  | CANCELLED => "cancelled"
  end.

Global Instance PaymentStatus_eq_dec : EqDecision PaymentStatus.
Proof. solve_decision. Defined.

(** A value of a structured payload. *)
Inductive JsValue :=
| JStr (s : string)
| JNum (n : Z)
| JBool (b : bool).

Definition JsObject := list (string * JsValue).

Record Bill := mkBill {
  bill_id : string;
  bill_memberId : string;
  bill_memberName : string;
  bill_amount : Z;
  bill_description : string;
  bill_dueDate : Z;
  bill_status : string;
  bill_billType : string;
  bill_createdAt : Z;
  bill_updatedAt : Z
}.

Record Payment := mkPayment {
  pay_id : string;
  pay_memberId : string;
  pay_memberName : string;
  pay_billId : option string;
  pay_amount : Z;
  pay_paymentMethod : string;
  pay_paymentDate : Z;
  pay_status : PaymentStatus;
  pay_description : string;
  pay_transactionId : string;
  pay_createdAt : Z;
  pay_updatedAt : Z;
  pay_processedAt : option Z;
  pay_errorMessage : option string
}.

Record Receipt := mkReceipt {
  rcp_id : string;
  rcp_paymentId : string;
  rcp_memberId : string;
  rcp_memberName : string;
  rcp_amount : Z;
  rcp_paymentMethod : string;
  rcp_paymentDate : Z;
  rcp_receiptNumber : string;
  rcp_status : string;
  rcp_createdAt : Z
}.

(** [ntf_priority] is [None] when the document has no such field;
    [ntf_readAt] is [None] when the document has no such field and
    [Some None] when the field is [null]. *)
Record Notification := mkNotification {
  ntf_id : string;
  ntf_memberId : string;
  ntf_type : string;
  ntf_title : string;
  ntf_message : string;
  ntf_priority : option string;
  ntf_status : string;
  ntf_data : JsObject;
  ntf_createdAt : Z;
  ntf_readAt : option (option Z)
}.

(** The fields of a member document that the payment service maintains. *)
Record Member := mkMember {
  mem_lastPaymentDate : option Z;
  mem_totalPayments : Z;
  mem_totalAmountPaid : Z;
  mem_updatedAt : Z
}.

(** ** Requests *)

(** The argument [paymentData] of the [process...] methods. *)
Record PaymentData := mkPaymentData {
  pd_memberId : string;
  pd_memberName : string;
  pd_billId : option string;
  pd_amount : Z;
  pd_paymentMethod : string;
  pd_description : string;
  pd_transactionId : string;
  pd_cardData : option CardData;
  pd_cardLast4 : option string;
  pd_cardType : option string;
  pd_referenceNumber : option string
}.

(** The argument [notificationData] of the notification methods. *)
Record NotificationData := mkNotificationData {
  nd_memberId : string;
  nd_type : string;
  nd_title : string;
  nd_message : string;
  nd_priority : option string;
  nd_data : option JsObject
}.

(** What [processPayment] returns. *)
Record PaymentResult := mkPaymentResult {
  paymentId : string;
  success : bool;
  message : string
}.

(** What [simulatePaymentProcessing] returns. *)
Record ProcessingResult := mkProcessingResult {
  pr_success : bool;
  pr_transactionId : option string;
  pr_error : option string
}.

(** Truthiness of an optional string: [undefined] and [''] are falsy. *)
Definition truthy (o : option string) : bool :=
  match o with
  | Some s => negb (String.eqb s EmptyString)
  | None => false
  end.

(** ** The document store and its writes *)

Record Store := mkStore {
  bills : gmap string Bill;
  payments : gmap string Payment;
  receipts : gmap string Receipt;
  notifications : gmap string Notification;
  members : gmap string Member
}.

(** The writes the services issue against the store. *)
Inductive Write :=
| UpdateBillStatus (billId status : string) (updatedAt : Z)
| SetPayment (p : Payment)
| SetReceipt (r : Receipt)
| SetNotification (n : Notification)
| BatchSetNotifications (ns : list Notification)
| UpdateMemberHistory (memberId : string) (paymentDate amount updatedAt : Z).

Definition with_status (b : Bill) (status : string) (updatedAt : Z) : Bill :=
  mkBill (bill_id b) (bill_memberId b) (bill_memberName b) (bill_amount b)
         (bill_description b) (bill_dueDate b) status (bill_billType b)
         (bill_createdAt b) updatedAt.

Definition with_payment (m : Member) (paymentDate amount updatedAt : Z) : Member :=
  mkMember (Some paymentDate) (mem_totalPayments m + 1)
           (mem_totalAmountPaid m + amount) updatedAt.

Definition set_bills (s : Store) (x : gmap string Bill) : Store :=
  mkStore x (payments s) (receipts s) (notifications s) (members s).
Definition set_payments (s : Store) (x : gmap string Payment) : Store :=
  mkStore (bills s) x (receipts s) (notifications s) (members s).
Definition set_receipts (s : Store) (x : gmap string Receipt) : Store :=
  mkStore (bills s) (payments s) x (notifications s) (members s).
Definition set_notifications (s : Store) (x : gmap string Notification) : Store :=
  mkStore (bills s) (payments s) (receipts s) x (members s).
Definition set_members (s : Store) (x : gmap string Member) : Store :=
  mkStore (bills s) (payments s) (receipts s) (notifications s) x.

(** The effect of a write the store accepts; [None] when the store
    refuses it: [update] needs the document to exist, [set] creates or
    overwrites. *)
Definition apply_write (wr : Write) (s : Store) : option Store :=
  match wr with
  | UpdateBillStatus billId status updatedAt =>
      b ← bills s !! billId;
      Some (set_bills s (<[billId := with_status b status updatedAt]> (bills s)))
  | SetPayment p => Some (set_payments s (<[pay_id p := p]> (payments s)))
  | SetReceipt r => Some (set_receipts s (<[rcp_id r := r]> (receipts s)))
  | SetNotification n =>
      Some (set_notifications s (<[ntf_id n := n]> (notifications s)))
  | BatchSetNotifications ns =>
      Some (set_notifications s
              (foldl (fun m n => <[ntf_id n := n]> m) (notifications s) ns))
  | UpdateMemberHistory memberId paymentDate amount updatedAt =>
      m ← members s !! memberId;
      Some (set_members s
              (<[memberId := with_payment m paymentDate amount updatedAt]> (members s)))
  end.

(** The store after the writes [ws], from [s]. *)
Fixpoint replay (ws : list Write) (s : Store) : option Store :=
  match ws with
  | [] => Some s
  | wr :: ws' => apply_write wr s ≫= replay ws'
  end.

(** ** The world and asynchronous methods *)

Inductive JsError := Error (message : string).

Record LogEntry := mkLogEntry {
  le_level : string;
  le_action : string;
  le_details : JsObject
}.

Record World := mkWorld {
  store : Store;
  (** the writes the store has accepted, oldest first *)
  journal : list Write;
  (** [logger.logBuffer] and [logger.currentLogLevel] *)
  logBuffer : list LogEntry;
  currentLogLevel : Z;
  (** the clock: [new Date()], [Date.now()] and the calendar date *)
  clock : Z;
  today : Today;
  (** whether the store rejects its k-th operation, and how many
      operations it has been asked so far *)
  rejects : nat -> bool;
  operations : nat;
  (** the k-th value of [Math.random()], and how many were drawn *)
  random : nat -> Q;
  draws : nat
}.

Inductive Outcome (A : Type) :=
| Returned (a : A)
| Thrown (e : JsError).
Arguments Returned {A} a.
Arguments Thrown {A} e.

Definition Async (A : Type) : Type := World -> Outcome A * World.

Definition ret {A} (a : A) : Async A := fun w => (Returned a, w).

Definition throw {A} (e : JsError) : Async A := fun w => (Thrown e, w).

Definition bind {A B} (m : Async A) (k : A -> Async B) : Async B :=
  fun w =>
    match m w with
    | (Returned a, w') => k a w'
    | (Thrown e, w') => (Thrown e, w')
    end.

(** [try { m } catch (error) { h error }] *)
Definition try_catch {A} (m : Async A) (h : JsError -> Async A) : Async A :=
  fun w =>
    match m w with
    | (Returned a, w') => (Returned a, w')
    | (Thrown e, w') => h e w'
    end.

Declare Scope async_scope.
Delimit Scope async_scope with async.
Notation "'await' x <- m ; k" := (bind m (fun x => k))
  (at level 10, x name, m at level 100, k at level 200) : async_scope.
Notation "'run' m ; k" := (bind m (fun _ => k))
  (at level 10, m at level 100, k at level 200) : async_scope.
Local Open Scope async_scope.

Definition set_store (w : World) (s : Store) (j : list Write) : World :=
  mkWorld s j (logBuffer w) (currentLogLevel w) (clock w) (today w)
          (rejects w) (operations w) (random w) (draws w).

Definition set_logBuffer (w : World) (l : list LogEntry) : World :=
  mkWorld (store w) (journal w) l (currentLogLevel w) (clock w) (today w)
          (rejects w) (operations w) (random w) (draws w).

Definition next_operation (w : World) : World :=
  mkWorld (store w) (journal w) (logBuffer w) (currentLogLevel w) (clock w)
          (today w) (rejects w) (S (operations w)) (random w) (draws w).

Definition next_draw (w : World) : World :=
  mkWorld (store w) (journal w) (logBuffer w) (currentLogLevel w) (clock w)
          (today w) (rejects w) (operations w) (random w) (S (draws w)).

(** [new Date()] *)
Definition newDate : Async Z := fun w => (Returned (clock w), w).

Definition getToday : Async Today := fun w => (Returned (today w), w).

(** [Math.random()] *)
Definition mathRandom : Async Q :=
  fun w => (Returned (random w (draws w)), next_draw w).

(** One write operation against the store: rejected by the persistence
    layer, refused because the document to update is missing, or applied
    and journalled. *)
Definition db_write (wr : Write) : Async unit :=
  fun w =>
    let w1 := next_operation w in
    if rejects w (operations w)
    then (Thrown (Error "The persistence layer rejected the operation"), w1)
    else
      match apply_write wr (store w) with
      | Some s' => (Returned tt, set_store w1 s' (journal w ++ [wr]))
      | None => (Thrown (Error "No document to update"), w1)
      end.

(** One query against the store. *)
Definition db_query {A} (q : Store -> A) : Async A :=
  fun w =>
    let w1 := next_operation w in
    if rejects w (operations w)
    then (Thrown (Error "The persistence layer rejected the operation"), w1)
    else (Returned (q (store w)), w1).

(** ** [utils.formatters] *)

Module Utils.

(** [Math.floor(Math.random() * n)] *)
Definition randomBelow (n : Z) : Async Z :=
  await r <- mathRandom;
  ret (Qfloor (Qmult r (inject_Z n))).

(** [s.charAt(k)] *)
Definition charAt (k : Z) (s : string) : string :=
  if k <? 0 then EmptyString
  else match String.get (Z.to_nat k) s with
       | Some c => String c EmptyString
       | None => EmptyString
       end.

Definition chars : string :=
  "ABCDEFGHIJKLMNOPQRSTUVWXYZabcdefghijklmnopqrstuvwxyz0123456789".

(** The [for] loop of [generateRandomString], with [n] rounds to go. *)
Fixpoint generateRandomString_loop (n : nat) (result : string) : Async string :=
  match n with
  | O => ret result
  | S n' =>
      await k <- randomBelow (Z.of_nat (String.length chars));
      generateRandomString_loop n' (result +:+ charAt k chars)
  end.

Definition generateRandomString (length : nat) : Async string :=
  generateRandomString_loop length EmptyString.

Definition generateReceiptNumber : Async string :=
  await date <- getToday;
  let year := pretty (fullYear date) in
  let month := JsString.padStart0 2 (pretty (monthOfYear date)) in
  let day := JsString.padStart0 2 (pretty (dayOfMonth date)) in
  await k <- randomBelow 10000;
  let random := JsString.padStart0 4 (pretty k) in
  ret ("RCP-" +:+ year +:+ month +:+ day +:+ "-" +:+ random).

End Utils.

(** ** The logger

    The in-process side of [Logger]: the level filter and the bounded
    buffer. Its remote sink swallows every failure of its own and is left
    out, as are the user and session fields of an entry and the details
    spread into it after the leading keys.

    The global wrappers ([logError] and the like) first read the signed-in
    user from [localStorage]. The wrappers of this module are those of a
    page on which that read succeeds; the read itself, which can throw, is
    [Page.getCurrentUser] below. *)

Module Logger.

Inductive Level := ERROR | WARN | INFO | DEBUG.

Definition logLevels (l : Level) : Z :=
  match l with ERROR => 0 | WARN => 1 | INFO => 2 | DEBUG => 3 end.

Definition levelName (l : Level) : string :=
  match l with
  | ERROR => "ERROR" | WARN => "WARN" | INFO => "INFO" | DEBUG => "DEBUG"
  end.

Definition maxLogEntries : nat := 1000.

Definition addToBuffer (logEntry : LogEntry) : Async unit :=
  fun w =>
    let buffer := logBuffer w ++ [logEntry] in
    let buffer :=
      if (maxLogEntries <? length buffer)%nat
      then drop (length buffer - maxLogEntries) buffer
      else buffer in
    (Returned tt, set_logBuffer w buffer).

Definition log (level : Level) (action : string) (details : JsObject) : Async unit :=
  fun w =>
    if currentLogLevel w <? logLevels level then (Returned tt, w)
    else addToBuffer (mkLogEntry (levelName level) action details) w.

Definition message_of (e : JsError) : string :=
  match e with Error m => m end.

Definition logError (action : string) (error : JsError) : Async unit :=
  log ERROR action [("error", JStr (message_of error))].

Definition logPayment (operation : string) (amount : Z) (success : bool) : Async unit :=
  log INFO "PAYMENT"
      [("operation", JStr operation); ("amount", JNum amount); ("success", JBool success)].

Definition logNotification (operation notificationType : string) (success : bool)
  : Async unit :=
  log INFO "NOTIFICATION"
      [("operation", JStr operation); ("type", JStr notificationType);
       ("success", JBool success)].

End Logger.

(** ** [firebaseServices.sendNotification], which the payment service calls *)

Module FirebaseServices.

Definition sendNotification (notificationData : NotificationData) : Async string :=
  try_catch
    (await notificationId <- Utils.generateRandomString 8;
     await createdAt <- newDate;
     let notificationDoc :=
       mkNotification notificationId (nd_memberId notificationData)
         (nd_type notificationData) (nd_title notificationData)
         (nd_message notificationData) (nd_priority notificationData)
         "unread" (default [] (nd_data notificationData)) createdAt None in
     run db_write (SetNotification notificationDoc);
     run Logger.logNotification "NOTIFICATION_SENT" (nd_type notificationData) true;
     ret notificationId)
    (fun error =>
       run Logger.logError "NOTIFICATION_SEND_ERROR" error;
       throw error).

End FirebaseServices.

(** ** The payment service *)

Module PaymentService.

Definition updateBillStatus (billId status : string) : Async unit :=
  try_catch
    (await updatedAt <- newDate;
     run db_write (UpdateBillStatus billId status updatedAt);
     Logger.logPayment "BILL_STATUS_UPDATED" 0 true)
    (fun error =>
       run Logger.logError "BILL_STATUS_UPDATE_ERROR" error;
       throw error).

(** The first [n] digits after the point of [r] in base 36, for the
    token [Math.random().toString(36).substr(2, 9)]. This is the exact
    expansion cut after [n] digits; an engine prints the shortest digits
    that read back as the same double, which can end earlier or differ in
    the last digit. Nothing below depends on the value of the token. *)
Fixpoint base36_fraction (n : nat) (r : Q) : string :=
  match n with
  | O => EmptyString
  | S n' =>
      if Qeq_bool r (inject_Z 0) then EmptyString
      else
        let scaled := Qmult r (inject_Z 36) in
        let d := Qfloor scaled in
        Utils.charAt d "0123456789abcdefghijklmnopqrstuvwxyz"
        +:+ base36_fraction n' (Qminus scaled (inject_Z d))
  end.

(** [Math.random() > 0.1] *)
Definition exceeds_tenth (r : Q) : bool := negb (Qle_bool r (1 # 10)).

Definition simulatePaymentProcessing (payment : Payment) : Async ProcessingResult :=
  await r <- mathRandom;
  let success := exceeds_tenth r in
  if success then
    await now <- newDate;
    await t <- mathRandom;
    ret (mkProcessingResult true
           (Some ("TXN-" +:+ pretty now +:+ "-" +:+ base36_fraction 9 t)) None)
  else
    ret (mkProcessingResult false None
           (Some "Payment processing failed. Please try again.")).

(** The object literal [receipt] of [createReceipt]. *)
Definition receipt_of (receiptId : string) (payment : Payment) (createdAt : Z)
  : Receipt :=
  mkReceipt receiptId (pay_id payment) (pay_memberId payment)
    (pay_memberName payment) (pay_amount payment)
    (pay_paymentMethod payment) (pay_paymentDate payment)
    receiptId "completed" createdAt.

Definition createReceipt (payment : Payment) : Async string :=
  try_catch
    (await receiptId <- Utils.generateReceiptNumber;
     await createdAt <- newDate;
     let receipt := receipt_of receiptId payment createdAt in
     run db_write (SetReceipt receipt);
     run Logger.logPayment "RECEIPT_CREATED" (pay_amount payment) true;
     ret receiptId)
    (fun error =>
       run Logger.logError "RECEIPT_CREATION_ERROR" error;
       throw error).

(** The object literal [payment] of [processPayment]. *)
Definition payment_of (paymentId : string) (paymentData : PaymentData) (now : Z)
  : Payment :=
  mkPayment paymentId (pd_memberId paymentData) (pd_memberName paymentData)
    (pd_billId paymentData) (pd_amount paymentData)
    (pd_paymentMethod paymentData) now PENDING
    (pd_description paymentData) (pd_transactionId paymentData)
    now now None None.

Definition completed (payment : Payment) (processedAt : Z) : Payment :=
  mkPayment (pay_id payment) (pay_memberId payment) (pay_memberName payment)
    (pay_billId payment) (pay_amount payment) (pay_paymentMethod payment)
    (pay_paymentDate payment) COMPLETED (pay_description payment)
    (pay_transactionId payment) (pay_createdAt payment) (pay_updatedAt payment)
    (Some processedAt) (pay_errorMessage payment).

Definition failed (payment : Payment) (errorMessage : option string) : Payment :=
  mkPayment (pay_id payment) (pay_memberId payment) (pay_memberName payment)
    (pay_billId payment) (pay_amount payment) (pay_paymentMethod payment)
    (pay_paymentDate payment) FAILED (pay_description payment)
    (pay_transactionId payment) (pay_createdAt payment) (pay_updatedAt payment)
    (pay_processedAt payment) errorMessage.

Definition processPayment (paymentData : PaymentData) : Async PaymentResult :=
  try_catch
    (await paymentId <- Utils.generateReceiptNumber;
     await now <- newDate;
     let payment := payment_of paymentId paymentData now in
     await processingResult <- simulatePaymentProcessing payment;
     await payment <-
       (if pr_success processingResult then
          await processedAt <- newDate;
          let payment := completed payment processedAt in
          run (if truthy (pay_billId payment)
               then updateBillStatus (default EmptyString (pay_billId payment)) "paid"
               else ret tt);
          ret payment
        else
          ret (failed payment (pr_error processingResult)));
     run db_write (SetPayment payment);
     run (if decide (pay_status payment = COMPLETED)
          then (await _ <- createReceipt payment; ret tt)
          else ret tt);
     run Logger.logPayment "PAYMENT_PROCESSED" (pay_amount payment)
           (pr_success processingResult);
     ret (mkPaymentResult paymentId (pr_success processingResult)
            (if pr_success processingResult
             then "Payment processed successfully"
             else default EmptyString (pr_error processingResult))))
    (fun error =>
       run Logger.logError "PAYMENT_PROCESSING_ERROR" error;
       throw error).

Definition paymentMethods_CARD : string := "card".
Definition paymentMethods_CASH : string := "cash".

Definition processCardPayment (paymentData : PaymentData) : Async PaymentResult :=
  try_catch
    (await cardData <-
       match pd_cardData paymentData with
       | Some c => ret c
       | None => throw (Error "Cannot read properties of undefined")
       end;
     await date <- getToday;
     if negb (validateCardData date cardData)
     then throw (Error "Invalid card information")
     else
       let cardPaymentData :=
         mkPaymentData (pd_memberId paymentData) (pd_memberName paymentData)
           (pd_billId paymentData) (pd_amount paymentData) paymentMethods_CARD
           (pd_description paymentData) (pd_transactionId paymentData)
           (pd_cardData paymentData)
           (Some (JsString.slice_last 4 (number cardData)))
           (Some (getCardType (number cardData)))
           (pd_referenceNumber paymentData) in
       processPayment cardPaymentData)
    (fun error =>
       run Logger.logError "CARD_PAYMENT_ERROR" error;
       throw error).

Definition processCashPayment (paymentData : PaymentData) : Async PaymentResult :=
  try_catch
    (let cashPaymentData :=
       mkPaymentData (pd_memberId paymentData) (pd_memberName paymentData)
         (pd_billId paymentData) (pd_amount paymentData) paymentMethods_CASH
         (pd_description paymentData) (pd_transactionId paymentData)
         (pd_cardData paymentData) (pd_cardLast4 paymentData)
         (pd_cardType paymentData) (pd_referenceNumber paymentData) in
     processPayment cashPaymentData)
    (fun error =>
       run Logger.logError "CASH_PAYMENT_ERROR" error;
       throw error).

Definition sendPaymentConfirmation (payment : Payment) : Async unit :=
  try_catch
    (let notificationData :=
       mkNotificationData (pay_memberId payment) "payment_confirmed"
         "Payment Confirmed"
         ("Your payment of $" +:+ pretty (pay_amount payment)
          +:+ " has been processed successfully")
         None
         (Some [("paymentId", JStr (pay_id payment));
                ("amount", JNum (pay_amount payment));
                ("paymentMethod", JStr (pay_paymentMethod payment))]) in
     await _ <- FirebaseServices.sendNotification notificationData;
     ret tt)
    (fun error => Logger.logError "PAYMENT_CONFIRMATION_ERROR" error).

(** [firebase.firestore.FieldValue.increment(n)]. The configuration
    script replaces [window.firebase] by the object of the handles [auth],
    [db], [storage], [analytics], [collections] and [storageRefs], the one
    the service reads its [db] from. That object has no [firestore], so
    reading [FieldValue] of it throws a TypeError. *)
Definition fieldValue_increment (n : Z) : Async Z :=
  throw (Error "Cannot read properties of undefined (reading 'FieldValue')").

(** The argument of [update] is evaluated before [update] is called: the
    two increments, then the date. *)
Definition updateMemberPaymentHistory (payment : Payment) : Async unit :=
  try_catch
    (await totalPayments <- fieldValue_increment 1;
     await totalAmountPaid <- fieldValue_increment (pay_amount payment);
     await updatedAt <- newDate;
     db_write (UpdateMemberHistory (pay_memberId payment)
                 (pay_paymentDate payment) (pay_amount payment) updatedAt))
    (fun error => Logger.logError "MEMBER_PAYMENT_HISTORY_UPDATE_ERROR" error).

(** The handler the listener on the payments collection runs on a
    modified payment document. *)
Definition handlePaymentStatusChange (paymentData : Payment) : Async unit :=
  try_catch
    (if decide (pay_status paymentData = COMPLETED)
     then run sendPaymentConfirmation paymentData;
          updateMemberPaymentHistory paymentData
     else ret tt)
    (fun error => Logger.logError "PAYMENT_STATUS_CHANGE_ERROR" error).

End PaymentService.

(** ** The notification service *)

Module NotificationService.

Definition priorities_MEDIUM : string := "medium".

(** The document both [sendNotification] and [sendBulkNotifications]
    build from a request. *)
Definition notification_of (notificationId : string)
    (notificationData : NotificationData) (createdAt : Z) : Notification :=
  mkNotification notificationId (nd_memberId notificationData)
    (nd_type notificationData) (nd_title notificationData)
    (nd_message notificationData)
    (Some (if truthy (nd_priority notificationData)
           then default EmptyString (nd_priority notificationData)
           else priorities_MEDIUM))
    "unread" (default [] (nd_data notificationData)) createdAt (Some None).

Definition sendNotification (notificationData : NotificationData) : Async string :=
  try_catch
    (await notificationId <- Utils.generateRandomString 8;
     await createdAt <- newDate;
     let notification := notification_of notificationId notificationData createdAt in
     run db_write (SetNotification notification);
     run Logger.logNotification "NOTIFICATION_SENT" (ntf_type notification) true;
     ret notificationId)
    (fun error =>
       run Logger.logError "NOTIFICATION_SEND_ERROR" error;
       throw error).

(** The [for ... of] loop of [sendBulkNotifications]: the documents put
    in the batch, in order. *)
Fixpoint batch_loop (notifications : list NotificationData)
  : Async (list Notification) :=
  match notifications with
  | [] => ret []
  | notificationData :: rest =>
      await notificationId <- Utils.generateRandomString 8;
      await createdAt <- newDate;
      let notification := notification_of notificationId notificationData createdAt in
      await batch <- batch_loop rest;
      ret (notification :: batch)
  end.

Definition sendBulkNotifications (notifications : list NotificationData)
  : Async (list string) :=
  try_catch
    (await batch <- batch_loop notifications;
     let notificationIds := ntf_id <$> batch in
     run db_write (BatchSetNotifications batch);
     run Logger.logNotification "BULK_NOTIFICATIONS_SENT" "bulk" true;
     ret notificationIds)
    (fun error =>
       run Logger.logError "BULK_NOTIFICATIONS_SEND_ERROR" error;
       throw error).

Definition is_unread_of (memberId : string) (n : Notification) : bool :=
  String.eqb (ntf_memberId n) memberId && String.eqb (ntf_status n) "unread".

(** [snapshot.size] of the query for the unread notifications of a
    member. *)
Definition unread_size (memberId : string) (s : Store) : Z :=
  Z.of_nat (length (filter (fun kn => is_unread_of memberId kn.2 = true)
                           (map_to_list (notifications s)))).

Definition getUnreadNotificationCount (memberId : string) : Async Z :=
  try_catch
    (db_query (unread_size memberId))
    (fun error =>
       run Logger.logError "UNREAD_NOTIFICATION_COUNT_ERROR" error;
       ret 0).

End NotificationService.

(** ** The page the services run on

    [window.logError] calls [authUtils.getCurrentUser] before it logs, and
    [getCurrentUser] hands the item [currentUser] of [localStorage], when
    it is not empty, to [JSON.parse] outside any [try]. *)

Module Page.

(** What [localStorage.getItem('currentUser')] gives: [null] or the empty
    text; a text that [JSON.parse] accepts, with the [uid] of the value it
    reads, if it has one; or a text, not empty, that [JSON.parse] rejects,
    such as a truncated one. *)
Inductive StoredUser :=
| NoItem
| JsonItem (uid : option string)
| BrokenItem.

(** [getCurrentUser]: the parsed user, [None] for [null]. *)
Definition getCurrentUser (item : StoredUser) : Async (option (option string)) :=
  match item with
  | NoItem => ret None
  | JsonItem uid => ret (Some uid)
  | BrokenItem => throw (Error "SyntaxError: the text is not valid JSON")
  end.

(** [window.logError]: the user is read first, then the logger runs. *)
Definition logError (item : StoredUser) (action : string) (error : JsError)
  : Async unit :=
  await user <- getCurrentUser item;
  Logger.logError action error.

(** [getUnreadNotificationCount] with the read of the stored user made
    explicit. *)
Definition getUnreadNotificationCount (item : StoredUser) (memberId : string)
  : Async Z :=
  try_catch
    (db_query (NotificationService.unread_size memberId))
    (fun error =>
       run logError item "UNREAD_NOTIFICATION_COUNT_ERROR" error;
       ret 0).

End Page.

(** ** The account number as the specification words it

    These definitions follow the specification's sentence, not the code:
    white space is stripped, what is left consists of 13 to 19 digits, and
    of these every second one counted from the rightmost is doubled, a
    doubled digit above 9 loses 9, and all the digits are summed. They use
    none of the character classes and string functions of [JsString]. *)

(** The contribution of the digit [d] standing [k] places left of the
    rightmost digit. *)
Definition spec_luhn_term (k : nat) (d : Z) : Z :=
  if Nat.odd k then (if 9 <? 2 * d then 2 * d - 9 else 2 * d) else d.

(** The sum over the digits listed from the rightmost, the first of them
    standing at place [k]. *)
Fixpoint spec_luhn_from (k : nat) (from_right : list Z) : Z :=
  match from_right with
  | [] => 0
  | d :: r => spec_luhn_term k d + spec_luhn_from (S k) r
  end.

Definition spec_luhn_sum (digits : list Z) : Z :=
  spec_luhn_from 0 (rev digits).

(** White space, for text of code units below 256: tab, line feed,
    vertical tab, form feed, carriage return, space and the no-break
    space. *)
Definition spec_whitespace : list ascii :=
  ["009"; "010"; "011"; "012"; "013"; " "; "160"]%char.

(** The characters of a text that are not white space, in order. *)
Definition spec_stripped (s : string) : list ascii :=
  filter (fun c => c ∉ spec_whitespace) (list_ascii_of_string s).

(** The decimal digits, each at the place of its value. *)
Definition spec_numerals : list ascii := list_ascii_of_string "0123456789".

(** The value of a decimal digit; [None] for any other character. *)
Definition spec_digit (c : ascii) : option Z :=
  (fun found : nat * ascii => Z.of_nat found.1)
    <$> list_find (fun d => d = c) spec_numerals.

(** The digits of a text that, stripped of white space, consists of
    digits only. *)
Definition spec_digits (s : string) : option (list Z) :=
  mapM spec_digit (spec_stripped s).

(** A string is an acceptable account number: stripped of white space it
    is 13 to 19 digits whose checksum is a multiple of 10. *)
Definition spec_card_number_ok (s : string) : Prop :=
  match spec_digits s with
  | Some digits =>
      (13 <= length digits <= 19)%nat /\ spec_luhn_sum digits mod 10 = 0
  | None => False
  end.

(** A string fails by its checksum alone: 13 to 19 digits once stripped
    of white space, whose checksum is not a multiple of 10. *)
Definition spec_checksum_failure (s : string) : Prop :=
  match spec_digits s with
  | Some digits =>
      (13 <= length digits <= 19)%nat /\ spec_luhn_sum digits mod 10 <> 0
  | None => False
  end.

(** ** Reading a journal *)

Inductive Collection := BILLS | PAYMENTS | RECEIPTS | NOTIFICATIONS | MEMBERS.

(** The collection a write goes to. *)
Definition collection_of (wr : Write) : Collection :=
  match wr with
  | UpdateBillStatus _ _ _ => BILLS
  | SetPayment _ => PAYMENTS
  | SetReceipt _ => RECEIPTS
  | SetNotification _ => NOTIFICATIONS
  | BatchSetNotifications _ => NOTIFICATIONS
  | UpdateMemberHistory _ _ _ _ => MEMBERS
  end.

(** The payment documents a list of writes stores, in order. *)
Definition payment_writes (ws : list Write) : list Payment :=
  flat_map (fun wr => match wr with SetPayment p => [p] | _ => [] end) ws.

(** The notification documents a list of writes stores, in order. *)
Definition notification_writes (ws : list Write) : list Notification :=
  flat_map (fun wr =>
              match wr with
              | SetNotification n => [n]
              | BatchSetNotifications ns => ns
              | _ => []
              end) ws.

(** The writes journalled since the world [w], as seen from [w']. *)
Definition written_since (w w' : World) : list Write :=
  drop (length (journal w)) (journal w').

(** The receipts of the store that refer to a payment. *)
Definition receipts_of_payment (paymentId : string) (s : Store) : list Receipt :=
  filter (fun r => rcp_paymentId r = paymentId) ((map_to_list (receipts s)).*2).

(** ** The ordering and idempotence requirements as the specification
       words them *)

(** A payment that refers to a bill and settles is written first, then the
    bill, then the receipt, then the notification; and whoever reads the
    store between two of these writes and finds the bill paid finds the
    payment completed. *)
Definition spec_payment_first (pd : PaymentData) (w : World) : Prop :=
  forall billId res w',
    pd_billId pd = Some billId -> billId <> EmptyString ->
    PaymentService.processPayment pd w = (Returned res, w') ->
    success res = true ->
    collection_of <$> written_since w w' = [PAYMENTS; BILLS; RECEIPTS; NOTIFICATIONS]
    /\ forall k s,
         replay (take k (written_since w w')) (store w) = Some s ->
         bill_status <$> bills s !! billId = Some "paid" ->
         pay_status <$> payments s !! paymentId res = Some COMPLETED.

(** Two calls of [createReceipt] for one completed payment answer the same
    identifier and leave at most one receipt of that payment. *)
Definition spec_createReceipt_idempotent (payment : Payment) (w : World) : Prop :=
  forall id1 w1 id2 w2,
    pay_status payment = COMPLETED ->
    PaymentService.createReceipt payment w = (Returned id1, w1) ->
    PaymentService.createReceipt payment w1 = (Returned id2, w2) ->
    id1 = id2
    /\ (length (receipts_of_payment (pay_id payment) (store w2)) <= 1)%nat.

(** The transitions the invariant on bills forbids: from pending to
    anything but paid and cancelled, and from paid to anything. *)
Definition spec_inadmissible (from to : string) : bool :=
  (String.eqb from "pending"
   && negb (String.eqb to "paid" || String.eqb to "cancelled"))
  || String.eqb from "paid".

(** A forbidden transition is refused with an error and writes nothing. *)
Definition spec_transition_guarded (billId status : string) (w : World) : Prop :=
  forall b,
    bills (store w) !! billId = Some b ->
    spec_inadmissible (bill_status b) status = true ->
    exists e w',
      PaymentService.updateBillStatus billId status w = (Thrown e, w')
      /\ store w' = store w.

(** [reason] occurs in [text]. *)
Definition occurs_in (reason text : string) : bool :=
  match String.index 0 reason text with
  | Some _ => true
  | None => false
  end.

(** A card payment whose instrument fails validation ends as a stored
    failed payment whose error carries every validation reason, the
    settlement simulation not having drawn anything. *)
Definition spec_invalid_card_recorded (pd : PaymentData) (w : World) : Prop :=
  forall cardData,
    pd_cardData pd = Some cardData ->
    validateCardData (today w) cardData = false ->
    exists res w' p msg,
      PaymentService.processCardPayment pd w = (Returned res, w')
      /\ success res = false
      /\ payments (store w') !! paymentId res = Some p
      /\ pay_status p = FAILED
      /\ pay_errorMessage p = Some msg
      /\ (forall reason, reason ∈ cardDataErrors (today w) cardData ->
          occurs_in reason msg = true)
      /\ (draws w' <= S (draws w))%nat.

(** What the validation returns tells the failing reasons apart. *)
Definition spec_reasons_returned (date : Today) : Prop :=
  forall c1 c2,
    validateCardData date c1 = validateCardData date c2 ->
    cardDataErrors date c1 = cardDataErrors date c2.

(** A request and a notification document built from it. *)
Definition built_from (nd : NotificationData) (n : Notification) : Prop :=
  exists id t, n = NotificationService.notification_of id nd t.

(** ** Sample data *)

Module Sample.

Definition date : Today := mkToday 2026 11 1.

Definition bill : Bill :=
  mkBill "BILL-1" "member-1" "Ann" 100 "Monthly membership" 1000
         "pending" "membership" 500 500.

Definition store : Store := mkStore {[ "BILL-1" := bill ]} ∅ ∅ ∅ ∅.

(** Draws under which a payment is numbered 0042, settles, and its
    receipt is numbered 0007. *)
Definition settling (k : nat) : Q :=
  match k with
  | 0%nat => 42 # 10000
  | 1%nat => 1 # 2
  | 2%nat => 1 # 3
  | _ => 7 # 10000
  end.

(** Draws under which a payment is numbered 0042 and is declined. *)
Definition declining (k : nat) : Q :=
  match k with
  | 0%nat => 42 # 10000
  | _ => 1 # 20
  end.

Definition never (k : nat) : bool := false.

Definition world : World :=
  mkWorld store [] [] 2 2000 date never 0 settling 0.

Definition declined_world : World :=
  mkWorld store [] [] 2 2000 date never 0 declining 0.

Definition request : PaymentData :=
  mkPaymentData "member-1" "Ann" (Some "BILL-1") 100 "cash"
                "Monthly membership" "CASH-0001" None None None None.

(** What [processPayment] answers to [request] in [world]. *)
Definition result : PaymentResult :=
  mkPaymentResult "RCP-20261101-0042" true "Payment processed successfully".

(** A completed payment, as [processPayment] stores it. *)
Definition payment : Payment :=
  mkPayment "RCP-20261101-0042" "member-1" "Ann" (Some "BILL-1") 100 "cash"
            2000 COMPLETED "Monthly membership" "CASH-0001" 2000 2000 (Some 2000) None.

(** The sample world once the bill is paid. *)
Definition paid_world : World :=
  mkWorld (mkStore {[ "BILL-1" := with_status bill "paid" 1500 ]} ∅ ∅ ∅ ∅)
          [] [] 2 2000 date never 0 settling 0.

(** A world whose store rejects every operation. *)
Definition unreachable_world : World :=
  mkWorld store [] [] 2 2000 date (fun _ => true) 0 settling 0.

Definition good_card : CardData :=
  mkCardData "4532015112830366" "12/30" "123".

(** Only the account number fails. *)
Definition bad_number_card : CardData :=
  mkCardData "4532015112830367" "12/30" "123".

(** Only the security code fails. *)
Definition bad_cvv_card : CardData :=
  mkCardData "4532015112830366" "12/30" "12".

(** All three checks fail. *)
Definition bad_card : CardData :=
  mkCardData "1234" "13/20" "12a".

Definition card_request (c : CardData) : PaymentData :=
  mkPaymentData "member-1" "Ann" (Some "BILL-1") 100 "card"
                "Monthly membership" "CARD-0001" (Some c) None None None.

Definition notice : NotificationData :=
  mkNotificationData "member-1" "reminder" "Reminder" "Your bill is due"
                     None None.

Definition urgent_notice : NotificationData :=
  mkNotificationData "member-2" "system_update" "Closed" "Closed on Monday"
                     (Some "urgent") None.

End Sample.


(** * The rest of the services

    The methods of the payment service, the notification service, the
    logger and the formatters that the definitions above do not reach. *)

(** ** Writes that the journal does not follow

    The journal follows the writes of payment processing and notification
    dispatch, the ones of [Write]. Bill creation, read marks and deletions
    change the store through [db_apply]: one operation against the store,
    rejected by the persistence layer, refused by the store (an [update] of
    a missing document), or applied. *)
Definition db_apply (change : Store -> option Store) : Async unit :=
  fun w =>
    let w1 := next_operation w in
    if rejects w (operations w)
    then (Thrown (Error "The persistence layer rejected the operation"), w1)
    else
      match change (store w) with
      | Some s' => (Returned tt, set_store w1 s' (journal w))
      | None => (Thrown (Error "No document to update"), w1)
      end.

(** ** Billing operations of the payment service *)

(** The argument [billData] of [createBill]. *)
Record BillData := mkBillData {
  bd_memberId : string;
  bd_memberName : string;
  bd_amount : Z;
  bd_description : string;
  bd_dueDate : option Z;
  bd_billType : option string
}.

Module Billing.

(** The object literal [bill] of [createBill]. *)
Definition bill_of (billId : string) (billData : BillData) (now : Z) : Bill :=
  mkBill billId (bd_memberId billData) (bd_memberName billData)
    (bd_amount billData) (bd_description billData)
    (default now (bd_dueDate billData))
    "pending"
    (if truthy (bd_billType billData)
     then default EmptyString (bd_billType billData)
     else "membership")
    now now.

Definition sendBillNotification (bill : Bill) : Async unit :=
  try_catch
    (let notificationData :=
       mkNotificationData (bill_memberId bill) "bill_created"
         "New Bill Generated"
         ("A new bill of $" +:+ pretty (bill_amount bill)
          +:+ " has been generated for " +:+ bill_description bill)
         None
         (Some [("billId", JStr (bill_id bill));
                ("amount", JNum (bill_amount bill));
                ("dueDate", JNum (bill_dueDate bill))]) in
     await _ <- FirebaseServices.sendNotification notificationData;
     ret tt)
    (fun error => Logger.logError "BILL_NOTIFICATION_ERROR" error).

Definition createBill (billData : BillData) : Async string :=
  try_catch
    (await billId <- Utils.generateReceiptNumber;
     await now <- newDate;
     let bill := bill_of billId billData now in
     run db_apply (fun s => Some (set_bills s (<[billId := bill]> (bills s))));
     run sendBillNotification bill;
     run Logger.logPayment "BILL_CREATED" (bill_amount bill) true;
     ret billId)
    (fun error =>
       run Logger.logError "BILL_CREATION_ERROR" error;
       throw error).

End Billing.

(** ** The bank transfer wrapper of the payment service *)

Module Processing.

Definition paymentMethods_BANK_TRANSFER : string := "bank_transfer".

Definition processBankTransfer (paymentData : PaymentData) : Async PaymentResult :=
  try_catch
    (await now <- newDate;
     await t <- mathRandom;
     let transferData :=
       mkPaymentData (pd_memberId paymentData) (pd_memberName paymentData)
         (pd_billId paymentData) (pd_amount paymentData)
         paymentMethods_BANK_TRANSFER
         (pd_description paymentData) (pd_transactionId paymentData)
         (pd_cardData paymentData) (pd_cardLast4 paymentData)
         (pd_cardType paymentData)
         (Some ("REF-" +:+ pretty now +:+ "-"
                +:+ PaymentService.base36_fraction 9 t)) in
     PaymentService.processPayment transferData)
    (fun error =>
       run Logger.logError "BANK_TRANSFER_ERROR" error;
       throw error).

End Processing.

(** ** Notification management *)

Module NotificationManagement.

(** A notification document after [update({status: 'read', readAt})]. *)
Definition mark_read (readAt : Z) (n : Notification) : Notification :=
  mkNotification (ntf_id n) (ntf_memberId n) (ntf_type n) (ntf_title n)
    (ntf_message n) (ntf_priority n) "read" (ntf_data n) (ntf_createdAt n)
    (Some (Some readAt)).

(** [doc(notificationId).update({status: 'read', readAt})] on the store. *)
Definition update_read (notificationId : string) (readAt : Z) (s : Store)
  : option Store :=
  n ← notifications s !! notificationId;
  Some (set_notifications s
          (<[notificationId := mark_read readAt n]> (notifications s))).

Definition markNotificationAsRead (notificationId : string) : Async unit :=
  try_catch
    (await readAt <- newDate;
     run db_apply (update_read notificationId readAt);
     Logger.logNotification "NOTIFICATION_MARKED_READ" "read" true)
    (fun error =>
       run Logger.logError "NOTIFICATION_MARK_READ_ERROR" error;
       throw error).

(** The references of the documents in the snapshot of the query for the
    unread notifications of a member. *)
Definition unread_refs (memberId : string) (s : Store) : list string :=
  (filter (fun kn => NotificationService.is_unread_of memberId kn.2 = true)
          (map_to_list (notifications s))).*1.

(** The batch of [markAllNotificationsAsRead], committed: every update
    applies, or none does. *)
Definition batch_update_read (refs : list string) (readAt : Z) (s : Store)
  : option Store :=
  foldl (fun acc ref => acc ≫= update_read ref readAt) (Some s) refs.

Definition markAllNotificationsAsRead (memberId : string) : Async unit :=
  try_catch
    (await refs <- db_query (unread_refs memberId);
     await readAt <- newDate;
     run db_apply (batch_update_read refs readAt);
     Logger.logNotification "ALL_NOTIFICATIONS_MARKED_READ" "bulk_read" true)
    (fun error =>
       run Logger.logError "ALL_NOTIFICATIONS_MARK_READ_ERROR" error;
       throw error).

Definition deleteNotification (notificationId : string) : Async unit :=
  try_catch
    (run db_apply
           (fun s => Some (set_notifications s
                             (delete notificationId (notifications s))));
     Logger.logNotification "NOTIFICATION_DELETED" "delete" true)
    (fun error =>
       run Logger.logError "NOTIFICATION_DELETE_ERROR" error;
       throw error).

End NotificationManagement.

(** ** Promotions *)

(** The argument [promotionData] of [sendPromotionNotification]. *)
Record PromotionData := mkPromotionData {
  promo_id : string;
  promo_title : string;
  promo_message : string;
  promo_discount : Z;
  promo_validUntil : Z
}.

Module SystemNotifications.

(** The request built for one member by the [map] of
    [sendPromotionNotification]. *)
Definition promotion_for (promotionData : PromotionData) (memberId : string)
  : NotificationData :=
  mkNotificationData memberId "promotion" (promo_title promotionData)
    (promo_message promotionData)
    (Some NotificationService.priorities_MEDIUM)
    (Some [("promotionId", JStr (promo_id promotionData));
           ("discount", JNum (promo_discount promotionData));
           ("validUntil", JNum (promo_validUntil promotionData))]).

Definition sendPromotionNotification (memberIds : list string)
    (promotionData : PromotionData) : Async unit :=
  try_catch
    (let notifications := promotion_for promotionData <$> memberIds in
     await _ <- NotificationService.sendBulkNotifications notifications;
     ret tt)
    (fun error =>
       run Logger.logError "PROMOTION_NOTIFICATION_ERROR" error;
       throw error).

End SystemNotifications.

(** ** Reading the log buffer *)

Module LogBuffer.

(** [array.slice(start)] *)
Definition slice_from {A} (start : Z) (l : list A) : list A :=
  let len := Z.of_nat (length l) in
  let from := if start <? 0 then Z.max (len + start) 0 else Z.min start len in
  drop (Z.to_nat from) l.

(** [logger.getLogs(limit)] *)
Definition getLogs (limit : Z) (w : World) : list LogEntry :=
  slice_from (- limit) (logBuffer w).

End LogBuffer.

(** ** More of [utils.formatters] and [utils.arrayUtils] *)

Module Formatters.

(** [s.replace(/\D/g, '')] *)
Fixpoint keep_digits (s : string) : string :=
  match s with
  | EmptyString => EmptyString
  | String c r =>
      if JsString.is_digit c then String c (keep_digits r) else keep_digits r
  end.

Definition formatPhone (phone : string) : string :=
  let cleaned := keep_digits phone in
  if (String.length cleaned =? 10)%nat
  then "(" +:+ String.substring 0 3 cleaned +:+ ") "
       +:+ String.substring 3 3 cleaned +:+ "-"
       +:+ String.substring 6 4 cleaned
  else phone.

(** [formatDuration] of a whole number of seconds; [%] keeps the sign of
    its left operand. *)
Definition formatDuration (seconds : Z) : string :=
  let hours := seconds / 3600 in
  let minutes := Z.rem seconds 3600 / 60 in
  let secs := Z.rem seconds 60 in
  JsString.padStart0 2 (pretty hours) +:+ ":"
  +:+ JsString.padStart0 2 (pretty minutes) +:+ ":"
  +:+ JsString.padStart0 2 (pretty secs).

End Formatters.

Module ArrayUtils.

Section RemoveDuplicates.

Context {A K : Type} `{EqDecision K}.

(** The [filter] of [removeDuplicates], with the values [seen] so far;
    [keyOf] reads the value an item is compared by ([item[key]], or the
    item itself when no key is given). *)
Fixpoint removeDuplicates_from (keyOf : A -> K) (seen : list K) (array : list A)
  : list A :=
  match array with
  | [] => []
  | item :: rest =>
      let value := keyOf item in
      if decide (value ∈ seen)
      then removeDuplicates_from keyOf seen rest
      else item :: removeDuplicates_from keyOf (value :: seen) rest
  end.

Definition removeDuplicates (keyOf : A -> K) (array : list A) : list A :=
  removeDuplicates_from keyOf [] array.

End RemoveDuplicates.

End ArrayUtils.

(** ** Helpers for statements about strings *)

(** No character of [s] is [sep]. *)
Definition free_of (sep : ascii) (s : string) : bool :=
  forallb (fun c => negb (Ascii.eqb c sep)) (JsString.chars s).

(** The two-digit numeral of a number below 100, as [MM] and [YY] are
    written. *)
Definition two_digits (n : Z) : string := JsString.padStart0 2 (pretty n).

Definition two_digits_checked (k : nat) : bool :=
  match JsString.parseInt (two_digits (Z.of_nat k)) with
  | Some m => m =? Z.of_nat k
  | None => false
  end
  && forallb JsString.is_digit (JsString.chars (two_digits (Z.of_nat k)))
  && (String.length (two_digits (Z.of_nat k)) =? 2)%nat.


(** ** Comparing two runs *)

(** Two runs end alike but for the log buffer: same outcome, same store
    and journal, same counts of store operations and draws. *)
Definition same_but_log {A} (x y : Outcome A * World) : Prop :=
  x.1 = y.1
  /\ store x.2 = store y.2
  /\ journal x.2 = journal y.2
  /\ operations x.2 = operations y.2
  /\ draws x.2 = draws y.2.

(** The request [processCardPayment] hands on to [processPayment]. *)
Definition card_shaped (pd : PaymentData) (cardData : CardData) : PaymentData :=
  mkPaymentData (pd_memberId pd) (pd_memberName pd) (pd_billId pd)
    (pd_amount pd) "card" (pd_description pd) (pd_transactionId pd)
    (pd_cardData pd)
    (Some (JsString.slice_last 4 (number cardData)))
    (Some (getCardType (number cardData)))
    (pd_referenceNumber pd).

(** The request [processCashPayment] hands on to [processPayment]. *)
Definition cash_shaped (pd : PaymentData) : PaymentData :=
  mkPaymentData (pd_memberId pd) (pd_memberName pd) (pd_billId pd)
    (pd_amount pd) "cash" (pd_description pd) (pd_transactionId pd)
    (pd_cardData pd) (pd_cardLast4 pd) (pd_cardType pd)
    (pd_referenceNumber pd).

(** The request [processBankTransfer] hands on to [processPayment], with
    the reference it has generated. *)
Definition transfer_shaped (pd : PaymentData) (reference : string) : PaymentData :=
  mkPaymentData (pd_memberId pd) (pd_memberName pd) (pd_billId pd)
    (pd_amount pd) "bank_transfer" (pd_description pd) (pd_transactionId pd)
    (pd_cardData pd) (pd_cardLast4 pd) (pd_cardType pd)
    (Some reference).

(** ** Counting unread notifications *)

(** What a notification adds to the unread count of a member. *)
Definition unread_weight (memberId : string) (n : Notification) : Z :=
  if NotificationService.is_unread_of memberId n then 1 else 0.

(** A notification after [markAllNotificationsAsRead] for a member at
    time [readAt]. *)
Definition read_by (memberId : string) (readAt : Z) (n : Notification)
  : Notification :=
  if NotificationService.is_unread_of memberId n
  then NotificationManagement.mark_read readAt n
  else n.

(** ** A sample inbox *)

Module Inbox.

Definition unread_1 : Notification :=
  mkNotification "N1" "member-1" "reminder" "Reminder" "Your bill is due"
                 (Some "medium") "unread" [] 1000 (Some None).

Definition unread_2 : Notification :=
  mkNotification "N2" "member-1" "promotion" "Offer" "Two for one"
                 (Some "low") "unread" [] 1100 (Some None).

Definition read_3 : Notification :=
  mkNotification "N3" "member-1" "welcome" "Welcome" "Welcome to the gym"
                 (Some "medium") "read" [] 900 (Some (Some 950)).

Definition other_4 : Notification :=
  mkNotification "N4" "member-2" "reminder" "Reminder" "Your bill is due"
                 (Some "medium") "unread" [] 1200 (Some None).

Definition store : Store :=
  mkStore ∅ ∅ ∅
          (<["N1" := unread_1]> (<["N2" := unread_2]>
             (<["N3" := read_3]> {[ "N4" := other_4 ]})))
          ∅.

Definition world : World :=
  mkWorld store [] [] 2 2000 Sample.date Sample.never 0 Sample.settling 0.

Definition promotion : PromotionData :=
  mkPromotionData "PROMO-1" "Summer offer" "Two months for one" 50 3000.

End Inbox.

(** A world whose log buffer is full: [maxLogEntries] entries, numbered
    from 0 in the order they were logged. *)
Module FullLog.

Definition entry (k : nat) : LogEntry :=
  mkLogEntry "INFO" "PAGE_VIEW" [("page", JNum (Z.of_nat k))].

Definition buffer : list LogEntry := entry <$> seq 0 Logger.maxLogEntries.

Definition world : World :=
  mkWorld Sample.store [] buffer 2 2000 Sample.date Sample.never 0
          Sample.settling 0.

End FullLog.

(** A promotion notification written for a member. *)
Definition promotion_written (promotionData : PromotionData)
    (memberId : string) (n : Notification) : Prop :=
  ntf_memberId n = memberId
  /\ ntf_type n = "promotion"
  /\ ntf_title n = promo_title promotionData
  /\ ntf_message n = promo_message promotionData
  /\ ntf_priority n = Some "medium"
  /\ ntf_status n = "unread"
  /\ ntf_readAt n = Some None.

(** A draw is a number of the interval from 0, included, to 1, excluded. *)
Definition unit_draw (r : Q) : Prop := Qle (inject_Z 0) r /\ Qlt r (inject_Z 1).

(** [s.charAt(k)] is a character of [s]. *)
Definition charAt_checked (s : string) (k : nat) : bool :=
  match Utils.charAt (Z.of_nat k) s with
  | String c EmptyString => existsb (Ascii.eqb c) (JsString.chars s)
  | _ => false
  end.

(** The numeral of a number below 10000, padded to four digits. *)
Definition four_digits (n : Z) : string := JsString.padStart0 4 (pretty n).


(** * Properties *)

(** ** Validation *)

Lemma luhn_loop_spec (rest : list ascii) (sum : Z) (k : nat) :
  luhn_loop rest sum (Nat.odd k)
  = sum + spec_luhn_from k (map JsString.digit_value rest).
Proof.
  revert sum k. induction rest as [|c rest IH]; intros sum k; simpl.
  - lia.
  - rewrite Nat.negb_odd, <- Nat.odd_succ, IH.
    unfold spec_luhn_term.
    destruct (Nat.odd k); simpl; [|lia].
    replace (JsString.digit_value c * 2) with (2 * JsString.digit_value c) by lia.
    destruct (9 <? 2 * JsString.digit_value c); lia.
Qed.

Lemma chars_length (s : string) : length (JsString.chars s) = String.length s.
Proof. induction s; simpl; congruence. Qed.

Lemma all_digits_between_spec (lo hi : nat) (s : string) :
  JsString.all_digits_between lo hi s = true
  <-> Forall (fun c => JsString.is_digit c = true) (JsString.chars s)
      /\ (lo <= length (JsString.chars s) <= hi)%nat.
Proof.
  unfold JsString.all_digits_between.
  rewrite !andb_true_iff, forallb_forall, Forall_forall, chars_length.
  rewrite !Nat.leb_le.
  setoid_rewrite <- list_elem_of_In. tauto.
Qed.

(** The code's character classes against the specification's lists. *)
Lemma is_space_spec (c : ascii) :
  JsString.is_space c = bool_decide (c ∈ spec_whitespace).
Proof. destruct c as [[] [] [] [] [] [] [] []]; vm_compute; reflexivity. Qed.

Lemma is_digit_spec (c : ascii) :
  spec_digit c
  = if JsString.is_digit c then Some (JsString.digit_value c) else None.
Proof. destruct c as [[] [] [] [] [] [] [] []]; vm_compute; reflexivity. Qed.

Lemma chars_strip_spaces (s : string) :
  JsString.chars (JsString.strip_spaces s) = spec_stripped s.
Proof.
  unfold spec_stripped. induction s as [|c s IH]; [reflexivity|].
  change (list_ascii_of_string (String c s)) with (c :: list_ascii_of_string s).
  rewrite filter_cons. simpl JsString.strip_spaces.
  rewrite is_space_spec.
  destruct (decide (c ∉ spec_whitespace)) as [Hc|Hc].
  - rewrite bool_decide_eq_false_2 by exact Hc.
    simpl. f_equal. exact IH.
  - rewrite bool_decide_eq_true_2 by (apply dec_stable; exact Hc).
    exact IH.
Qed.

Lemma mapM_spec_digit (l : list ascii) :
  mapM spec_digit l
  = if forallb JsString.is_digit l then Some (map JsString.digit_value l)
    else None.
Proof.
  induction l as [|c l IH]; [reflexivity|].
  cbn [mapM forallb map]. rewrite IH, is_digit_spec.
  destruct (JsString.is_digit c); [|reflexivity].
  destruct (forallb JsString.is_digit l); reflexivity.
Qed.

(** C5. [validateCardNumber] accepts a string exactly when, stripped of
    white space, it consists of 13 to 19 digits and its checksum (every
    second digit from the rightmost doubled, 9 taken off a doubled digit
    above 9, everything summed) is a multiple of 10. The number
    4532015112830366 is accepted, with or without white space between
    its digits; 4532015112830367 is rejected, and by its checksum alone. *)
Theorem validateCardNumber_luhn :
  (forall s : string, validateCardNumber s = true <-> spec_card_number_ok s)
  /\ validateCardNumber "4532015112830366" = true
  /\ validateCardNumber "4532015112830367" = false
  /\ spec_checksum_failure "4532015112830367"
  /\ validateCardNumber "4532 0151 1283 0366" = true
  /\ validateCardNumber (" 4532" +:+ String "009" "0151 1283" +:+ String "160" "0366 ")
     = true
  /\ validateCardNumber "4532 0151 1283 0367" = false.
Proof.
  split.
  2:{ repeat split; try reflexivity; vm_compute; try lia; discriminate. }
  intros s. unfold validateCardNumber, spec_card_number_ok, spec_digits, spec_luhn_sum.
  cbv zeta.
  rewrite <- chars_strip_spaces, mapM_spec_digit.
  pose proof (luhn_loop_spec (rev (JsString.chars (JsString.strip_spaces s))) 0 0) as L.
  change (Nat.odd 0) with false in L. rewrite L, Z.add_0_l, map_rev. clear L.
  unfold JsString.all_digits_between. rewrite <- chars_length.
  destruct (forallb JsString.is_digit (JsString.chars (JsString.strip_spaces s)));
    cbn [andb negb]; [|split; [discriminate|contradiction]].
  rewrite length_map.
  destruct (13 <=? length (JsString.chars (JsString.strip_spaces s)))%nat eqn:Hlo;
    cbn [andb negb].
  2:{ apply Nat.leb_gt in Hlo. split; [discriminate|]. lia. }
  destruct (length (JsString.chars (JsString.strip_spaces s)) <=? 19)%nat eqn:Hhi;
    cbn [andb negb].
  2:{ apply Nat.leb_gt in Hhi. split; [discriminate|]. lia. }
  apply Nat.leb_le in Hlo, Hhi. rewrite Z.eqb_eq. tauto.
Qed.

(** ** How the primitive operations run *)

Lemma log_runs (level : Logger.Level) (action : string) (details : JsObject) (w : World) :
  exists buffer, Logger.log level action details w = (Returned tt, set_logBuffer w buffer).
Proof.
  unfold Logger.log, Logger.addToBuffer.
  destruct (currentLogLevel w <? Logger.logLevels level).
  - exists (logBuffer w). destruct w; reflexivity.
  - eexists; reflexivity.
Qed.

Lemma generateReceiptNumber_runs (w : World) :
  exists receiptNumber,
    Utils.generateReceiptNumber w = (Returned receiptNumber, next_draw w).
Proof.
  unfold Utils.generateReceiptNumber, Utils.randomBelow, bind, getToday, mathRandom, ret.
  cbv beta iota zeta. eexists; reflexivity.
Qed.

Ltac run_log :=
  match goal with
  | |- context [Logger.log ?l ?a ?d ?w] =>
      let b := fresh "buffer" in
      let E := fresh "E" in
      destruct (log_runs l a d w) as [b E]; rewrite E; clear E
  end.

Ltac reduce :=
  cbv beta iota;
  cbn [store journal logBuffer currentLogLevel clock today rejects operations
       random draws set_store set_logBuffer next_operation next_draw
       pr_success pr_error
       bills payments receipts notifications members
       set_bills set_payments set_receipts set_notifications set_members
       apply_write fst snd].

Ltac unfold_async :=
  unfold Logger.logPayment, Logger.logError, Logger.logNotification,
    try_catch, bind, ret, throw, newDate, getToday, mathRandom, db_write, db_query.

(** A write that returns has been applied to the store and journalled; a
    write that throws has changed neither. *)
Lemma db_write_journalled (wr : Write) (w : World) :
  match db_write wr w with
  | (Returned _, w') =>
      journal w' = journal w ++ [wr] /\ apply_write wr (store w) = Some (store w')
  | (Thrown _, w') => journal w' = journal w /\ store w' = store w
  end.
Proof.
  unfold db_write. destruct (rejects w (operations w)); [split; reflexivity|].
  destruct (apply_write wr (store w)); split; reflexivity.
Qed.

(** The three ways [updateBillStatus] can run. *)
Lemma updateBillStatus_rejected (billId status : string) (w : World) :
  rejects w (operations w) = true ->
  exists e buffer,
    PaymentService.updateBillStatus billId status w
    = (Thrown e, set_logBuffer (next_operation w) buffer).
Proof.
  intros H. unfold PaymentService.updateBillStatus. unfold_async.
  rewrite H. reduce. run_log. eauto.
Qed.

Lemma updateBillStatus_missing (billId status : string) (w : World) :
  bills (store w) !! billId = None ->
  exists e buffer,
    PaymentService.updateBillStatus billId status w
    = (Thrown e, set_logBuffer (next_operation w) buffer).
Proof.
  intros H. unfold PaymentService.updateBillStatus. unfold_async.
  destruct (rejects w (operations w)); reduce.
  - run_log. eauto.
  - rewrite H. reduce. simpl. run_log. eauto.
Qed.

Lemma updateBillStatus_applied (billId status : string) (w : World) (b : Bill) :
  rejects w (operations w) = false ->
  bills (store w) !! billId = Some b ->
  exists buffer,
    PaymentService.updateBillStatus billId status w
    = (Returned tt,
       set_logBuffer
         (set_store (next_operation w)
            (set_bills (store w)
               (<[billId := with_status b status (clock w)]> (bills (store w))))
            (journal w ++ [UpdateBillStatus billId status (clock w)]))
         buffer).
Proof.
  intros H Hb. unfold PaymentService.updateBillStatus. unfold_async.
  rewrite H. reduce. rewrite Hb. simpl. run_log. eauto.
Qed.

(** The two ways [createReceipt] can run. *)
Lemma createReceipt_rejected (payment : Payment) (w : World) :
  rejects w (operations w) = true ->
  exists e buffer,
    PaymentService.createReceipt payment w
    = (Thrown e, set_logBuffer (next_operation (next_draw w)) buffer).
Proof.
  intros H. unfold PaymentService.createReceipt. unfold_async.
  destruct (generateReceiptNumber_runs w) as [n ->]. reduce.
  rewrite H. run_log. eauto.
Qed.

Lemma createReceipt_applied (payment : Payment) (w : World) :
  rejects w (operations w) = false ->
  exists receiptId buffer,
    Utils.generateReceiptNumber w = (Returned receiptId, next_draw w)
    /\ PaymentService.createReceipt payment w
       = (Returned receiptId,
          set_logBuffer
            (set_store (next_operation (next_draw w))
               (set_receipts (store w)
                  (<[receiptId := PaymentService.receipt_of receiptId payment (clock w)]>
                     (receipts (store w))))
               (journal w
                ++ [SetReceipt (PaymentService.receipt_of receiptId payment (clock w))]))
            buffer).
Proof.
  intros H. unfold PaymentService.createReceipt. unfold_async.
  destruct (generateReceiptNumber_runs w) as [n E]. rewrite E. reduce.
  rewrite H. reduce. run_log. eauto.
Qed.

Ltac run_number :=
  match goal with
  | |- context [Utils.generateReceiptNumber ?w] =>
      let n := fresh "number" in
      let E := fresh "E" in
      destruct (generateReceiptNumber_runs w) as [n E]; rewrite E; clear E
  end.

Ltac run_update :=
  match goal with
  | |- context [PaymentService.updateBillStatus ?i ?s ?w] =>
      let R := fresh "Hrej" in
      let B := fresh "Hbill" in
      let E := fresh "E" in
      destruct (rejects w (operations w)) eqn:R;
      [ destruct (updateBillStatus_rejected i s w R) as (? & ? & E)
      | destruct (bills (store w) !! i) eqn:B;
        [ destruct (updateBillStatus_applied i s w _ R B) as (? & E)
        | destruct (updateBillStatus_missing i s w B) as (? & ? & E) ] ];
      rewrite E; clear E
  end.

Ltac run_receipt :=
  match goal with
  | |- context [PaymentService.createReceipt ?p ?w] =>
      let R := fresh "Hrej" in
      let E := fresh "E" in
      destruct (rejects w (operations w)) eqn:R;
      [ destruct (createReceipt_rejected p w R) as (? & ? & E)
      | destruct (createReceipt_applied p w R) as (? & ? & _ & E) ];
      rewrite E; clear E
  end.

Ltac run_write :=
  match goal with
  | |- context [if rejects ?w ?k then _ else _] =>
      let R := fresh "Hrej" in destruct (rejects w k) eqn:R
  end.

Ltac run_truthy :=
  match goal with
  | |- context [truthy ?o] =>
      let T := fresh "Htruthy" in destruct (truthy o) eqn:T
  end.

Ltac run_decide :=
  match goal with
  | |- context [decide (pay_status ?p = COMPLETED)] =>
      let D := fresh "D" in
      destruct (decide (pay_status p = COMPLETED)) as [D|D];
      [ try discriminate D | try (exfalso; apply D; reflexivity) ]
  end.

Ltac solve_journal :=
  rewrite <- ?app_assoc;
  first [reflexivity | exact (eq_sym (app_nil_r _))].

Ltac explore :=
  repeat (first [run_number | run_truthy | run_update | run_receipt | run_decide
                | run_log | run_write];
          reduce).

(** C7. When the settlement simulation declines a payment (the value it
    draws, the second of the run after the one numbering the payment, does
    not exceed 0.1), [processPayment] leaves the bills, the receipts, the
    notifications and the members as they were and journals nothing but,
    at most, the failed payment. If the store accepts that write, the
    payment is recorded as failed with the failure reason, the caller is
    told so, and the listener on the payments collection, shown this
    payment, sends no confirmation. *)
Theorem processPayment_settlement_failure (pd : PaymentData) (w : World) :
  PaymentService.exceeds_tenth (random w (S (draws w))) = false ->
  let out := PaymentService.processPayment pd w in
  let reason := "Payment processing failed. Please try again." in
  bills (store out.2) = bills (store w)
  /\ receipts (store out.2) = receipts (store w)
  /\ notifications (store out.2) = notifications (store w)
  /\ members (store out.2) = members (store w)
  /\ (journal out.2 = journal w
      \/ exists p, journal out.2 = journal w ++ [SetPayment p] /\ pay_status p = FAILED)
  /\ (rejects w (operations w) = false ->
      exists p,
        out.1 = Returned (mkPaymentResult (pay_id p) false reason)
        /\ pay_status p = FAILED
        /\ pay_errorMessage p = Some reason
        /\ pay_billId p = pd_billId pd
        /\ pay_amount p = pd_amount pd
        /\ payments (store out.2) = <[pay_id p := p]> (payments (store w))
        /\ journal out.2 = journal w ++ [SetPayment p]
        /\ PaymentService.handlePaymentStatusChange p out.2 = (Returned tt, out.2)).
Proof.
  intros Hfail. cbv zeta.
  unfold PaymentService.processPayment, PaymentService.simulatePaymentProcessing.
  unfold_async. run_number. reduce. rewrite Hfail. reduce.
  run_write; reduce.
  - run_log. reduce. repeat split; auto. discriminate.
  - run_decide. run_log. reduce.
    repeat split; eauto.
    intros _. eexists. repeat split; reflexivity.
Qed.

(** C8. [processPayment] never stores a pending payment. Whatever the
    store and the draws do, the run journals at most one payment document,
    written after the settlement simulation and carrying its outcome:
    completed if the simulation settled, failed if it declined. A run that
    returns has written exactly one, which is then the document found
    under the returned identifier. So if no stored payment was pending
    before the run, none is afterwards. *)
Theorem processPayment_never_pending (pd : PaymentData) (w : World) :
  let out := PaymentService.processPayment pd w in
  let outcome :=
    if PaymentService.exceeds_tenth (random w (S (draws w)))
    then COMPLETED else FAILED in
  exists delta,
    journal out.2 = journal w ++ delta
    /\ (length (payment_writes delta) <= 1)%nat
    /\ (forall p, p ∈ payment_writes delta -> pay_status p = outcome)
    /\ (forall res, out.1 = Returned res ->
        exists p, payment_writes delta = [p]
                  /\ pay_id p = paymentId res
                  /\ payments (store out.2) !! paymentId res = Some p)
    /\ ((forall k p, payments (store w) !! k = Some p -> pay_status p <> PENDING) ->
        forall k p, payments (store out.2) !! k = Some p -> pay_status p <> PENDING).
Proof.
  cbv zeta.
  unfold PaymentService.processPayment, PaymentService.simulatePaymentProcessing.
  unfold_async. run_number. reduce.
  destruct (PaymentService.exceeds_tenth (random w (S (draws w)))); reduce;
    explore.
  all: eexists; split; [solve_journal|].
  all: cbn [payment_writes flat_map app length].
  all: split; [lia|].
  all: split;
    [intros p Hp;
     first [ apply elem_of_nil in Hp; contradiction
           | apply list_elem_of_singleton in Hp as ->; reflexivity ]|].
  all: split;
    [intros res Hres;
     first [ discriminate Hres
           | injection Hres as <-;
             eexists; split; [reflexivity|]; split; [reflexivity|];
             apply lookup_insert_eq ]|].
  all: intros Hinv k p; try apply Hinv.
  all: cbn [PaymentService.completed PaymentService.failed
            PaymentService.payment_of pay_id].
  all: rewrite lookup_insert; case_decide; [|apply Hinv].
  all: intros [= <-]; discriminate.
Qed.

Tactic Notation "reduce" "in" hyp(H) :=
  cbv beta iota in H;
  cbn [store journal logBuffer currentLogLevel clock today rejects operations
       random draws set_store set_logBuffer next_operation next_draw
       pr_success pr_error
       bills payments receipts notifications members
       set_bills set_payments set_receipts set_notifications set_members
       apply_write fst snd] in H.

Ltac reduce_payment :=
  cbn [PaymentService.completed PaymentService.failed PaymentService.payment_of
       PaymentService.receipt_of
       pay_id pay_status pay_billId pay_errorMessage pay_amount
       rcp_id rcp_paymentId success paymentId].

Lemma truthy_Some (s : string) : s <> EmptyString -> truthy (Some s) = true.
Proof.
  intros H. unfold truthy. destruct (String.eqb_spec s EmptyString); [contradiction|reflexivity].
Qed.

(** C1, as the code has it. When [processPayment] returns success for a
    payment that refers to a bill, the run has made exactly three writes,
    in this order: the bill is set to paid, then the payment is stored,
    already completed, then the receipt is stored. The store after the run
    is the store before it with these three writes applied, and none of
    them stores a pending payment. After the first write a reader finds
    the bill paid and the payments collection as it was before the run. *)
Theorem processPayment_write_order
    (pd : PaymentData) (w : World) (billId : string)
    (res : PaymentResult) (w' : World) :
  pd_billId pd = Some billId -> billId <> EmptyString ->
  PaymentService.processPayment pd w = (Returned res, w') ->
  success res = true ->
  exists p r s1,
    let delta := [UpdateBillStatus billId "paid" (clock w); SetPayment p; SetReceipt r] in
    journal w' = journal w ++ delta
    /\ replay delta (store w) = Some (store w')
    /\ pay_id p = paymentId res
    /\ pay_status p = COMPLETED
    /\ pay_billId p = Some billId
    /\ rcp_paymentId r = paymentId res
    /\ replay (take 1 delta) (store w) = Some s1
    /\ bill_status <$> bills s1 !! billId = Some "paid"
    /\ payments s1 = payments (store w).
Proof.
  intros Hbill Hne Hrun Hok.
  apply truthy_Some in Hne.
  revert Hrun.
  unfold PaymentService.processPayment, PaymentService.simulatePaymentProcessing.
  unfold_async. run_number. reduce.
  destruct (PaymentService.exceeds_tenth (random w (S (draws w)))); reduce.
  - reduce_payment. rewrite Hbill, Hne. cbn [default]. explore.
    all: intros [= <- <-] || discriminate.
    reduce. reduce_payment. reduce in Hbill0.
    unfold id in *.
    eexists _, _, _. cbv zeta. split; [solve_journal|].
    cbn [take replay apply_write]. rewrite Hbill0.
    cbn [mbind option_bind]. reduce.
    repeat split; reduce_payment; auto.
    reduce. rewrite lookup_insert_eq. reflexivity.
  - explore. all: intros [= <- <-] || discriminate. discriminate Hok.
Qed.

Lemma processPayment_write_order_witness :
  let w' := (PaymentService.processPayment Sample.request Sample.world).2 in
  exists p r s1,
    let delta := [UpdateBillStatus "BILL-1" "paid" 2000; SetPayment p; SetReceipt r] in
    journal w' = journal Sample.world ++ delta
    /\ replay delta (store Sample.world) = Some (store w')
    /\ pay_id p = paymentId Sample.result
    /\ pay_status p = COMPLETED
    /\ pay_billId p = Some "BILL-1"
    /\ rcp_paymentId r = paymentId Sample.result
    /\ replay (take 1 delta) (store Sample.world) = Some s1
    /\ bill_status <$> bills s1 !! "BILL-1" = Some "paid"
    /\ payments s1 = payments (store Sample.world).
Proof.
  apply (processPayment_write_order Sample.request Sample.world "BILL-1"
           Sample.result).
  - reflexivity.
  - discriminate.
  - vm_compute. reflexivity.
  - reflexivity.
Defined.

(** C1, as the specification words it, fails: for the sample request, which
    refers to a pending bill and settles, the payment is not the first
    document written. *)
Lemma processPayment_bill_before_payment :
  ~ spec_payment_first Sample.request Sample.world.
Proof.
  intros H.
  destruct (H "BILL-1" Sample.result
              (PaymentService.processPayment Sample.request Sample.world).2)
    as [Horder _].
  - reflexivity.
  - discriminate.
  - vm_compute. reflexivity.
  - reflexivity.
  - vm_compute in Horder. discriminate Horder.
Qed.

(** What a reader sees after the first write of that run: the bill paid,
    and no payment under the identifier the run returns. *)
Example processPayment_sample_first_write :
  let w' := (PaymentService.processPayment Sample.request Sample.world).2 in
  collection_of <$> written_since Sample.world w' = [BILLS; PAYMENTS; RECEIPTS]
  /\ exists s,
       replay (take 1 (written_since Sample.world w')) (store Sample.world) = Some s
       /\ bill_status <$> bills s !! "BILL-1" = Some "paid"
       /\ payments s !! paymentId Sample.result = None.
Proof.
  split; [vm_compute; reflexivity|].
  eexists. split; [vm_compute; reflexivity|].
  split; vm_compute; reflexivity.
Qed.

Lemma processPayment_settlement_failure_witness :
  let out := PaymentService.processPayment Sample.request Sample.declined_world in
  let reason := "Payment processing failed. Please try again." in
  bills (store out.2) = bills (store Sample.declined_world)
  /\ receipts (store out.2) = receipts (store Sample.declined_world)
  /\ notifications (store out.2) = notifications (store Sample.declined_world)
  /\ members (store out.2) = members (store Sample.declined_world)
  /\ (journal out.2 = journal Sample.declined_world
      \/ exists p, journal out.2 = journal Sample.declined_world ++ [SetPayment p]
                   /\ pay_status p = FAILED)
  /\ exists p,
        out.1 = Returned (mkPaymentResult (pay_id p) false reason)
        /\ pay_status p = FAILED
        /\ pay_errorMessage p = Some reason
        /\ pay_billId p = pd_billId Sample.request
        /\ pay_amount p = pd_amount Sample.request
        /\ payments (store out.2) = <[pay_id p := p]> (payments (store Sample.declined_world))
        /\ journal out.2 = journal Sample.declined_world ++ [SetPayment p]
        /\ PaymentService.handlePaymentStatusChange p out.2 = (Returned tt, out.2).
Proof.
  pose proof (processPayment_settlement_failure Sample.request Sample.declined_world)
    as H.
  destruct H as (H1 & H2 & H3 & H4 & H5 & H6); [vm_compute; reflexivity|].
  repeat (split; [assumption|]).
  apply H6. reflexivity.
Defined.

Lemma processPayment_never_pending_witness :
  let out := PaymentService.processPayment Sample.request Sample.world in
  exists delta,
    journal out.2 = journal Sample.world ++ delta
    /\ (length (payment_writes delta) <= 1)%nat
    /\ (forall p, p ∈ payment_writes delta -> pay_status p = COMPLETED)
    /\ (exists p, payment_writes delta = [p]
                  /\ pay_id p = paymentId Sample.result
                  /\ payments (store out.2) !! paymentId Sample.result = Some p)
    /\ (forall k p, payments (store out.2) !! k = Some p -> pay_status p <> PENDING).
Proof.
  destruct (processPayment_never_pending Sample.request Sample.world)
    as (delta & H1 & H2 & H3 & H4 & H5).
  exists delta. repeat (split; [assumption|]).
  split.
  - apply H4. vm_compute. reflexivity.
  - apply H5. intros k p Hk. vm_compute in Hk. discriminate Hk.
Defined.

(** ** Receipts *)

Lemma generateReceiptNumber_frame (w1 w2 : World) :
  today w1 = today w2 -> random w1 = random w2 -> draws w1 = draws w2 ->
  (Utils.generateReceiptNumber w1).1 = (Utils.generateReceiptNumber w2).1.
Proof.
  intros Ht Hr Hd.
  unfold Utils.generateReceiptNumber, Utils.randomBelow, bind, getToday, mathRandom, ret.
  cbv beta iota zeta. cbn [fst]. rewrite Ht, Hr, Hd. reflexivity.
Qed.

Lemma receipt_listed (s : Store) (k : string) (r : Receipt) :
  receipts s !! k = Some r -> r ∈ receipts_of_payment (rcp_paymentId r) s.
Proof.
  intros H. unfold receipts_of_payment.
  apply list_elem_of_filter. split; [reflexivity|].
  apply list_elem_of_fmap. exists (k, r). split; [reflexivity|].
  apply elem_of_map_to_list. exact H.
Qed.

(** C2, as the code has it. [createReceipt] neither looks for a receipt of
    the payment nor reads the payment's status. Two calls in a row that
    return have each numbered a receipt with a fresh draw and stored it:
    the identifiers are the two numbers generated, the journal has grown
    by two receipt writes for the same payment, and when the two numbers
    differ the store holds two distinct receipts of that payment. *)
Theorem createReceipt_twice
    (payment : Payment) (w : World) (id1 : string) (w1 : World)
    (id2 : string) (w2 : World) :
  PaymentService.createReceipt payment w = (Returned id1, w1) ->
  PaymentService.createReceipt payment w1 = (Returned id2, w2) ->
  let r1 := PaymentService.receipt_of id1 payment (clock w) in
  let r2 := PaymentService.receipt_of id2 payment (clock w) in
  (Utils.generateReceiptNumber w).1 = Returned id1
  /\ (Utils.generateReceiptNumber (next_draw w)).1 = Returned id2
  /\ journal w2 = journal w ++ [SetReceipt r1; SetReceipt r2]
  /\ receipts (store w2) = <[id2 := r2]> (<[id1 := r1]> (receipts (store w)))
  /\ (id1 <> id2 ->
      r1 ∈ receipts_of_payment (pay_id payment) (store w2)
      /\ r2 ∈ receipts_of_payment (pay_id payment) (store w2)
      /\ r1 <> r2).
Proof.
  intros H1 H2. cbv zeta.
  destruct (rejects w (operations w)) eqn:R1.
  { destruct (createReceipt_rejected payment w R1) as (e & b & E).
    rewrite E in H1. discriminate H1. }
  destruct (createReceipt_applied payment w R1) as (n1 & b1 & N1 & E1).
  rewrite E1 in H1. injection H1 as <- <-.
  match type of H2 with
  | PaymentService.createReceipt _ ?W = _ =>
      destruct (rejects W (operations W)) eqn:R2;
      [ destruct (createReceipt_rejected payment W R2) as (e & b & E);
        rewrite E in H2; discriminate H2
      | destruct (createReceipt_applied payment W R2) as (n2 & b2 & N2 & E2);
        rewrite E2 in H2; injection H2 as <- <- ]
  end.
  split; [rewrite N1; reflexivity|].
  split.
  { apply (f_equal fst) in N2. cbn [fst] in N2. rewrite <- N2.
    apply generateReceiptNumber_frame; reflexivity. }
  reduce. split; [solve_journal|].
  split; [reflexivity|].
  intros Hne.
  set (r1 := PaymentService.receipt_of n1 payment (clock w)).
  set (r2 := PaymentService.receipt_of n2 payment (clock w)).
  split; [|split].
  - apply (receipt_listed _ n1 r1). reduce.
    rewrite lookup_insert_ne by congruence. apply lookup_insert_eq.
  - apply (receipt_listed _ n2 r2). reduce. apply lookup_insert_eq.
  - intros Heq. apply Hne. exact (f_equal rcp_id Heq).
Qed.

Lemma createReceipt_twice_witness :
  let id1 := "RCP-20261101-0042" in
  let id2 := "RCP-20261101-5000" in
  let w1 := (PaymentService.createReceipt Sample.payment Sample.world).2 in
  let w2 := (PaymentService.createReceipt Sample.payment w1).2 in
  let r1 := PaymentService.receipt_of id1 Sample.payment 2000 in
  let r2 := PaymentService.receipt_of id2 Sample.payment 2000 in
  (Utils.generateReceiptNumber Sample.world).1 = Returned id1
  /\ (Utils.generateReceiptNumber (next_draw Sample.world)).1 = Returned id2
  /\ journal w2 = journal Sample.world ++ [SetReceipt r1; SetReceipt r2]
  /\ receipts (store w2) = <[id2 := r2]> (<[id1 := r1]> (receipts (store Sample.world)))
  /\ (id1 <> id2 ->
      r1 ∈ receipts_of_payment (pay_id Sample.payment) (store w2)
      /\ r2 ∈ receipts_of_payment (pay_id Sample.payment) (store w2)
      /\ r1 <> r2).
Proof.
  apply (createReceipt_twice Sample.payment Sample.world "RCP-20261101-0042"
           (PaymentService.createReceipt Sample.payment Sample.world).2
           "RCP-20261101-5000").
  - vm_compute. reflexivity.
  - vm_compute. reflexivity.
Defined.

(** C2, as the specification words it, fails: two calls for the sample
    payment, which is completed, answer two identifiers. *)
Lemma createReceipt_duplicates :
  ~ spec_createReceipt_idempotent Sample.payment Sample.world.
Proof.
  intros H.
  destruct (H "RCP-20261101-0042"
              (PaymentService.createReceipt Sample.payment Sample.world).2
              "RCP-20261101-5000"
              (PaymentService.createReceipt Sample.payment
                 (PaymentService.createReceipt Sample.payment Sample.world).2).2)
    as [Hid _].
  - reflexivity.
  - vm_compute. reflexivity.
  - vm_compute. reflexivity.
  - discriminate Hid.
Qed.

Example createReceipt_sample_two_receipts :
  let w1 := (PaymentService.createReceipt Sample.payment Sample.world).2 in
  let w2 := (PaymentService.createReceipt Sample.payment w1).2 in
  length (receipts_of_payment (pay_id Sample.payment) (store w2)) = 2%nat.
Proof. vm_compute. reflexivity. Qed.

(** ** Bills *)

(** C3, as the code has it. [updateBillStatus] checks nothing about the
    transition. For a bill that exists, if the store accepts the write, the
    call returns and the bill carries the requested status, whatever its
    status was; its other fields but [updatedAt], and all other bills, are
    as before. The call throws, having written nothing, exactly when the
    bill is missing or the store rejects the operation. *)
Theorem updateBillStatus_unguarded (billId status : string) (w : World) :
  (forall b,
     bills (store w) !! billId = Some b ->
     rejects w (operations w) = false ->
     exists w',
       PaymentService.updateBillStatus billId status w = (Returned tt, w')
       /\ journal w' = journal w ++ [UpdateBillStatus billId status (clock w)]
       /\ store w'
          = set_bills (store w)
              (<[billId := with_status b status (clock w)]> (bills (store w)))
       /\ bill_status <$> bills (store w') !! billId = Some status)
  /\ (bills (store w) !! billId = None \/ rejects w (operations w) = true ->
      exists e w',
        PaymentService.updateBillStatus billId status w = (Thrown e, w')
        /\ store w' = store w
        /\ journal w' = journal w).
Proof.
  split.
  - intros b Hb Hrej.
    destruct (updateBillStatus_applied billId status w b Hrej Hb) as (buffer & E).
    rewrite E. eexists. split; [reflexivity|]. reduce.
    repeat split. rewrite lookup_insert_eq. reflexivity.
  - intros [H|H].
    + destruct (updateBillStatus_missing billId status w H) as (e & b & ->). eauto.
    + destruct (updateBillStatus_rejected billId status w H) as (e & b & ->). eauto.
Qed.

Lemma updateBillStatus_unguarded_witness :
  exists w',
    PaymentService.updateBillStatus "BILL-1" "pending" Sample.paid_world
    = (Returned tt, w')
    /\ journal w' = journal Sample.paid_world ++ [UpdateBillStatus "BILL-1" "pending" 2000]
    /\ store w'
       = set_bills (store Sample.paid_world)
           (<["BILL-1" := with_status (with_status Sample.bill "paid" 1500) "pending" 2000]>
              (bills (store Sample.paid_world)))
    /\ bill_status <$> bills (store w') !! "BILL-1" = Some "pending".
Proof.
  apply (proj1 (updateBillStatus_unguarded "BILL-1" "pending" Sample.paid_world)
           (with_status Sample.bill "paid" 1500)).
  - vm_compute. reflexivity.
  - reflexivity.
Defined.

(** C3, as the specification words it, fails: the sample bill, once paid,
    is put back to pending without an error. *)
Lemma updateBillStatus_reopens_paid_bill :
  ~ spec_transition_guarded "BILL-1" "pending" Sample.paid_world.
Proof.
  intros H.
  destruct (H (with_status Sample.bill "paid" 1500)) as (e & w' & Hrun & _).
  - vm_compute. reflexivity.
  - reflexivity.
  - vm_compute in Hrun. discriminate Hrun.
Qed.

(** ** Card payments *)

Lemma validateCardData_errors (date : Today) (c : CardData) :
  validateCardData date c = false <-> cardDataErrors date c <> [].
Proof.
  unfold validateCardData.
  destruct (cardDataErrors date c); simpl; split; congruence.
Qed.

(** C4, as the code has it. A card payment whose instrument fails
    validation is abandoned by throwing the error 'Invalid card
    information', whatever the failing reasons: nothing is drawn, so the
    payment is neither numbered nor submitted to the settlement simulation,
    nothing is asked of the store, and no payment is stored. *)
Theorem processCardPayment_invalid_card
    (pd : PaymentData) (cardData : CardData) (w : World) :
  pd_cardData pd = Some cardData ->
  validateCardData (today w) cardData = false ->
  exists w',
    PaymentService.processCardPayment pd w
    = (Thrown (Error "Invalid card information"), w')
    /\ store w' = store w
    /\ journal w' = journal w
    /\ draws w' = draws w
    /\ operations w' = operations w.
Proof.
  intros Hc Hv.
  unfold PaymentService.processCardPayment. unfold_async.
  rewrite Hc. reduce. rewrite Hv. reduce. cbn [negb]. run_log.
  eexists. split; [reflexivity|]. repeat split.
Qed.

Lemma processCardPayment_invalid_card_witness :
  exists w',
    PaymentService.processCardPayment
      (Sample.card_request Sample.bad_number_card) Sample.world
    = (Thrown (Error "Invalid card information"), w')
    /\ store w' = store Sample.world
    /\ journal w' = journal Sample.world
    /\ draws w' = draws Sample.world
    /\ operations w' = operations Sample.world.
Proof.
  apply (processCardPayment_invalid_card
           (Sample.card_request Sample.bad_number_card) Sample.bad_number_card).
  - reflexivity.
  - vm_compute. reflexivity.
Defined.

(** C4, as the specification words it, fails: the sample card payment with
    a wrong account number leaves no failed payment behind. *)
Lemma processCardPayment_no_failed_payment :
  ~ spec_invalid_card_recorded
      (Sample.card_request Sample.bad_number_card) Sample.world.
Proof.
  intros H.
  destruct (H Sample.bad_number_card) as (res & w' & p & msg & Hrun & _).
  - reflexivity.
  - vm_compute. reflexivity.
  - vm_compute in Hrun. discriminate Hrun.
Qed.

(** C6, as the code has it. [validateCardData] runs the three checks one
    after the other, none depending on another, and collects one reason
    per failing check; what it returns is only whether that collection is
    empty, that is, whether the three checks all passed. *)
Theorem validateCardData_collects (date : Today) (c : CardData) :
  cardDataErrors date c
  = (if validateCardNumber (number c) then [] else ["Invalid card number"])
    ++ (if validateExpiryDate date (expiry c) then [] else ["Invalid expiry date"])
    ++ (if validateCVV (cvv c) then [] else ["Invalid CVV"])
  /\ (validateCardData date c = true
      <-> validateCardNumber (number c) = true
          /\ validateExpiryDate date (expiry c) = true
          /\ validateCVV (cvv c) = true)
  /\ (validateCardData date c = false <-> cardDataErrors date c <> []).
Proof.
  split; [|split; [|apply validateCardData_errors]].
  - unfold cardDataErrors.
    destruct (validateCardNumber _), (validateExpiryDate _ _), (validateCVV _);
      reflexivity.
  - unfold validateCardData, cardDataErrors.
    destruct (validateCardNumber _), (validateExpiryDate _ _), (validateCVV _);
      simpl; intuition congruence.
Qed.

(** C6, as the specification words it, fails: a card whose number is wrong
    and a card whose security code is wrong get the same answer. *)
Lemma validateCardData_hides_reasons :
  ~ spec_reasons_returned Sample.date.
Proof.
  intros H.
  specialize (H Sample.bad_number_card Sample.bad_cvv_card).
  vm_compute in H. specialize (H eq_refl). discriminate H.
Qed.

Example validateCardData_samples :
  validateCardData Sample.date Sample.good_card = true
  /\ cardDataErrors Sample.date Sample.bad_number_card = ["Invalid card number"]
  /\ cardDataErrors Sample.date Sample.bad_cvv_card = ["Invalid CVV"]
  /\ cardDataErrors Sample.date Sample.bad_card
     = ["Invalid card number"; "Invalid expiry date"; "Invalid CVV"]
  /\ validateCardData Sample.date Sample.bad_card = false.
Proof. repeat split; vm_compute; reflexivity. Qed.

(** ** Notifications *)

(** On a page whose stored user reads, [getUnreadNotificationCount]
    always returns, and returns a non-negative integer: the number of
    unread notifications of the member when the store answers the query,
    and 0 when the store rejects it. It writes nothing. *)
Lemma getUnreadNotificationCount_total (memberId : string) (w : World) :
  exists n w',
    NotificationService.getUnreadNotificationCount memberId w = (Returned n, w')
    /\ 0 <= n
    /\ n = (if rejects w (operations w)
            then 0
            else NotificationService.unread_size memberId (store w))
    /\ store w' = store w
    /\ journal w' = journal w.
Proof.
  unfold NotificationService.getUnreadNotificationCount. unfold_async.
  destruct (rejects w (operations w)); reduce.
  - run_log. eexists _, _. split; [reflexivity|]. repeat split. lia.
  - eexists _, _. split; [reflexivity|]. repeat split.
    unfold NotificationService.unread_size. lia.
Qed.

Example getUnreadNotificationCount_sample_unreachable :
  (NotificationService.getUnreadNotificationCount "member-1"
     Sample.unreachable_world).1 = Returned 0.
Proof. vm_compute. reflexivity. Qed.

(** The method of [NotificationService] is the method on a page whose
    stored user is absent or reads as JSON. *)
Lemma getUnreadNotificationCount_on_page
    (item : Page.StoredUser) (memberId : string) (w : World) :
  item <> Page.BrokenItem ->
  Page.getUnreadNotificationCount item memberId w
  = NotificationService.getUnreadNotificationCount memberId w.
Proof.
  intros Hitem. destruct item as [|uid|]; [reflexivity|reflexivity|].
  contradiction.
Qed.

(** Whatever the stored user, the count of the store is returned when
    the store answers the query: nothing is logged then. *)
Lemma getUnreadNotificationCount_answered
    (item : Page.StoredUser) (memberId : string) (w : World) :
  rejects w (operations w) = false ->
  Page.getUnreadNotificationCount item memberId w
  = (Returned (NotificationService.unread_size memberId (store w)),
     next_operation w).
Proof.
  intros R. unfold Page.getUnreadNotificationCount, try_catch, db_query.
  rewrite R. reflexivity.
Qed.



Lemma generateRandomString_loop_runs (n : nat) (result : string) (w : World) :
  exists s,
    Utils.generateRandomString_loop n result w
    = (Returned s, Nat.iter n next_draw w).
Proof.
  revert result w. induction n as [|n IH]; intros result w.
  - eexists. reflexivity.
  - simpl Utils.generateRandomString_loop.
    unfold Utils.randomBelow, bind, mathRandom, ret. cbv beta iota.
    match goal with
    | |- context [Utils.generateRandomString_loop n ?r ?W] =>
        destruct (IH r W) as [s E]; rewrite E
    end.
    exists s. rewrite Nat.iter_succ_r. reflexivity.
Qed.

Lemma generateRandomString_runs (n : nat) (w : World) :
  exists s, Utils.generateRandomString n w = (Returned s, Nat.iter n next_draw w).
Proof. apply generateRandomString_loop_runs. Qed.

(** Iterated draws move nothing but the count of draws. *)
Lemma iter_next_draw (n : nat) (w : World) :
  Nat.iter n next_draw w
  = mkWorld (store w) (journal w) (logBuffer w) (currentLogLevel w) (clock w)
            (today w) (rejects w) (operations w) (random w) (n + draws w).
Proof.
  induction n as [|n IH].
  - destruct w; reflexivity.
  - rewrite Nat.iter_succ, IH. reflexivity.
Qed.

(** The document built from a request is unread, has a null [readAt], and
    has priority medium when the request has none. *)
Lemma notification_of_fresh (id : string) (nd : NotificationData) (t : Z) :
  let n := NotificationService.notification_of id nd t in
  ntf_id n = id
  /\ ntf_status n = "unread"
  /\ ntf_readAt n = Some None
  /\ (nd_priority nd = None -> ntf_priority n = Some "medium").
Proof.
  cbn. repeat split. intros ->. reflexivity.
Qed.

Lemma batch_loop_runs (nds : list NotificationData) (w : World) :
  exists batch k,
    NotificationService.batch_loop nds w = (Returned batch, Nat.iter k next_draw w)
    /\ Forall2 built_from nds batch.
Proof.
  revert w. induction nds as [|nd nds IH]; intros w.
  - exists [], 0%nat. split; [reflexivity|constructor].
  - cbn [NotificationService.batch_loop]. unfold bind at 1.
    destruct (generateRandomString_runs 8 w) as [id ->].
    unfold bind at 1. unfold newDate at 1. cbv beta iota zeta.
    unfold bind at 1.
    destruct (IH (Nat.iter 8 next_draw w)) as (batch & k & E & F).
    rewrite E. unfold ret. 
    exists (NotificationService.notification_of id nd (clock (Nat.iter 8 next_draw w)) :: batch),
           (k + 8)%nat.
    split.
    + rewrite Nat.iter_add. reflexivity.
    + constructor; [|exact F]. eexists _, _. reflexivity.
Qed.

Lemma batch_lookup (batch : list Notification) (m : gmap string Notification)
    (id : string) :
  id ∈ ntf_id <$> batch ->
  exists n,
    n ∈ batch /\ ntf_id n = id
    /\ foldl (fun m n => <[ntf_id n := n]> m) m batch !! id = Some n.
Proof.
  induction batch as [|x batch IH] using rev_ind; intros Hin.
  - apply elem_of_nil in Hin. contradiction.
  - rewrite foldl_app. cbn [foldl].
    destruct (decide (ntf_id x = id)) as [<-|Hne].
    + exists x. split; [apply elem_of_app; right; apply list_elem_of_singleton; reflexivity|].
      split; [reflexivity|]. apply lookup_insert_eq.
    + rewrite fmap_app in Hin. apply elem_of_app in Hin as [Hin|Hin].
      * destruct (IH Hin) as (n & Hn & Hid & Hl).
        exists n. split; [apply elem_of_app; left; exact Hn|].
        split; [exact Hid|]. rewrite lookup_insert_ne by exact Hne. exact Hl.
      * apply list_elem_of_singleton in Hin. congruence.
Qed.

Lemma built_from_fresh (nd : NotificationData) (n : Notification) :
  built_from nd n ->
  ntf_status n = "unread"
  /\ ntf_readAt n = Some None
  /\ (nd_priority nd = None -> ntf_priority n = Some "medium").
Proof.
  intros (id & t & ->).
  destruct (notification_of_fresh id nd t) as (_ & H1 & H2 & H3). auto.
Qed.

(** C10. Every notification document that [sendNotification] or
    [sendBulkNotifications] writes is built from a request with status
    unread and a null [readAt], and with priority medium when the request
    gives none. When [sendNotification] returns, the document is the one
    stored under the returned identifier; when [sendBulkNotifications]
    returns, one document per request went to the store in a single batch
    and each returned identifier leads to a document of that batch. *)
Theorem notifications_created_unread :
  (forall (nd : NotificationData) (w : World),
     let out := NotificationService.sendNotification nd w in
     exists delta,
       journal out.2 = journal w ++ delta
       /\ (forall n, n ∈ notification_writes delta ->
           built_from nd n
           /\ ntf_status n = "unread"
           /\ ntf_readAt n = Some None
           /\ (nd_priority nd = None -> ntf_priority n = Some "medium"))
       /\ (forall id, out.1 = Returned id ->
           exists n,
             notification_writes delta = [n]
             /\ ntf_id n = id
             /\ notifications (store out.2) !! id = Some n))
  /\ (forall (nds : list NotificationData) (w : World),
        let out := NotificationService.sendBulkNotifications nds w in
        exists delta batch,
          journal out.2 = journal w ++ delta
          /\ (delta = [] \/ delta = [BatchSetNotifications batch])
          /\ Forall2 (fun nd n =>
                        built_from nd n
                        /\ ntf_status n = "unread"
                        /\ ntf_readAt n = Some None
                        /\ (nd_priority nd = None -> ntf_priority n = Some "medium"))
                     nds batch
          /\ (forall ids, out.1 = Returned ids ->
              delta = [BatchSetNotifications batch]
              /\ ids = ntf_id <$> batch
              /\ forall id, id ∈ ids ->
                   exists n, n ∈ batch /\ ntf_id n = id
                             /\ notifications (store out.2) !! id = Some n)).
Proof.
  split.
  - intros nd w. cbv zeta.
    unfold NotificationService.sendNotification. unfold_async.
    destruct (generateRandomString_runs 8 w) as [id ->].
    rewrite iter_next_draw. reduce.
    run_write; reduce; run_log; reduce.
    + exists []. split; [solve_journal|].
      split; [intros n Hn; apply elem_of_nil in Hn; contradiction|].
      intros ? [=].
    + eexists. split; [solve_journal|].
      cbn [notification_writes flat_map app].
      split.
      * intros n Hn. apply list_elem_of_singleton in Hn as ->.
        split; [eexists _, _; reflexivity|].
        apply built_from_fresh. eexists _, _; reflexivity.
      * intros ? [= <-]. eexists. split; [reflexivity|].
        split; [reflexivity|]. apply lookup_insert_eq.
  - intros nds w. cbv zeta.
    unfold NotificationService.sendBulkNotifications. unfold_async.
    destruct (batch_loop_runs nds w) as (batch & k & -> & F).
    rewrite iter_next_draw. reduce.
    assert (F' : Forall2 (fun nd n =>
                        built_from nd n
                        /\ ntf_status n = "unread"
                        /\ ntf_readAt n = Some None
                        /\ (nd_priority nd = None -> ntf_priority n = Some "medium"))
                     nds batch).
    { eapply Forall2_impl; [exact F|].
      intros nd n Hb. split; [exact Hb|]. apply built_from_fresh, Hb. }
    run_write; reduce; run_log; reduce.
    + exists [], batch. split; [solve_journal|].
      split; [left; reflexivity|]. split; [exact F'|]. intros ? [=].
    + exists [BatchSetNotifications batch], batch. split; [solve_journal|].
      split; [right; reflexivity|]. split; [exact F'|].
      intros ? [= <-]. split; [reflexivity|]. split; [reflexivity|].
      intros id Hid. apply batch_lookup. exact Hid.
Qed.

Lemma notifications_created_unread_witness :
  let out := NotificationService.sendNotification Sample.notice Sample.world in
  exists id n,
    out.1 = Returned id
    /\ notifications (store out.2) !! id = Some n
    /\ ntf_status n = "unread"
    /\ ntf_readAt n = Some None
    /\ ntf_priority n = Some "medium".
Proof.
  destruct (proj1 notifications_created_unread Sample.notice Sample.world)
    as (delta & Hj & Hw & Hr).
  destruct (Hr "AfUAAAAA") as (n & Hn & Hid & Hl); [vm_compute; reflexivity|].
  exists "AfUAAAAA", n.
  split; [vm_compute; reflexivity|]. split; [exact Hl|].
  destruct (Hw n) as (_ & H1 & H2 & H3).
  - rewrite Hn. apply list_elem_of_singleton. reflexivity.
  - split; [exact H1|]. split; [exact H2|]. apply H3. reflexivity.
Defined.

Example sendBulkNotifications_sample :
  let out :=
    NotificationService.sendBulkNotifications
      [Sample.notice; Sample.urgent_notice] Sample.world in
  (fun n => (ntf_memberId n, ntf_priority n, ntf_status n, ntf_readAt n))
    <$> notification_writes (journal out.2)
  = [("member-1", Some "medium", "unread", Some None);
     ("member-2", Some "urgent", "unread", Some None)].
Proof. vm_compute. reflexivity. Qed.

(** ** Samples of the string functions *)

Example validateCardNumber_sample :
  validateCardNumber "4532 0151 1283 0366" = true
  /\ validateCardNumber "4532-0151-1283-0366" = false
  /\ validateCardNumber "453201511283" = false.
Proof. repeat split; reflexivity. Qed.

Example parseInt_samples :
  JsString.parseInt " 12abc" = Some 12
  /\ JsString.parseInt "0x1f" = Some 31
  /\ JsString.parseInt "-7" = Some (-7)
  /\ JsString.parseInt "abc" = None.
Proof. repeat split; reflexivity. Qed.

Example validateExpiryDate_samples :
  validateExpiryDate Sample.date "12/30" = true
  /\ validateExpiryDate Sample.date "10/26" = false
  /\ validateExpiryDate Sample.date "13/30" = false
  /\ validateExpiryDate Sample.date "soon" = true.
Proof. repeat split; reflexivity. Qed.

Example getCardType_samples :
  getCardType "4532015112830366" = "visa"
  /\ getCardType "5500 0000 0000 0004" = "mastercard"
  /\ getCardType "340000000000009" = "amex"
  /\ getCardType "6011000000000004" = "discover"
  /\ getCardType "5600000000000000" = "unknown".
Proof. repeat split; reflexivity. Qed.

(** * More properties *)

(** ** The checksum detects a wrong digit *)

Lemma strip_spaces_chars (s : string) :
  JsString.chars (JsString.strip_spaces s)
  = List.filter (fun c => negb (JsString.is_space c)) (JsString.chars s).
Proof.
  induction s as [|c s IH]; [reflexivity|].
  simpl. destruct (JsString.is_space c); simpl; congruence.
Qed.

Lemma chars_of_list (l : list ascii) : JsString.chars (string_of_list_ascii l) = l.
Proof. apply list_ascii_of_string_of_list_ascii. Qed.

Lemma digit_not_space (c : ascii) :
  JsString.is_digit c = true -> JsString.is_space c = false.
Proof.
  unfold JsString.is_digit, JsString.is_space.
  rewrite andb_true_iff, !Nat.leb_le. intros [H1 H2].
  rewrite !orb_false_iff, andb_false_iff, !Nat.leb_gt, !Nat.eqb_neq. lia.
Qed.

Lemma digit_value_range (c : ascii) :
  JsString.is_digit c = true -> 0 <= JsString.digit_value c <= 9.
Proof.
  unfold JsString.is_digit, JsString.digit_value.
  rewrite andb_true_iff, !Nat.leb_le. lia.
Qed.

Lemma digit_value_inj (c c' : ascii) :
  JsString.digit_value c = JsString.digit_value c' -> c = c'.
Proof.
  unfold JsString.digit_value, JsString.code. intros H.
  rewrite <- (ascii_nat_embedding c), <- (ascii_nat_embedding c').
  f_equal. lia.
Qed.

Lemma spec_luhn_from_app (k : nat) (l1 l2 : list Z) :
  spec_luhn_from k (l1 ++ l2)
  = spec_luhn_from k l1 + spec_luhn_from (k + length l1) l2.
Proof.
  revert k. induction l1 as [|d l1 IH]; intros k; simpl.
  - rewrite Nat.add_0_r. reflexivity.
  - rewrite IH. replace (S k + length l1)%nat with (k + S (length l1))%nat by lia. lia.
Qed.

(** Two different digits at the same place never weigh the same modulo 10. *)
Lemma spec_luhn_term_apart (k : nat) (d d' : Z) :
  0 <= d <= 9 -> 0 <= d' <= 9 -> d <> d' ->
  (spec_luhn_term k d' - spec_luhn_term k d) mod 10 <> 0.
Proof.
  intros Hd Hd' Hne. unfold spec_luhn_term. intros H.
  apply Z.mod_divide in H; [|lia]. destruct H as [q H].
  destruct (Nat.odd k); [|lia].
  destruct (Z.ltb_spec 9 (2 * d)) as [L|L], (Z.ltb_spec 9 (2 * d')) as [L'|L']; lia.
Qed.

(** The loop of [validateCardNumber] on the digits [l1 ++ c :: l2]. *)
Lemma luhn_loop_split (l1 l2 : list ascii) (c : ascii) :
  luhn_loop (rev (l1 ++ c :: l2)) 0 false
  = spec_luhn_from 0 (map JsString.digit_value (rev l2))
    + spec_luhn_term (length l2) (JsString.digit_value c)
    + spec_luhn_from (S (length l2)) (map JsString.digit_value (rev l1)).
Proof.
  pose proof (luhn_loop_spec (rev (l1 ++ c :: l2)) 0 0) as L.
  change (Nat.odd 0) with false in L. rewrite L, Z.add_0_l.
  rewrite rev_app_distr. simpl rev. rewrite <- app_assoc. simpl app.
  rewrite map_app, spec_luhn_from_app. simpl map. simpl spec_luhn_from.
  rewrite length_map, length_rev. simpl Nat.add. lia.
Qed.

Lemma filter_digit_middle (l1 l2 : list ascii) (c : ascii) :
  JsString.is_digit c = true ->
  JsString.chars (JsString.strip_spaces (string_of_list_ascii (l1 ++ c :: l2)))
  = List.filter (fun c => negb (JsString.is_space c)) l1
    ++ c :: List.filter (fun c => negb (JsString.is_space c)) l2.
Proof.
  intros Hc. rewrite strip_spaces_chars, chars_of_list, List.filter_app.
  simpl. rewrite (digit_not_space c Hc). reflexivity.
Qed.

(** X1. Replacing one digit of a card number that [validateCardNumber]
    accepts by a different digit gives a number it rejects, wherever the
    digit stands and whatever white space the number contains. *)
Theorem validateCardNumber_detects_wrong_digit
    (l1 l2 : list ascii) (c c' : ascii) :
  JsString.is_digit c = true ->
  JsString.is_digit c' = true ->
  c <> c' ->
  validateCardNumber (string_of_list_ascii (l1 ++ c :: l2)) = true ->
  validateCardNumber (string_of_list_ascii (l1 ++ c' :: l2)) = false.
Proof.
  intros Hc Hc' Hne.
  unfold validateCardNumber. cbv zeta.
  destruct (JsString.all_digits_between 13 19
              (JsString.strip_spaces (string_of_list_ascii (l1 ++ c :: l2))))
    eqn:E; [|discriminate].
  destruct (JsString.all_digits_between 13 19
              (JsString.strip_spaces (string_of_list_ascii (l1 ++ c' :: l2))))
    eqn:E'; [|reflexivity].
  simpl negb. cbv iota.
  rewrite (filter_digit_middle l1 l2 c Hc), (filter_digit_middle l1 l2 c' Hc').
  rewrite !luhn_loop_split.
  rewrite Z.eqb_eq, Z.eqb_neq.
  set (a := spec_luhn_from 0 _). set (b := spec_luhn_from (S _) _).
  set (k := length _).
  pose proof (spec_luhn_term_apart k (JsString.digit_value c)
                (JsString.digit_value c')
                (digit_value_range c Hc) (digit_value_range c' Hc')) as Hap.
  intros H0 H1. apply Hap.
  - intros Heq. apply Hne. apply digit_value_inj. exact Heq.
  - apply Z.mod_divide in H0; [|lia]. apply Z.mod_divide in H1; [|lia].
    apply Z.mod_divide; [lia|].
    destruct H0 as [q0 H0], H1 as [q1 H1]. exists (q1 - q0). lia.
Qed.

Lemma validateCardNumber_detects_wrong_digit_witness :
  validateCardNumber "4532 0151 1283 0367" = false.
Proof.
  apply (validateCardNumber_detects_wrong_digit
           (JsString.chars "4532 0151 1283 036") [] "6"%char "7"%char).
  - reflexivity.
  - reflexivity.
  - discriminate.
  - vm_compute. reflexivity.
Defined.

(** ** White space and prefixes of card numbers *)

Lemma strip_spaces_insert (s1 s2 : string) (ws : ascii) :
  JsString.is_space ws = true ->
  JsString.strip_spaces (s1 +:+ String ws s2) = JsString.strip_spaces (s1 +:+ s2).
Proof.
  intros H. induction s1 as [|c s1 IH]; simpl.
  - rewrite H. reflexivity.
  - rewrite IH. reflexivity.
Qed.

(** The [if] chain of [getCardType] reads at most the first two
    characters of the stripped number. *)
Lemma getCardType_two_chars (s : string) :
  getCardType s
  = match JsString.strip_spaces s with
    | String a (String b _) => getCardType (String a (String b EmptyString))
    | String a EmptyString => getCardType (String a EmptyString)
    | EmptyString => "unknown"
    end.
Proof.
  unfold getCardType at 1.
  destruct (JsString.strip_spaces s) as [|a [|b r]] eqn:E; [reflexivity| |].
  - assert (Ha : JsString.is_space a = false).
    { clear -E. revert E. induction s as [|c s IH]; simpl; [discriminate|].
      destruct (JsString.is_space c) eqn:Ec; [exact IH|]. intros [= <- _]. exact Ec. }
    unfold getCardType. simpl JsString.strip_spaces. rewrite Ha. reflexivity.
  - assert (Hab : JsString.is_space a = false /\ JsString.is_space b = false).
    { clear -E. revert E. induction s as [|c s IH]; simpl; [discriminate|].
      destruct (JsString.is_space c) eqn:Ec; [exact IH|]. intros [= <- E].
      split; [exact Ec|].
      clear -E. revert E. induction s as [|c s IH]; simpl; [discriminate|].
      destruct (JsString.is_space c) eqn:Ec; [exact IH|]. intros [= <- _]. exact Ec. }
    destruct Hab as [Ha Hb].
    unfold getCardType. simpl JsString.strip_spaces. rewrite Ha, Hb.
    destruct a as [[] [] [] [] [] [] [] []]; reflexivity.
Qed.

(** X2. White space inside a card number changes neither the verdict of
    [validateCardNumber] nor the type [getCardType] gives: a white-space
    character inserted anywhere is ignored. *)
Theorem card_number_ignores_spaces (s1 s2 : string) (ws : ascii) :
  JsString.is_space ws = true ->
  validateCardNumber (s1 +:+ String ws s2) = validateCardNumber (s1 +:+ s2)
  /\ getCardType (s1 +:+ String ws s2) = getCardType (s1 +:+ s2).
Proof.
  intros H. unfold validateCardNumber, getCardType.
  rewrite (strip_spaces_insert s1 s2 ws H). split; reflexivity.
Qed.

Lemma card_number_ignores_spaces_witness :
  validateCardNumber "4532 015112830366" = validateCardNumber "4532015112830366"
  /\ getCardType "4532 015112830366" = getCardType "4532015112830366".
Proof.
  apply (card_number_ignores_spaces "4532" "015112830366" " "%char).
  reflexivity.
Defined.

(** X3. [getCardType] depends on nothing but the first two characters of
    the number stripped of white space: two numbers that agree on them get
    the same type, be they valid or not, and the type is one of visa,
    mastercard, amex, discover and unknown. *)
Theorem getCardType_prefix (s t : string) :
  String.substring 0 2 (JsString.strip_spaces s)
  = String.substring 0 2 (JsString.strip_spaces t) ->
  getCardType s = getCardType t
  /\ getCardType s ∈ ["visa"; "mastercard"; "amex"; "discover"; "unknown"].
Proof.
  intros H. split.
  - rewrite (getCardType_two_chars s), (getCardType_two_chars t).
    destruct (JsString.strip_spaces s) as [|a [|b r]],
             (JsString.strip_spaces t) as [|a' [|b' r']];
      simpl in H; try discriminate H; try reflexivity.
    + injection H as ->. reflexivity.
    + injection H as -> ->. reflexivity.
  - rewrite (getCardType_two_chars s).
    destruct (JsString.strip_spaces s) as [|a [|b r]].
    + set_solver.
    + destruct a as [[] [] [] [] [] [] [] []]; vm_compute; set_solver.
    + unfold getCardType. 
      destruct (JsString.strip_spaces (String a (String b EmptyString)))
        as [|x [|y z]]; [set_solver| |].
      * destruct x as [[] [] [] [] [] [] [] []]; set_solver.
      * destruct x as [[] [] [] [] [] [] [] []]; try set_solver.
        -- destruct (_ || _); set_solver.
        -- destruct (_ && _); set_solver.
Qed.

Lemma getCardType_prefix_witness :
  getCardType "4532015112830366" = getCardType "4532015112830367"
  /\ getCardType "4532015112830366"
     ∈ ["visa"; "mastercard"; "amex"; "discover"; "unknown"].
Proof.
  apply (getCardType_prefix "4532015112830366" "4532015112830367").
  vm_compute. reflexivity.
Defined.

(** ** Expiry dates *)

Lemma rev_app_rev_app (s t u : string) :
  String.rev_app (String.rev_app s t) u = String.rev_app t (s +:+ u).
Proof.
  revert t. induction s as [|c s IH]; intros t; simpl; [reflexivity|].
  rewrite IH. reflexivity.
Qed.

Lemma append_empty_r (s : string) : s +:+ EmptyString = s.
Proof.
  induction s as [|c s IH]; [reflexivity|].
  change (String c (s +:+ EmptyString) = String c s). f_equal. exact IH.
Qed.

Lemma rev_rev_app (s : string) :
  String.rev (String.rev_app s EmptyString) = s.
Proof.
  unfold String.rev. rewrite rev_app_rev_app. simpl. apply append_empty_r.
Qed.

Lemma split_go_free (sep : ascii) (cur s : string) :
  free_of sep s = true ->
  JsString.split_go sep cur s = [String.rev (String.rev_app s cur)].
Proof.
  unfold free_of. revert cur.
  induction s as [|c s IH]; intros cur H; simpl in *; [reflexivity|].
  apply andb_true_iff in H as [Hc Hs].
  apply negb_true_iff in Hc. rewrite Hc. apply IH. exact Hs.
Qed.

Lemma split_go_first (sep : ascii) (cur a b : string) :
  free_of sep a = true ->
  JsString.split_go sep cur (a +:+ String sep b)
  = String.rev (String.rev_app a cur) :: JsString.split_go sep EmptyString b.
Proof.
  unfold free_of. revert cur.
  induction a as [|c a IH]; intros cur H; simpl in *.
  - rewrite Ascii.eqb_refl. reflexivity.
  - apply andb_true_iff in H as [Hc Hs].
    apply negb_true_iff in Hc. rewrite Hc. apply IH. exact Hs.
Qed.

Lemma split_two (sep : ascii) (a b : string) :
  free_of sep a = true -> free_of sep b = true ->
  JsString.split sep (a +:+ String sep b) = [a; b].
Proof.
  intros Ha Hb. unfold JsString.split.
  rewrite (split_go_first sep EmptyString a b Ha), (split_go_free sep EmptyString b Hb).
  rewrite !rev_rev_app. reflexivity.
Qed.

Lemma split_one (sep : ascii) (a : string) :
  free_of sep a = true -> JsString.split sep a = [a].
Proof.
  intros Ha. unfold JsString.split.
  rewrite (split_go_free sep EmptyString a Ha), rev_rev_app. reflexivity.
Qed.

Lemma digits_free_of (sep : ascii) (s : string) :
  JsString.is_digit sep = false ->
  forallb JsString.is_digit (JsString.chars s) = true ->
  free_of sep s = true.
Proof.
  intros Hsep H. unfold free_of. rewrite forallb_forall in *.
  intros c Hc. specialize (H c Hc). apply negb_true_iff.
  destruct (Ascii.eqb_spec c sep) as [->|]; [congruence|reflexivity].
Qed.

(** [parseInt] reads a two-digit numeral back. *)
Lemma parseInt_two_digits (n : Z) :
  0 <= n < 100 ->
  JsString.parseInt (two_digits n) = Some n
  /\ forallb JsString.is_digit (JsString.chars (two_digits n)) = true
  /\ String.length (two_digits n) = 2%nat.
Proof.
  intros Hn.
  assert (Hall : forallb two_digits_checked (seq 0 100) = true)
    by (vm_compute; reflexivity).
  rewrite forallb_forall in Hall.
  specialize (Hall (Z.to_nat n)).
  unfold two_digits_checked in Hall. rewrite Z2Nat.id in Hall by lia.
  assert (Hin : In (Z.to_nat n) (seq 0 100)) by (apply in_seq; lia).
  specialize (Hall Hin).
  apply andb_true_iff in Hall as [Hall Hlen].
  apply andb_true_iff in Hall as [Hp Hf].
  destruct (JsString.parseInt (two_digits n)) as [m|]; [|discriminate].
  apply Z.eqb_eq in Hp. apply Nat.eqb_eq in Hlen. subst m. auto.
Qed.

(** X4. For an expiry written [MM/YY] with two-digit numerals,
    [validateExpiryDate] answers true exactly when the month is 1 to 12
    and the pair is not before the current month of the current two-digit
    year. *)
Theorem validateExpiryDate_two_digits (today : Today) (m y : Z) :
  0 <= m < 100 -> 0 <= y < 100 ->
  validateExpiryDate today (two_digits m +:+ "/" +:+ two_digits y) = true
  <-> 1 <= m <= 12
      /\ (fullYear today mod 100 < y
          \/ (y = fullYear today mod 100 /\ monthOfYear today <= m)).
Proof.
  intros Hm Hy.
  destruct (parseInt_two_digits m Hm) as (Pm & Fm & _).
  destruct (parseInt_two_digits y Hy) as (Py & Fy & _).
  apply (digits_free_of "/"%char) in Fm; [|reflexivity].
  apply (digits_free_of "/"%char) in Fy; [|reflexivity].
  unfold validateExpiryDate.
  change (two_digits m +:+ "/" +:+ two_digits y)
    with (two_digits m +:+ String "/"%char (two_digits y)).
  rewrite (split_two "/"%char _ _ Fm Fy). simpl lookup. simpl mbind.
  rewrite Pm, Py. unfold JsString.num_lt, JsString.num_eq.
  destruct (Z.ltb_spec m 1), (Z.ltb_spec 12 m), (Z.ltb_spec y (fullYear today mod 100)),
    (Z.eqb_spec y (fullYear today mod 100)), (Z.ltb_spec m (monthOfYear today));
    simpl; split; intros; try discriminate; try reflexivity; lia.
Qed.

Lemma validateExpiryDate_two_digits_witness :
  validateExpiryDate Sample.date "11/26" = true
  <-> 1 <= 11 <= 12
      /\ (fullYear Sample.date mod 100 < 26
          \/ (26 = fullYear Sample.date mod 100 /\ monthOfYear Sample.date <= 11)).
Proof.
  apply (validateExpiryDate_two_digits Sample.date 11 26); lia.
Defined.

(** X5. An expiry without a slash has no year to compare: whenever its
    text does not read as a number, or reads as a month from 1 to 12,
    [validateExpiryDate] accepts it, whatever the current date. *)
Theorem validateExpiryDate_without_year (today : Today) (expiry : string) :
  free_of "/"%char expiry = true ->
  (JsString.parseInt expiry = None
   \/ exists m, JsString.parseInt expiry = Some m /\ 1 <= m <= 12) ->
  validateExpiryDate today expiry = true.
Proof.
  intros Hf Hp. unfold validateExpiryDate.
  rewrite (split_one "/"%char expiry Hf). simpl lookup. simpl mbind.
  destruct Hp as [-> | (m & -> & Hm)]; [reflexivity|].
  unfold JsString.num_lt, JsString.num_eq.
  destruct (Z.ltb_spec m 1), (Z.ltb_spec 12 m); try lia. reflexivity.
Qed.

Lemma validateExpiryDate_without_year_witness :
  validateExpiryDate Sample.date "12" = true.
Proof.
  apply (validateExpiryDate_without_year Sample.date "12").
  - reflexivity.
  - right. exists 12. split; [reflexivity|lia].
Defined.

(** ** What [processPayment] leaves in the store *)

Ltac reduce_rejects :=
  repeat match goal with
         | H : rejects _ _ = _ |- _ => progress (reduce in H)
         | H : bills _ !! _ = _ |- _ => progress (reduce in H)
         end.

(** X6. Whenever [processPayment] returns, the document stored under the
    returned identifier, replacing whatever was stored under it, is the
    payment of the request: same member, bill, amount and method, status
    completed with a settlement time when the result reports success,
    status failed with the reported message as its error otherwise. *)
Theorem processPayment_stores_request
    (pd : PaymentData) (w : World) (res : PaymentResult) (w' : World) :
  PaymentService.processPayment pd w = (Returned res, w') ->
  exists p,
    payments (store w') !! paymentId res = Some p
    /\ pay_id p = paymentId res
    /\ pay_memberId p = pd_memberId pd
    /\ pay_billId p = pd_billId pd
    /\ pay_amount p = pd_amount pd
    /\ pay_paymentMethod p = pd_paymentMethod pd
    /\ pay_status p = (if success res then COMPLETED else FAILED)
    /\ pay_processedAt p = (if success res then Some (clock w) else None)
    /\ pay_errorMessage p = (if success res then None else Some (message res)).
Proof.
  unfold PaymentService.processPayment, PaymentService.simulatePaymentProcessing.
  unfold_async. run_number. reduce.
  destruct (PaymentService.exceeds_tenth (random w (S (draws w)))); reduce;
    explore.
  all: intros [= <- <-] || discriminate.
  all: reduce; eexists; split; [apply lookup_insert_eq|].
  all: repeat split.
Qed.

Lemma processPayment_stores_request_witness :
  exists p,
    payments (store (PaymentService.processPayment Sample.request Sample.world).2)
      !! paymentId Sample.result = Some p
    /\ pay_id p = paymentId Sample.result
    /\ pay_memberId p = pd_memberId Sample.request
    /\ pay_billId p = pd_billId Sample.request
    /\ pay_amount p = pd_amount Sample.request
    /\ pay_paymentMethod p = pd_paymentMethod Sample.request
    /\ pay_status p = (if success Sample.result then COMPLETED else FAILED)
    /\ pay_processedAt p
       = (if success Sample.result then Some (clock Sample.world) else None)
    /\ pay_errorMessage p
       = (if success Sample.result then None else Some (message Sample.result)).
Proof.
  apply (processPayment_stores_request Sample.request Sample.world Sample.result).
  vm_compute. reflexivity.
Defined.

(** X7. Whenever [processPayment] returns success, the store holds a
    receipt of the returned payment, filed under its own receipt number
    and copying the member, the amount and the method of the request. *)
Theorem processPayment_success_has_receipt
    (pd : PaymentData) (w : World) (res : PaymentResult) (w' : World) :
  PaymentService.processPayment pd w = (Returned res, w') ->
  success res = true ->
  exists r,
    receipts (store w') !! rcp_id r = Some r
    /\ r ∈ receipts_of_payment (paymentId res) (store w')
    /\ rcp_receiptNumber r = rcp_id r
    /\ rcp_memberId r = pd_memberId pd
    /\ rcp_amount r = pd_amount pd
    /\ rcp_paymentMethod r = pd_paymentMethod pd
    /\ rcp_status r = "completed".
Proof.
  intros Hrun Hok. revert Hrun.
  unfold PaymentService.processPayment, PaymentService.simulatePaymentProcessing.
  unfold_async. run_number. reduce.
  destruct (PaymentService.exceeds_tenth (random w (S (draws w)))); reduce;
    explore.
  all: intros [= <- <-] || discriminate.
  all: try discriminate Hok.
  all: reduce; eexists; split; [apply lookup_insert_eq|].
  all: split; [|repeat split].
  all: match goal with
       | |- ?r ∈ receipts_of_payment _ ?s =>
           apply (receipt_listed s (rcp_id r) r); apply lookup_insert_eq
       end.
Qed.

Lemma processPayment_success_has_receipt_witness :
  exists r,
    receipts (store (PaymentService.processPayment Sample.request Sample.world).2)
      !! rcp_id r = Some r
    /\ r ∈ receipts_of_payment (paymentId Sample.result)
             (store (PaymentService.processPayment Sample.request Sample.world).2)
    /\ rcp_receiptNumber r = rcp_id r
    /\ rcp_memberId r = pd_memberId Sample.request
    /\ rcp_amount r = pd_amount Sample.request
    /\ rcp_paymentMethod r = pd_paymentMethod Sample.request
    /\ rcp_status r = "completed".
Proof.
  apply (processPayment_success_has_receipt Sample.request Sample.world
           Sample.result).
  - vm_compute. reflexivity.
  - reflexivity.
Defined.

(** ** How [processPayment] fails *)

(** X8. A payment that settles but refers to a bill the store does not
    hold is lost: [processPayment] throws, and neither the payment nor a
    receipt nor anything else has been written. *)
Theorem processPayment_missing_bill
    (pd : PaymentData) (w : World) (billId : string) :
  PaymentService.exceeds_tenth (random w (S (draws w))) = true ->
  pd_billId pd = Some billId -> billId <> EmptyString ->
  bills (store w) !! billId = None ->
  exists e w',
    PaymentService.processPayment pd w = (Thrown e, w')
    /\ store w' = store w
    /\ journal w' = journal w.
Proof.
  intros Hok Hbill Hne Hnone. apply truthy_Some in Hne.
  unfold PaymentService.processPayment, PaymentService.simulatePaymentProcessing.
  unfold_async. run_number. reduce. rewrite Hok. reduce.
  reduce_payment. rewrite Hbill, Hne. cbn [default]. unfold id.
  run_update; reduce; reduce_rejects; try congruence.
  all: run_log; reduce; eexists _, _; repeat split.
Qed.

Lemma processPayment_missing_bill_witness :
  let pd :=
    mkPaymentData "member-1" "Ann" (Some "BILL-9") 100 "cash"
                  "Monthly membership" "CASH-0002" None None None None in
  exists e w',
    PaymentService.processPayment pd Sample.world = (Thrown e, w')
    /\ store w' = store Sample.world
    /\ journal w' = journal Sample.world.
Proof.
  apply (processPayment_missing_bill _ Sample.world "BILL-9").
  - vm_compute. reflexivity.
  - reflexivity.
  - discriminate.
  - vm_compute. reflexivity.
Defined.

(** X9. Nothing is rolled back. If the store accepts the update of the
    bill and then rejects the payment document, [processPayment] throws
    with the bill paid and no payment stored; if it rejects only the
    receipt, [processPayment] throws although the bill is paid and the
    completed payment is stored. *)
Theorem processPayment_no_rollback
    (pd : PaymentData) (w : World) (billId : string) (b : Bill) :
  PaymentService.exceeds_tenth (random w (S (draws w))) = true ->
  pd_billId pd = Some billId -> billId <> EmptyString ->
  bills (store w) !! billId = Some b ->
  rejects w (operations w) = false ->
  let out := PaymentService.processPayment pd w in
  (rejects w (S (operations w)) = true ->
   (exists e, out.1 = Thrown e)
   /\ bills (store out.2) !! billId = Some (with_status b "paid" (clock w))
   /\ payments (store out.2) = payments (store w)
   /\ receipts (store out.2) = receipts (store w))
  /\ (rejects w (S (operations w)) = false ->
      rejects w (S (S (operations w))) = true ->
      (exists e, out.1 = Thrown e)
      /\ bills (store out.2) !! billId = Some (with_status b "paid" (clock w))
      /\ (exists id p, payments (store out.2) !! id = Some p
                       /\ pay_status p = COMPLETED
                       /\ pay_billId p = Some billId)
      /\ receipts (store out.2) = receipts (store w)).
Proof.
  intros Hok Hbill Hne Hb Hr0. apply truthy_Some in Hne. cbv zeta.
  unfold PaymentService.processPayment, PaymentService.simulatePaymentProcessing.
  unfold_async. run_number. reduce. rewrite Hok. reduce.
  reduce_payment. rewrite Hbill, Hne. cbn [default]. unfold id.
  run_update; reduce; reduce_rejects; try congruence.
  assert (b0 = b) as -> by congruence.
  split.
  - intros Hr1. rewrite Hr1. reduce. run_log. reduce.
    split; [eauto|]. split; [apply lookup_insert_eq|]. split; reflexivity.
  - intros Hr1 Hr2. rewrite Hr1. reduce. run_decide.
    run_receipt; reduce; reduce_rejects; try congruence.
    run_log. reduce.
    split; [eauto|]. split; [apply lookup_insert_eq|].
    split; [|reflexivity].
    eexists _, _. split; [apply lookup_insert_eq|].
    split; [reflexivity|]. exact Hbill.
Qed.

Lemma processPayment_no_rollback_witness :
  let w := mkWorld Sample.store [] [] 2 2000 Sample.date
             (fun k => match k with 1%nat => true | _ => false end)
             0 Sample.settling 0 in
  let out := PaymentService.processPayment Sample.request w in
  (exists e, out.1 = Thrown e)
  /\ bills (store out.2) !! "BILL-1" = Some (with_status Sample.bill "paid" 2000)
  /\ payments (store out.2) = payments (store w)
  /\ receipts (store out.2) = receipts (store w).
Proof.
  cbv zeta.
  apply (processPayment_no_rollback Sample.request
           (mkWorld Sample.store [] [] 2 2000 Sample.date
              (fun k => match k with 1%nat => true | _ => false end)
              0 Sample.settling 0) "BILL-1" Sample.bill).
  - vm_compute. reflexivity.
  - reflexivity.
  - discriminate.
  - vm_compute. reflexivity.
  - reflexivity.
  - reflexivity.
Defined.

(** X10. A payment that refers to no bill, its [billId] being absent or
    empty, never touches the bills: whatever the store and the draws do,
    the bills, the notifications and the members are as before, and no
    write of the run goes to the bills collection. *)
Theorem processPayment_without_bill (pd : PaymentData) (w : World) :
  truthy (pd_billId pd) = false ->
  let out := PaymentService.processPayment pd w in
  bills (store out.2) = bills (store w)
  /\ notifications (store out.2) = notifications (store w)
  /\ members (store out.2) = members (store w)
  /\ exists delta,
       journal out.2 = journal w ++ delta
       /\ BILLS ∉ collection_of <$> delta.
Proof.
  intros Hno. cbv zeta.
  unfold PaymentService.processPayment, PaymentService.simulatePaymentProcessing.
  unfold_async. run_number. reduce.
  destruct (PaymentService.exceeds_tenth (random w (S (draws w)))); reduce.
  - reduce_payment. rewrite Hno. explore.
    all: repeat (split; [reflexivity|]).
    all: eexists; split; [solve_journal|].
    all: cbn; intros Hin;
      repeat (apply elem_of_cons in Hin as [Hin|Hin]; [discriminate Hin|]);
      apply elem_of_nil in Hin; exact Hin.
  - explore.
    all: repeat (split; [reflexivity|]).
    all: eexists; split; [solve_journal|].
    all: cbn; intros Hin;
      repeat (apply elem_of_cons in Hin as [Hin|Hin]; [discriminate Hin|]);
      apply elem_of_nil in Hin; exact Hin.
Qed.

Lemma processPayment_without_bill_witness :
  let pd :=
    mkPaymentData "member-1" "Ann" None 50 "cash" "Day pass" "CASH-0003"
                  None None None None in
  let out := PaymentService.processPayment pd Sample.world in
  bills (store out.2) = bills (store Sample.world)
  /\ notifications (store out.2) = notifications (store Sample.world)
  /\ members (store out.2) = members (store Sample.world)
  /\ exists delta,
       journal out.2 = journal Sample.world ++ delta
       /\ BILLS ∉ collection_of <$> delta.
Proof.
  cbv zeta.
  apply (processPayment_without_bill
           (mkPaymentData "member-1" "Ann" None 50 "cash" "Day pass" "CASH-0003"
                          None None None None) Sample.world).
  reflexivity.
Defined.

(** ** The wrappers of [processPayment] *)

(** A [catch] that logs the error and throws it again changes nothing but
    the log buffer. *)
Lemma rethrow_same {A} (action : string) (m : Async A) (w : World) :
  same_but_log
    (try_catch m (fun error => run Logger.logError action error; throw error) w)
    (m w).
Proof.
  unfold same_but_log, try_catch, Logger.logError, bind, throw.
  destruct (m w) as [[a|e] w1]; [repeat split|].
  run_log. repeat split.
Qed.

(** X11. The method wrappers add nothing to [processPayment] but the
    method they impose and an entry in the log when it throws.
    [processCashPayment] runs as [processPayment] on the request with
    method cash; [processCardPayment], when the card passes validation, as
    [processPayment] on the request with method card; and
    [processBankTransfer], which first draws a reference, as
    [processPayment] on the request with method bank_transfer after that
    draw. *)
Theorem wrappers_delegate (pd : PaymentData) (w : World) :
  same_but_log (PaymentService.processCashPayment pd w)
               (PaymentService.processPayment (cash_shaped pd) w)
  /\ (forall cardData,
        pd_cardData pd = Some cardData ->
        validateCardData (today w) cardData = true ->
        same_but_log (PaymentService.processCardPayment pd w)
                     (PaymentService.processPayment (card_shaped pd cardData) w))
  /\ (exists reference,
        same_but_log (Processing.processBankTransfer pd w)
                     (PaymentService.processPayment
                        (transfer_shaped pd reference) (next_draw w))).
Proof.
  split; [|split].
  - apply (rethrow_same "CASH_PAYMENT_ERROR").
  - intros cardData Hc Hv.
    unfold PaymentService.processCardPayment.
    match goal with
    | |- same_but_log (try_catch ?m _ w) _ =>
        assert (E : m w = PaymentService.processPayment (card_shaped pd cardData) w)
    end.
    { unfold bind, getToday, ret. rewrite Hc. cbv beta iota. rewrite Hv.
      reflexivity. }
    rewrite <- E. apply (rethrow_same "CARD_PAYMENT_ERROR").
  - eexists.
    unfold Processing.processBankTransfer.
    match goal with
    | |- same_but_log (try_catch ?m _ w) _ =>
        assert (E : m w
                    = PaymentService.processPayment
                        (transfer_shaped pd
                           ("REF-" +:+ pretty (clock w) +:+ "-"
                            +:+ PaymentService.base36_fraction 9 (random w (draws w))))
                        (next_draw w))
    end.
    { reflexivity. }
    rewrite <- E. apply (rethrow_same "BANK_TRANSFER_ERROR").
Qed.

Lemma wrappers_delegate_witness :
  same_but_log
    (PaymentService.processCardPayment
       (Sample.card_request Sample.good_card) Sample.world)
    (PaymentService.processPayment
       (card_shaped (Sample.card_request Sample.good_card) Sample.good_card)
       Sample.world).
Proof.
  apply (wrappers_delegate (Sample.card_request Sample.good_card) Sample.world).
  - reflexivity.
  - vm_compute. reflexivity.
Defined.

(** ** The listener on the payments collection *)

Ltac run_apply :=
  match goal with
  | |- context [match apply_write ?wr ?s with _ => _ end] =>
      let E := fresh "Happly" in
      destruct (apply_write wr s) eqn:E
  end.

(** X12. [handlePaymentStatusChange] never throws, and never touches the
    bills, the payments, the receipts or the members. For a payment that
    is not completed it does nothing. For a completed payment it asks the
    store for one operation, the confirmation to the member: if the store
    accepts it, an unread notification of type payment_confirmed for the
    member is stored, and otherwise nothing is. The update of the member's
    payment history that follows never reaches the store: building its
    argument throws, which is caught and logged, so the payment count and
    the amount paid of the member stay as they were. *)
Theorem handlePaymentStatusChange_effects (p : Payment) (w : World) :
  let out := PaymentService.handlePaymentStatusChange p w in
  out.1 = Returned tt
  /\ bills (store out.2) = bills (store w)
  /\ payments (store out.2) = payments (store w)
  /\ receipts (store out.2) = receipts (store w)
  /\ members (store out.2) = members (store w)
  /\ (pay_status p <> COMPLETED -> out.2 = w)
  /\ (pay_status p = COMPLETED ->
      operations out.2 = S (operations w)
      /\ (rejects w (operations w) = false ->
          exists n,
            journal out.2 = journal w ++ [SetNotification n]
            /\ notifications (store out.2)
               = <[ntf_id n := n]> (notifications (store w))
            /\ ntf_memberId n = pay_memberId p
            /\ ntf_type n = "payment_confirmed"
            /\ ntf_status n = "unread")
      /\ (rejects w (operations w) = true ->
          store out.2 = store w /\ journal out.2 = journal w)).
Proof.
  cbv zeta.
  unfold PaymentService.handlePaymentStatusChange,
    PaymentService.sendPaymentConfirmation,
    PaymentService.updateMemberPaymentHistory,
    PaymentService.fieldValue_increment,
    FirebaseServices.sendNotification.
  unfold_async.
  destruct (decide (pay_status p = COMPLETED)) as [Hc|Hc].
  2:{ reduce. repeat split; intros; try reflexivity; contradiction. }
  destruct (generateRandomString_runs 8 w) as [id ->].
  rewrite iter_next_draw. reduce.
  destruct (rejects w (operations w)) eqn:R0; reduce;
    repeat (run_log; reduce).
  all: repeat split; intros; try reflexivity; try congruence.
  eexists. repeat split.
Qed.

Lemma handlePaymentStatusChange_effects_witness :
  let w :=
    mkWorld (mkStore ∅ ∅ ∅ ∅ {[ "member-1" := mkMember None 3 250 900 ]})
            [] [] 2 2000 Sample.date Sample.never 0 Sample.settling 0 in
  let out := PaymentService.handlePaymentStatusChange Sample.payment w in
  (exists n,
     journal out.2 = journal w ++ [SetNotification n]
     /\ notifications (store out.2) = <[ntf_id n := n]> (notifications (store w))
     /\ ntf_memberId n = "member-1"
     /\ ntf_type n = "payment_confirmed"
     /\ ntf_status n = "unread")
  /\ operations out.2 = 1%nat
  /\ members (store out.2) !! "member-1" = Some (mkMember None 3 250 900).
Proof.
  cbv zeta.
  destruct (handlePaymentStatusChange_effects Sample.payment
              (mkWorld (mkStore ∅ ∅ ∅ ∅ {[ "member-1" := mkMember None 3 250 900 ]})
                 [] [] 2 2000 Sample.date Sample.never 0 Sample.settling 0))
    as (_ & _ & _ & _ & Hm & _ & H).
  destruct (H eq_refl) as (Hop & Hn & _).
  split; [apply Hn; reflexivity|].
  split; [exact Hop|].
  rewrite Hm. vm_compute. reflexivity.
Defined.

(** ** Creating a bill *)

(** X13. [createBill] checks neither the amount nor the description. If
    the store accepts the bill, the call returns the generated number and
    the bill is stored under it, pending, with the amount and the member
    of the request, the due date and the type defaulting to now and to
    membership; this holds whether or not the notification to the member
    can be stored, which is sent afterwards and whose failure is only
    logged. If the store rejects the bill, the call throws and nothing has
    been written. *)
Theorem createBill_effects (bd : BillData) (w : World) :
  let out := Billing.createBill bd w in
  (rejects w (operations w) = false ->
   exists billId,
     out.1 = Returned billId
     /\ (Utils.generateReceiptNumber w).1 = Returned billId
     /\ bills (store out.2)
        = <[billId := Billing.bill_of billId bd (clock w)]> (bills (store w))
     /\ bill_status (Billing.bill_of billId bd (clock w)) = "pending"
     /\ bill_amount (Billing.bill_of billId bd (clock w)) = bd_amount bd
     /\ bill_memberId (Billing.bill_of billId bd (clock w)) = bd_memberId bd
     /\ (bd_dueDate bd = None ->
         bill_dueDate (Billing.bill_of billId bd (clock w)) = clock w)
     /\ (bd_billType bd = None ->
         bill_billType (Billing.bill_of billId bd (clock w)) = "membership")
     /\ (rejects w (S (operations w)) = false ->
         exists n,
           notifications (store out.2) !! ntf_id n = Some n
           /\ ntf_memberId n = bd_memberId bd
           /\ ntf_type n = "bill_created"
           /\ ntf_status n = "unread")
     /\ (rejects w (S (operations w)) = true ->
         notifications (store out.2) = notifications (store w)))
  /\ (rejects w (operations w) = true ->
      (exists e, out.1 = Thrown e)
      /\ store out.2 = store w
      /\ journal out.2 = journal w).
Proof.
  cbv zeta.
  unfold Billing.createBill, Billing.sendBillNotification,
    FirebaseServices.sendNotification, db_apply.
  unfold_async.
  destruct (generateReceiptNumber_runs w) as [billId E]. rewrite E. reduce.
  destruct (rejects w (operations w)) eqn:R0; reduce.
  - run_log. reduce. split; [discriminate|]. intros _. eauto.
  - split; [|discriminate]. intros _.
    match goal with
    | |- context [Utils.generateRandomString 8 ?W] =>
        destruct (generateRandomString_runs 8 W) as [id ->]
    end.
    rewrite iter_next_draw. reduce.
    destruct (rejects w (S (operations w))) eqn:R1; reduce;
      repeat (run_log; reduce).
    + exists billId. repeat split; intros; try reflexivity; try congruence.
      all: match goal with
               | H : _ = None |- _ =>
                   cbn [bill_dueDate bill_billType Billing.bill_of];
                   rewrite H; reflexivity
               end.
    + exists billId. repeat split; intros; try reflexivity; try congruence.
      all: try match goal with
               | H : _ = None |- _ =>
                   cbn [bill_dueDate bill_billType Billing.bill_of];
                   rewrite H; reflexivity
               end.
      eexists. split; [apply lookup_insert_eq|]. repeat split.
Qed.

Lemma createBill_effects_witness :
  let bd := mkBillData "member-1" "Ann" 100 "Monthly membership" None None in
  let w :=
    mkWorld Sample.store [] [] 2 2000 Sample.date
            (fun k => match k with 1%nat => true | _ => false end)
            0 Sample.settling 0 in
  let out := Billing.createBill bd w in
  let billId := "RCP-20261101-0042" in
  out.1 = Returned billId
  /\ bills (store out.2)
     = <[billId := mkBill billId "member-1" "Ann" 100 "Monthly membership" 2000
                     "pending" "membership" 2000 2000]> (bills (store w))
  /\ notifications (store out.2) = notifications (store w).
Proof.
  cbv zeta.
  destruct (createBill_effects
              (mkBillData "member-1" "Ann" 100 "Monthly membership" None None)
              (mkWorld Sample.store [] [] 2 2000 Sample.date
                 (fun k => match k with 1%nat => true | _ => false end)
                 0 Sample.settling 0)) as [H _].
  destruct (H eq_refl) as (billId & Hr & Hn & Hb & _ & _ & _ & _ & _ & _ & Hq).
  assert (billId = "RCP-20261101-0042") as ->
    by (vm_compute in Hn; congruence).
  split; [exact Hr|]. split; [exact Hb|]. apply Hq. reflexivity.
Defined.

(** ** Read marks and the unread count *)

Lemma unread_size_insert_fresh (memberId k : string) (n : Notification) (s : Store) :
  notifications s !! k = None ->
  NotificationService.unread_size memberId
    (set_notifications s (<[k := n]> (notifications s)))
  = NotificationService.unread_size memberId s + unread_weight memberId n.
Proof.
  intros H. unfold NotificationService.unread_size, unread_weight.
  cbn [notifications set_notifications].
  rewrite (map_to_list_insert _ _ _ H), filter_cons. cbn [snd].
  destruct (NotificationService.is_unread_of memberId n).
  - rewrite decide_True by reflexivity. cbn [length]. lia.
  - rewrite decide_False by discriminate. lia.
Qed.

Lemma unread_size_delete (memberId k : string) (n : Notification) (s : Store) :
  notifications s !! k = Some n ->
  NotificationService.unread_size memberId s
  = NotificationService.unread_size memberId
      (set_notifications s (delete k (notifications s)))
    + unread_weight memberId n.
Proof.
  intros H. unfold NotificationService.unread_size, unread_weight.
  cbn [notifications set_notifications].
  rewrite <- (map_to_list_delete _ _ _ H), filter_cons. cbn [snd].
  destruct (NotificationService.is_unread_of memberId n).
  - rewrite decide_True by reflexivity. cbn [length]. lia.
  - rewrite decide_False by discriminate. lia.
Qed.

Lemma unread_size_replace (memberId k : string) (n n' : Notification) (s : Store) :
  notifications s !! k = Some n ->
  NotificationService.unread_size memberId
    (set_notifications s (<[k := n']> (notifications s)))
  = NotificationService.unread_size memberId s
    - unread_weight memberId n + unread_weight memberId n'.
Proof.
  intros H.
  rewrite (unread_size_delete memberId k n s H).
  rewrite <- (insert_delete_eq (notifications s) k n').
  pose proof (unread_size_insert_fresh memberId k n'
                (set_notifications s (delete k (notifications s)))) as L.
  cbn [notifications set_notifications] in L.
  unfold NotificationService.unread_size in *.
  cbn [notifications set_notifications] in *.
  rewrite L by apply lookup_delete_eq. lia.
Qed.

Lemma unread_size_none (memberId : string) (s : Store) :
  (forall k n, notifications s !! k = Some n ->
               NotificationService.is_unread_of memberId n = false) ->
  NotificationService.unread_size memberId s = 0.
Proof.
  intros H. unfold NotificationService.unread_size.
  destruct (filter _ (map_to_list (notifications s))) as [|[k n] l] eqn:E;
    [reflexivity|].
  assert (Hin : (k, n) ∈ (k, n) :: l) by (apply elem_of_cons; left; reflexivity).
  rewrite <- E in Hin. apply list_elem_of_filter in Hin as [Hun Hin].
  apply elem_of_map_to_list in Hin. cbn [snd] in Hun.
  rewrite (H k n Hin) in Hun. discriminate Hun.
Qed.

Lemma elem_of_unread_refs (memberId k : string) (s : Store) :
  k ∈ NotificationManagement.unread_refs memberId s
  <-> exists n, notifications s !! k = Some n
                /\ NotificationService.is_unread_of memberId n = true.
Proof.
  unfold NotificationManagement.unread_refs.
  rewrite list_elem_of_fmap. split.
  - intros ([k' n] & -> & Hin). apply list_elem_of_filter in Hin as [Hun Hin].
    apply elem_of_map_to_list in Hin. eauto.
  - intros (n & Hk & Hun). exists (k, n). split; [reflexivity|].
    apply list_elem_of_filter. split; [exact Hun|].
    apply elem_of_map_to_list. exact Hk.
Qed.

Lemma set_notifications_same (s : Store) : set_notifications s (notifications s) = s.
Proof. destruct s; reflexivity. Qed.

(** The committed batch has marked exactly the referenced documents. *)
Lemma batch_update_read_spec (refs : list string) (readAt : Z) (s : Store) :
  (forall k, k ∈ refs -> is_Some (notifications s !! k)) ->
  exists m',
    NotificationManagement.batch_update_read refs readAt s
    = Some (set_notifications s m')
    /\ forall k,
         m' !! k
         = if decide (k ∈ refs)
           then NotificationManagement.mark_read readAt <$> notifications s !! k
           else notifications s !! k.
Proof.
  unfold NotificationManagement.batch_update_read.
  induction refs as [|r refs IH] using rev_ind; intros Hin.
  - exists (notifications s). split.
    + cbn [foldl]. rewrite set_notifications_same. reflexivity.
    + intros k. rewrite decide_False by apply not_elem_of_nil. reflexivity.
  - destruct IH as (m' & E & Hm').
    { intros k Hk. apply Hin. apply elem_of_app. left. exact Hk. }
    rewrite foldl_app. cbn [foldl]. rewrite E. cbn [mbind option_bind].
    unfold NotificationManagement.update_read.
    cbn [notifications set_notifications].
    destruct (Hin r) as [n0 Hn0].
    { apply elem_of_app. right. apply list_elem_of_singleton. reflexivity. }
    assert (Hr : exists n', m' !! r = Some n'
                            /\ NotificationManagement.mark_read readAt n'
                               = NotificationManagement.mark_read readAt n0).
    { rewrite Hm', Hn0. destruct (decide (r ∈ refs)); eexists; split; reflexivity. }
    destruct Hr as (n' & Hn' & Hmark). rewrite Hn'. cbn [mbind option_bind].
    eexists. split; [reflexivity|].
    intros k. destruct (decide (k = r)) as [->|Hne].
    + rewrite lookup_insert_eq, Hmark, Hn0.
      rewrite decide_True; [reflexivity|].
      apply elem_of_app. right. apply list_elem_of_singleton. reflexivity.
    + rewrite lookup_insert_ne by congruence. rewrite Hm'.
      destruct (decide (k ∈ refs)) as [Hk|Hk].
      * rewrite decide_True; [reflexivity|]. apply elem_of_app. left. exact Hk.
      * rewrite decide_False; [reflexivity|].
        rewrite elem_of_app, list_elem_of_singleton. tauto.
Qed.

(** X14. When the store accepts its query and its batch,
    [markAllNotificationsAsRead] returns having marked read, at the time of
    the call, every unread notification of the member and nothing else:
    the other notifications and the other collections are as before. The
    unread count of the member is then 0, and [getUnreadNotificationCount]
    called next returns 0 whatever the store does. *)
Theorem markAllNotificationsAsRead_clears (memberId : string) (w : World) :
  rejects w (operations w) = false ->
  rejects w (S (operations w)) = false ->
  exists w',
    NotificationManagement.markAllNotificationsAsRead memberId w = (Returned tt, w')
    /\ (forall k, notifications (store w') !! k
                  = read_by memberId (clock w) <$> notifications (store w) !! k)
    /\ bills (store w') = bills (store w)
    /\ payments (store w') = payments (store w)
    /\ receipts (store w') = receipts (store w)
    /\ members (store w') = members (store w)
    /\ NotificationService.unread_size memberId (store w') = 0
    /\ (NotificationService.getUnreadNotificationCount memberId w').1 = Returned 0.
Proof.
  intros R0 R1.
  unfold NotificationManagement.markAllNotificationsAsRead, db_apply. unfold_async.
  rewrite R0. reduce. rewrite R1. reduce.
  destruct (batch_update_read_spec
              (NotificationManagement.unread_refs memberId (store w))
              (clock w) (store w)) as (m' & E & Hm').
  { intros k Hk. apply elem_of_unread_refs in Hk as (n & Hn & _). eauto. }
  rewrite E. reduce. run_log. reduce.
  assert (Hall : forall k, m' !! k
                 = read_by memberId (clock w) <$> notifications (store w) !! k).
  { intros k. rewrite Hm'.
    destruct (notifications (store w) !! k) as [n|] eqn:Hn.
    - cbn [fmap option_fmap option_map]. unfold read_by.
      destruct (NotificationService.is_unread_of memberId n) eqn:Hun.
      + rewrite decide_True; [reflexivity|]. apply elem_of_unread_refs. eauto.
      + rewrite decide_False; [reflexivity|].
        intros Hk. apply elem_of_unread_refs in Hk as (n1 & Hn1 & Hun1).
        congruence.
    - destruct (decide _); reflexivity. }
  assert (Hzero : NotificationService.unread_size memberId
                    (set_notifications (store w) m') = 0).
  { apply unread_size_none. cbn [notifications set_notifications].
    intros k n Hk. rewrite Hall in Hk.
    destruct (notifications (store w) !! k) as [n0|]; [|discriminate].
    injection Hk as <-. unfold read_by.
    destruct (NotificationService.is_unread_of memberId n0) eqn:Hun; [|exact Hun].
    unfold NotificationService.is_unread_of, NotificationManagement.mark_read.
    cbn [ntf_status]. rewrite andb_false_r. reflexivity. }
  eexists. split; [reflexivity|]. reduce.
  split; [exact Hall|]. repeat (split; [reflexivity|]).
  split; [exact Hzero|].
  unfold NotificationService.getUnreadNotificationCount. unfold_async. reduce.
  destruct (rejects w (S (S (operations w)))); reduce.
  - run_log. reflexivity.
  - rewrite Hzero. reflexivity.
Qed.

Lemma markAllNotificationsAsRead_clears_witness :
  exists w',
    NotificationManagement.markAllNotificationsAsRead "member-1" Inbox.world
    = (Returned tt, w')
    /\ (forall k, notifications (store w') !! k
                  = read_by "member-1" 2000 <$> notifications Inbox.store !! k)
    /\ bills (store w') = bills Inbox.store
    /\ payments (store w') = payments Inbox.store
    /\ receipts (store w') = receipts Inbox.store
    /\ members (store w') = members Inbox.store
    /\ NotificationService.unread_size "member-1" (store w') = 0
    /\ (NotificationService.getUnreadNotificationCount "member-1" w').1 = Returned 0.
Proof.
  apply (markAllNotificationsAsRead_clears "member-1" Inbox.world); reflexivity.
Defined.

Example markAllNotificationsAsRead_sample :
  NotificationService.unread_size "member-1" Inbox.store = 2
  /\ NotificationService.unread_size "member-2"
       (store (NotificationManagement.markAllNotificationsAsRead
                 "member-1" Inbox.world).2) = 1.
Proof. split; vm_compute; reflexivity. Qed.

Lemma unread_weight_notification_of
    (memberId id : string) (nd : NotificationData) (t : Z) :
  unread_weight memberId (NotificationService.notification_of id nd t)
  = if decide (memberId = nd_memberId nd) then 1 else 0.
Proof.
  unfold unread_weight, NotificationService.is_unread_of,
    NotificationService.notification_of.
  cbn [ntf_memberId ntf_status].
  destruct (String.eqb_spec (nd_memberId nd) memberId) as [->|Hne];
    destruct (decide _); try reflexivity; congruence.
Qed.

(** X15. A notification that [sendNotification] stores under an identifier
    not yet in use raises the unread count of its member by one and leaves
    the unread count of every other member as it was. *)
Theorem sendNotification_raises_count
    (nd : NotificationData) (w : World) (id : string) (w' : World) :
  NotificationService.sendNotification nd w = (Returned id, w') ->
  notifications (store w) !! id = None ->
  NotificationService.unread_size (nd_memberId nd) (store w')
  = NotificationService.unread_size (nd_memberId nd) (store w) + 1
  /\ forall other,
       other <> nd_memberId nd ->
       NotificationService.unread_size other (store w')
       = NotificationService.unread_size other (store w).
Proof.
  unfold NotificationService.sendNotification. unfold_async.
  destruct (generateRandomString_runs 8 w) as [id0 ->].
  rewrite iter_next_draw. reduce.
  run_write; reduce; run_log; reduce; [discriminate|].
  intros [= <- <-] Hfresh. reduce.
  split.
  - rewrite (unread_size_insert_fresh _ _ _ _ Hfresh),
      unread_weight_notification_of, decide_True by reflexivity. reflexivity.
  - intros other Hne.
    rewrite (unread_size_insert_fresh _ _ _ _ Hfresh),
      unread_weight_notification_of, decide_False by exact Hne. lia.
Qed.

Lemma sendNotification_raises_count_witness :
  let w' := (NotificationService.sendNotification Sample.notice Inbox.world).2 in
  NotificationService.unread_size "member-1" (store w')
  = NotificationService.unread_size "member-1" (store Inbox.world) + 1
  /\ forall other,
       other <> "member-1" ->
       NotificationService.unread_size other (store w')
       = NotificationService.unread_size other (store Inbox.world).
Proof.
  apply (sendNotification_raises_count Sample.notice Inbox.world "AfUAAAAA").
  - vm_compute. reflexivity.
  - vm_compute. reflexivity.
Defined.

(** X16. [markNotificationAsRead] on a notification the store holds, when
    the store accepts the update, returns and leaves that notification
    read with the time of the call as [readAt], also when it was read
    before; every other field and every other notification is unchanged,
    and the unread count of each member drops by what that notification
    counted for. On a notification the store does not hold, or when the
    store rejects the update, it throws and nothing has changed. *)
Theorem markNotificationAsRead_effects (notificationId : string) (w : World) :
  (forall n,
     notifications (store w) !! notificationId = Some n ->
     rejects w (operations w) = false ->
     exists w',
       NotificationManagement.markNotificationAsRead notificationId w
       = (Returned tt, w')
       /\ store w'
          = set_notifications (store w)
              (<[notificationId := NotificationManagement.mark_read (clock w) n]>
                 (notifications (store w)))
       /\ forall memberId,
            NotificationService.unread_size memberId (store w')
            = NotificationService.unread_size memberId (store w)
              - unread_weight memberId n)
  /\ (notifications (store w) !! notificationId = None
      \/ rejects w (operations w) = true ->
      exists e w',
        NotificationManagement.markNotificationAsRead notificationId w
        = (Thrown e, w')
        /\ store w' = store w).
Proof.
  unfold NotificationManagement.markNotificationAsRead, db_apply,
    NotificationManagement.update_read.
  unfold_async. split.
  - intros n Hn R0. rewrite R0, Hn. cbn [mbind option_bind]. reduce.
    run_log. reduce. eexists. split; [reflexivity|]. reduce.
    split; [reflexivity|]. intros memberId.
    rewrite (unread_size_replace memberId notificationId n _ (store w) Hn).
    unfold unread_weight at 2. unfold NotificationService.is_unread_of.
    cbn [NotificationManagement.mark_read ntf_status].
    rewrite andb_false_r. lia.
  - intros H. destruct (rejects w (operations w)) eqn:R0; reduce.
    + run_log. eauto.
    + destruct H as [H|H]; [|discriminate]. rewrite H.
      cbn [mbind option_bind]. reduce. run_log. eauto.
Qed.

Lemma markNotificationAsRead_effects_witness :
  exists w',
    NotificationManagement.markNotificationAsRead "N1" Inbox.world
    = (Returned tt, w')
    /\ store w'
       = set_notifications Inbox.store
           (<["N1" := NotificationManagement.mark_read 2000 Inbox.unread_1]>
              (notifications Inbox.store))
    /\ forall memberId,
         NotificationService.unread_size memberId (store w')
         = NotificationService.unread_size memberId Inbox.store
           - unread_weight memberId Inbox.unread_1.
Proof.
  apply (proj1 (markNotificationAsRead_effects "N1" Inbox.world) Inbox.unread_1).
  - vm_compute. reflexivity.
  - reflexivity.
Defined.

(** X17. [deleteNotification], when the store accepts the operation,
    returns whether or not the notification exists: afterwards no
    notification is stored under the identifier, all others are as
    before, and the unread count of each member has dropped by what the
    deleted notification, if there was one, counted for. *)
Theorem deleteNotification_effects (notificationId : string) (w : World) :
  rejects w (operations w) = false ->
  exists w',
    NotificationManagement.deleteNotification notificationId w = (Returned tt, w')
    /\ store w'
       = set_notifications (store w) (delete notificationId (notifications (store w)))
    /\ notifications (store w') !! notificationId = None
    /\ forall memberId,
         NotificationService.unread_size memberId (store w')
         = NotificationService.unread_size memberId (store w)
           - from_option (unread_weight memberId) 0
               (notifications (store w) !! notificationId).
Proof.
  intros R0.
  unfold NotificationManagement.deleteNotification, db_apply. unfold_async.
  rewrite R0. reduce. run_log. reduce.
  eexists. split; [reflexivity|]. reduce.
  split; [reflexivity|]. split; [apply lookup_delete_eq|].
  intros memberId.
  destruct (notifications (store w) !! notificationId) as [n|] eqn:Hn.
  - rewrite (unread_size_delete memberId notificationId n (store w) Hn).
    cbn [from_option]. lia.
  - rewrite delete_id by exact Hn. rewrite set_notifications_same.
    cbn [from_option]. lia.
Qed.

Lemma deleteNotification_effects_witness :
  notifications Inbox.store !! "N1" = Some Inbox.unread_1
  /\ NotificationService.unread_size "member-1" Inbox.store = 2
  /\ exists w',
       NotificationManagement.deleteNotification "N1" Inbox.world = (Returned tt, w')
       /\ notifications (store w') !! "N1" = None
       /\ notifications (store w') !! "N2" = Some Inbox.unread_2
       /\ NotificationService.unread_size "member-1" (store w') = 1
       /\ NotificationService.unread_size "member-2" (store w') = 1.
Proof.
  split; [vm_compute; reflexivity|]. split; [vm_compute; reflexivity|].
  destruct (deleteNotification_effects "N1" Inbox.world eq_refl)
    as (w' & Hrun & Hstore & Hgone & Hcount).
  exists w'. split; [exact Hrun|]. split; [exact Hgone|].
  split; [rewrite Hstore; vm_compute; reflexivity|].
  split; rewrite Hcount; vm_compute; reflexivity.
Defined.

Example deleteNotification_missing_sample :
  exists w',
    NotificationManagement.deleteNotification "N9" Inbox.world = (Returned tt, w')
    /\ store w' = Inbox.store.
Proof. eexists. split; vm_compute; reflexivity. Qed.

(** ** Promotions *)

(** X18. When the store accepts the batch, [sendPromotionNotification]
    returns having written, in one batch and in the order of the member
    identifiers, one unread promotion of priority medium per member, with
    the title and the message of the promotion; every document of the
    batch leads, by its identifier, to a document of the batch in the
    store. For no member at all it still commits a batch, an empty one. If
    the store rejects the batch, it throws and nothing has been written. *)
Theorem sendPromotionNotification_batch
    (memberIds : list string) (promotionData : PromotionData) (w : World) :
  let out :=
    SystemNotifications.sendPromotionNotification memberIds promotionData w in
  (rejects w (operations w) = false ->
   exists batch,
     out.1 = Returned tt
     /\ journal out.2 = journal w ++ [BatchSetNotifications batch]
     /\ Forall2 (promotion_written promotionData) memberIds batch
     /\ forall n, n ∈ batch ->
          exists n', n' ∈ batch /\ ntf_id n' = ntf_id n
                     /\ notifications (store out.2) !! ntf_id n = Some n')
  /\ (rejects w (operations w) = true ->
      (exists e, out.1 = Thrown e)
      /\ store out.2 = store w
      /\ journal out.2 = journal w).
Proof.
  cbv zeta.
  unfold SystemNotifications.sendPromotionNotification,
    NotificationService.sendBulkNotifications.
  unfold_async.
  destruct (batch_loop_runs
              (SystemNotifications.promotion_for promotionData <$> memberIds) w)
    as (batch & k & -> & F).
  rewrite iter_next_draw. reduce.
  destruct (rejects w (operations w)) eqn:R0; reduce; repeat (run_log; reduce).
  - split; [discriminate|]. intros _. eauto.
  - split; [|discriminate]. intros _. exists batch.
    split; [reflexivity|]. split; [reflexivity|]. split.
    + eapply Forall2_impl; [exact (proj1 (Forall2_fmap_l _ _ _ _) F)|].
      intros memberId n (id & t & ->). repeat split.
    + intros n Hn. apply batch_lookup.
      apply list_elem_of_fmap. exists n. split; [reflexivity|exact Hn].
Qed.

Lemma sendPromotionNotification_batch_witness :
  let out :=
    SystemNotifications.sendPromotionNotification
      ["member-1"; "member-2"] Inbox.promotion Inbox.world in
  exists batch,
    out.1 = Returned tt
    /\ journal out.2 = journal Inbox.world ++ [BatchSetNotifications batch]
    /\ Forall2 (promotion_written Inbox.promotion) ["member-1"; "member-2"] batch
    /\ forall n, n ∈ batch ->
         exists n', n' ∈ batch /\ ntf_id n' = ntf_id n
                    /\ notifications (store out.2) !! ntf_id n = Some n'.
Proof.
  cbv zeta.
  apply (sendPromotionNotification_batch
           ["member-1"; "member-2"] Inbox.promotion Inbox.world).
  reflexivity.
Defined.

(** ** The log buffer *)

(** X19. After [Logger.log] has run, the buffer holds at most
    [maxLogEntries] entries. When the level of the entry passes the filter
    the entry is the newest of the buffer, and the entries before it are
    the most recent ones of the old buffer, in order; when it does not,
    the buffer is untouched. *)
Theorem log_keeps_buffer_bounded
    (level : Logger.Level) (action : string) (details : JsObject) (w : World) :
  let out := Logger.log level action details w in
  let entry := mkLogEntry (Logger.levelName level) action details in
  out.1 = Returned tt
  /\ (Logger.logLevels level <= currentLogLevel w ->
      exists kept,
        logBuffer out.2 = kept ++ [entry]
        /\ kept `suffix_of` logBuffer w
        /\ (length (logBuffer out.2) <= Logger.maxLogEntries)%nat
        /\ length (logBuffer out.2)
           = Nat.min (S (length (logBuffer w))) Logger.maxLogEntries)
  /\ (currentLogLevel w < Logger.logLevels level -> out.2 = w).
Proof.
  cbv zeta. unfold Logger.log, Logger.addToBuffer.
  destruct (Z.ltb_spec (currentLogLevel w) (Logger.logLevels level)) as [L|L].
  - split; [reflexivity|]. split; [lia|]. reflexivity.
  - split; [reflexivity|]. split; [|lia]. intros _.
    cbn [snd logBuffer set_logBuffer].
    rewrite length_app. cbn [length].
    destruct (Nat.ltb_spec Logger.maxLogEntries (length (logBuffer w) + 1)) as [B|B].
    + exists (drop (length (logBuffer w) + 1 - Logger.maxLogEntries) (logBuffer w)).
      assert (Hle : (length (logBuffer w) + 1 - Logger.maxLogEntries
                     <= length (logBuffer w))%nat)
        by (unfold Logger.maxLogEntries in *; lia).
      split.
      * rewrite drop_app_le by exact Hle. reflexivity.
      * split; [apply suffix_drop|].
        rewrite length_drop, length_app. cbn [length].
        unfold Logger.maxLogEntries in *. lia.
    + exists (logBuffer w). split; [reflexivity|].
      split; [reflexivity|].
      rewrite length_app. cbn [length].
      unfold Logger.maxLogEntries in *. lia.
Qed.

Lemma log_keeps_buffer_bounded_witness :
  let out :=
    Logger.log Logger.ERROR "PAYMENT_PROCESSING_ERROR" [] FullLog.world in
  length (logBuffer FullLog.world) = Logger.maxLogEntries
  /\ head (logBuffer FullLog.world) = Some (FullLog.entry 0)
  /\ exists kept,
       logBuffer out.2
       = kept ++ [mkLogEntry "ERROR" "PAYMENT_PROCESSING_ERROR" []]
       /\ kept `suffix_of` logBuffer FullLog.world
       /\ length kept = 999%nat
       /\ length (logBuffer out.2) = Logger.maxLogEntries
       /\ head (logBuffer out.2) = Some (FullLog.entry 1).
Proof.
  cbv zeta.
  split; [vm_compute; reflexivity|]. split; [vm_compute; reflexivity|].
  destruct (log_keeps_buffer_bounded Logger.ERROR "PAYMENT_PROCESSING_ERROR" []
              FullLog.world) as (_ & H & _).
  destruct H as (kept & Hbuf & Hsuf & _ & Hlen).
  { vm_compute. discriminate. }
  exists kept. split; [exact Hbuf|]. split; [exact Hsuf|].
  assert (Hfull : length (logBuffer
                    (Logger.log Logger.ERROR "PAYMENT_PROCESSING_ERROR" []
                       FullLog.world).2) = Logger.maxLogEntries)
    by (rewrite Hlen; vm_compute; reflexivity).
  split.
  { rewrite Hbuf, length_app in Hfull. cbn [length] in Hfull.
    unfold Logger.maxLogEntries in Hfull. lia. }
  split; [exact Hfull|].
  vm_compute. reflexivity.
Defined.

Example log_below_bound_sample :
  logBuffer (Logger.log Logger.ERROR "PAYMENT_PROCESSING_ERROR" [] Sample.world).2
  = [mkLogEntry "ERROR" "PAYMENT_PROCESSING_ERROR" []].
Proof. vm_compute. reflexivity. Qed.

(** X20. [getLogs] with a positive limit returns the most recent entries,
    as many as the limit allows; with limit 0 it returns the whole buffer,
    not an empty list. *)
Theorem getLogs_recent (limit : Z) (w : World) :
  (0 < limit ->
   LogBuffer.getLogs limit w `suffix_of` logBuffer w
   /\ length (LogBuffer.getLogs limit w)
      = Nat.min (Z.to_nat limit) (length (logBuffer w)))
  /\ LogBuffer.getLogs 0 w = logBuffer w.
Proof.
  unfold LogBuffer.getLogs, LogBuffer.slice_from. split.
  - intros H. cbv zeta.
    destruct (Z.ltb_spec (- limit) 0) as [L|L]; [|lia].
    split; [apply suffix_drop|].
    rewrite length_drop. lia.
  - cbv zeta. change (- 0) with 0. change (0 <? 0) with false. cbv iota.
    rewrite Z.min_l by lia. reflexivity.
Qed.

Lemma getLogs_recent_witness :
  let w := (PaymentService.processPayment Sample.request Sample.world).2 in
  LogBuffer.getLogs 2 w `suffix_of` logBuffer w
  /\ length (LogBuffer.getLogs 2 w) = Nat.min (Z.to_nat 2) (length (logBuffer w)).
Proof.
  cbv zeta.
  apply (getLogs_recent 2 (PaymentService.processPayment Sample.request Sample.world).2).
  lia.
Defined.

(** ** Generated identifiers *)

Lemma string_length_app (s t : string) :
  String.length (s +:+ t) = (String.length s + String.length t)%nat.
Proof.
  induction s as [|c s IH]; [reflexivity|].
  change (S (String.length (s +:+ t)) = S (String.length s + String.length t)).
  rewrite IH. reflexivity.
Qed.

Lemma chars_app (s t : string) :
  JsString.chars (s +:+ t) = JsString.chars s ++ JsString.chars t.
Proof.
  induction s as [|c s IH]; [reflexivity|].
  change (c :: JsString.chars (s +:+ t) = c :: (JsString.chars s ++ JsString.chars t)).
  rewrite IH. reflexivity.
Qed.

(** What [Math.floor(Math.random() * n)] can be. *)
Lemma floor_of_unit_draw (r : Q) (n : Z) :
  0 < n -> unit_draw r -> 0 <= Qfloor (Qmult r (inject_Z n)) < n.
Proof.
  intros Hn [H0 H1].
  assert (Hn' : Qlt (inject_Z 0) (inject_Z n)) by (rewrite <- Zlt_Qlt; lia).
  split.
  - rewrite <- (Qfloor_Z 0). apply Qfloor_resp_le.
    apply Qmult_le_0_compat; [exact H0|]. apply Qlt_le_weak. exact Hn'.
  - rewrite Zlt_Qlt. eapply Qle_lt_trans; [apply Qfloor_le|].
    eapply Qlt_le_trans; [apply Qmult_lt_compat_r; [exact Hn'|exact H1]|].
    rewrite Qmult_1_l. apply Qle_refl.
Qed.

Lemma charAt_of_chars (k : Z) :
  0 <= k < 62 ->
  exists c, Utils.charAt k Utils.chars = String c EmptyString
            /\ c ∈ JsString.chars Utils.chars.
Proof.
  intros Hk.
  assert (Hall : forallb (charAt_checked Utils.chars) (seq 0 62) = true)
    by (vm_compute; reflexivity).
  rewrite forallb_forall in Hall.
  assert (Hin : In (Z.to_nat k) (seq 0 62)) by (apply in_seq; lia).
  specialize (Hall _ Hin). unfold charAt_checked in Hall.
  rewrite Z2Nat.id in Hall by lia.
  destruct (Utils.charAt k Utils.chars) as [|c [|]]; try discriminate.
  exists c. split; [reflexivity|].
  apply existsb_exists in Hall as (x & Hx & Heq).
  apply Ascii.eqb_eq in Heq. subst x. apply list_elem_of_In. exact Hx.
Qed.

Lemma generateRandomString_loop_shape (n : nat) (result : string) (w : World) :
  (forall k, unit_draw (random w k)) ->
  exists s,
    Utils.generateRandomString_loop n result w
    = (Returned s, Nat.iter n next_draw w)
    /\ String.length s = (String.length result + n)%nat
    /\ exists added,
         JsString.chars s = JsString.chars result ++ added
         /\ Forall (fun c => c ∈ JsString.chars Utils.chars) added.
Proof.
  revert result w. induction n as [|n IH]; intros result w Hw.
  - exists result. split; [reflexivity|]. split; [simpl; lia|].
    exists []. split; [rewrite app_nil_r; reflexivity|constructor].
  - change (Utils.generateRandomString_loop (S n) result w)
      with (bind (Utils.randomBelow (Z.of_nat (String.length Utils.chars)))
              (fun k => Utils.generateRandomString_loop n
                          (result +:+ Utils.charAt k Utils.chars)) w).
    change (Z.of_nat (String.length Utils.chars)) with 62.
    unfold Utils.randomBelow, bind, mathRandom, ret. cbv beta iota.
    destruct (charAt_of_chars
                (Qfloor (Qmult (random w (draws w)) (inject_Z 62))))
      as (c & Hc & Hin).
    { apply floor_of_unit_draw; [lia|apply Hw]. }
    rewrite Hc.
    destruct (IH (result +:+ String c EmptyString) (next_draw w) Hw)
      as (s & E & Hlen & added & Hch & Hall).
    exists s. rewrite E. split; [rewrite Nat.iter_succ_r; reflexivity|].
    split.
    + rewrite Hlen, string_length_app. simpl. lia.
    + exists (c :: added). split.
      * rewrite Hch, chars_app, <- app_assoc. reflexivity.
      * constructor; assumption.
Qed.

(** X21. When every draw is a number from 0, included, to 1, excluded,
    [generateRandomString] returns a string of exactly the requested
    length, made of characters of its alphabet, after that many draws. *)
Theorem generateRandomString_shape (n : nat) (w : World) :
  (forall k, unit_draw (random w k)) ->
  exists s,
    Utils.generateRandomString n w = (Returned s, Nat.iter n next_draw w)
    /\ String.length s = n
    /\ Forall (fun c => c ∈ JsString.chars Utils.chars) (JsString.chars s).
Proof.
  intros Hw. unfold Utils.generateRandomString.
  destruct (generateRandomString_loop_shape n EmptyString w Hw)
    as (s & E & Hlen & added & Hch & Hall).
  exists s. split; [exact E|]. split; [exact Hlen|].
  rewrite Hch. exact Hall.
Qed.

Lemma settling_unit_draws (k : nat) : unit_draw (Sample.settling k).
Proof.
  unfold unit_draw.
  destruct k as [|[|[|k]]]; split; vm_compute; congruence.
Qed.

Lemma generateRandomString_shape_witness :
  exists s,
    Utils.generateRandomString 8 Sample.world
    = (Returned s, Nat.iter 8 next_draw Sample.world)
    /\ String.length s = 8%nat
    /\ Forall (fun c => c ∈ JsString.chars Utils.chars) (JsString.chars s).
Proof.
  apply (generateRandomString_shape 8 Sample.world).
  exact settling_unit_draws.
Defined.

Lemma pretty_N_go_grows (x : N) (s : string) :
  (String.length s <= String.length (pretty_N_go x s))%nat.
Proof.
  revert s. induction (N.lt_wf_0 x) as [x _ IH]; intros s.
  destruct (N.eq_dec x 0%N) as [->|Hx]; [rewrite pretty_N_go_0; lia|].
  rewrite pretty_N_go_step by lia.
  etransitivity; [|apply IH; apply N.div_lt; lia]. simpl. lia.
Qed.

Lemma pretty_N_go_length_le (d : nat) (x : N) (s : string) :
  (x < 10 ^ N.of_nat d)%N ->
  (String.length (pretty_N_go x s) <= d + String.length s)%nat.
Proof.
  revert x s. induction d as [|d IH]; intros x s Hx.
  - assert (x = 0%N) as -> by (simpl in Hx; lia). rewrite pretty_N_go_0. lia.
  - destruct (N.eq_dec x 0%N) as [->|Hx0]; [rewrite pretty_N_go_0; lia|].
    rewrite pretty_N_go_step by lia.
    etransitivity; [apply IH|simpl; lia].
    apply N.Div0.div_lt_upper_bound.
    rewrite Nat2N.inj_succ, N.pow_succ_r' in Hx. lia.
Qed.

Lemma pretty_N_go_length_ge (d : nat) (x : N) (s : string) :
  (10 ^ N.of_nat d <= x)%N ->
  (S d + String.length s <= String.length (pretty_N_go x s))%nat.
Proof.
  revert x s. induction d as [|d IH]; intros x s Hx.
  - simpl in Hx. rewrite pretty_N_go_step by lia.
    etransitivity; [|apply pretty_N_go_grows]. simpl. lia.
  - rewrite Nat2N.inj_succ, N.pow_succ_r' in Hx.
    rewrite pretty_N_go_step by lia.
    etransitivity; [|apply IH].
    + simpl. lia.
    + apply N.div_le_lower_bound; lia.
Qed.

(** The decimal numeral of a number below [10 ^ d] has at most [d]
    characters, and that of a number from [10 ^ d] on more than [d]. *)
Lemma pretty_length (d : nat) (k : Z) :
  (0 <= k < 10 ^ Z.of_nat (S d) -> (String.length (pretty k) <= S d)%nat)
  /\ (10 ^ Z.of_nat d <= k -> (S d <= String.length (pretty k))%nat).
Proof.
  destruct k as [|p|p].
  - split; intros; [simpl; lia|].
    pose proof (Z.pow_pos_nonneg 10 (Z.of_nat d)). lia.
  - change (pretty (Z.pos p)) with (pretty (N.pos p)).
    unfold pretty, pretty_N. rewrite decide_False by discriminate.
    split; intros H.
    + pose proof (pretty_N_go_length_le (S d) (N.pos p) EmptyString) as L.
      simpl String.length in L. rewrite Nat.add_0_r in L. apply L.
      apply N2Z.inj_lt. rewrite N2Z.inj_pow, nat_N_Z. simpl Z.of_N. lia.
    + pose proof (pretty_N_go_length_ge d (N.pos p) EmptyString) as L.
      simpl String.length in L. rewrite Nat.add_0_r in L. apply L.
      apply N2Z.inj_le. rewrite N2Z.inj_pow, nat_N_Z. simpl Z.of_N. lia.
  - split; intros H; [lia|].
    pose proof (Z.pow_pos_nonneg 10 (Z.of_nat d)). lia.
Qed.

Lemma string_of_list_length (l : list ascii) :
  String.length (string_of_list_ascii l) = length l.
Proof. induction l as [|c l IH]; simpl; congruence. Qed.

Lemma padStart0_length (n : nat) (s : string) :
  String.length (JsString.padStart0 n s) = Nat.max n (String.length s).
Proof.
  unfold JsString.padStart0.
  rewrite string_length_app, string_of_list_length, repeat_length. lia.
Qed.

Lemma four_digits_length (k : Z) :
  0 <= k < 10000 -> String.length (four_digits k) = 4%nat.
Proof.
  intros Hk. unfold four_digits. rewrite padStart0_length.
  pose proof (proj1 (pretty_length 3 k)) as L.
  change (10 ^ Z.of_nat 4) with 10000 in L. specialize (L Hk). lia.
Qed.

Lemma year_length (y : Z) :
  1000 <= y <= 9999 -> String.length (pretty y) = 4%nat.
Proof.
  intros Hy.
  pose proof (pretty_length 3 y) as [L1 L2].
  change (10 ^ Z.of_nat 4) with 10000 in L1.
  change (10 ^ Z.of_nat 3) with 1000 in L2.
  specialize (L1 ltac:(lia)). specialize (L2 ltac:(lia)). lia.
Qed.

(** X22. On a date with a four-digit year, for a draw from 0, included,
    to 1, excluded, [generateReceiptNumber] returns, after one draw, a
    number of exactly 17 characters: RCP-, the year, the month and the day
    on two digits each, a dash, and one of the 10000 four-digit numerals. *)
Theorem generateReceiptNumber_shape (w : World) :
  1000 <= fullYear (today w) <= 9999 ->
  1 <= monthOfYear (today w) <= 12 ->
  1 <= dayOfMonth (today w) <= 31 ->
  unit_draw (random w (draws w)) ->
  exists k,
    0 <= k < 10000
    /\ Utils.generateReceiptNumber w
       = (Returned ("RCP-" +:+ pretty (fullYear (today w))
                    +:+ two_digits (monthOfYear (today w))
                    +:+ two_digits (dayOfMonth (today w))
                    +:+ "-" +:+ four_digits k),
          next_draw w)
    /\ String.length ("RCP-" +:+ pretty (fullYear (today w))
                      +:+ two_digits (monthOfYear (today w))
                      +:+ two_digits (dayOfMonth (today w))
                      +:+ "-" +:+ four_digits k) = 17%nat.
Proof.
  intros Hy Hm Hd Hr.
  exists (Qfloor (Qmult (random w (draws w)) (inject_Z 10000))).
  split; [apply floor_of_unit_draw; [lia|exact Hr]|].
  split; [reflexivity|].
  rewrite !string_length_app.
  rewrite (year_length _ Hy).
  destruct (parseInt_two_digits (monthOfYear (today w))) as (_ & _ & ->); [lia|].
  destruct (parseInt_two_digits (dayOfMonth (today w))) as (_ & _ & ->); [lia|].
  rewrite four_digits_length by (apply floor_of_unit_draw; [lia|exact Hr]).
  reflexivity.
Qed.

Lemma generateReceiptNumber_shape_witness :
  exists k,
    0 <= k < 10000
    /\ Utils.generateReceiptNumber Sample.world
       = (Returned ("RCP-" +:+ pretty 2026 +:+ two_digits 11 +:+ two_digits 1
                    +:+ "-" +:+ four_digits k),
          next_draw Sample.world)
    /\ String.length ("RCP-" +:+ pretty 2026 +:+ two_digits 11 +:+ two_digits 1
                      +:+ "-" +:+ four_digits k) = 17%nat.
Proof.
  apply (generateReceiptNumber_shape Sample.world).
  - vm_compute. split; discriminate.
  - vm_compute. split; discriminate.
  - vm_compute. split; discriminate.
  - apply settling_unit_draws.
Defined.

(** ** Formatting *)

Lemma keep_digits_digits (s : string) :
  forallb JsString.is_digit (JsString.chars (Formatters.keep_digits s)) = true.
Proof.
  induction s as [|c s IH]; [reflexivity|]. simpl.
  destruct (JsString.is_digit c) eqn:E; [|exact IH].
  simpl. rewrite E. exact IH.
Qed.

(** X23. [formatPhone] never changes the digits of its argument, and
    formatting twice is formatting once. A text with exactly ten digits
    comes out as the 14 characters (ddd) ddd-dddd, its digits in their
    order, whatever stood between them; any other text comes out as it
    went in. *)
Theorem formatPhone_idempotent (phone : string) :
  Formatters.keep_digits (Formatters.formatPhone phone)
  = Formatters.keep_digits phone
  /\ Formatters.formatPhone (Formatters.formatPhone phone)
     = Formatters.formatPhone phone
  /\ (String.length (Formatters.keep_digits phone) <> 10%nat ->
      Formatters.formatPhone phone = phone)
  /\ (String.length (Formatters.keep_digits phone) = 10%nat ->
      String.length (Formatters.formatPhone phone) = 14%nat
      /\ exists d0 d1 d2 d3 d4 d5 d6 d7 d8 d9 : ascii,
           Formatters.keep_digits phone
           = string_of_list_ascii [d0; d1; d2; d3; d4; d5; d6; d7; d8; d9]
           /\ Forall (fun d => JsString.is_digit d = true)
                     [d0; d1; d2; d3; d4; d5; d6; d7; d8; d9]
           /\ Formatters.formatPhone phone
              = string_of_list_ascii
                  ["("%char; d0; d1; d2; ")"%char; " "%char; d3; d4; d5;
                   "-"%char; d6; d7; d8; d9]).
Proof.
  unfold Formatters.formatPhone. cbv zeta.
  pose proof (keep_digits_digits phone) as Hd.
  destruct (Nat.eqb_spec (String.length (Formatters.keep_digits phone)) 10)
    as [Hl|Hl].
  - destruct (Formatters.keep_digits phone)
      as [|c0 [|c1 [|c2 [|c3 [|c4 [|c5 [|c6 [|c7 [|c8 [|c9 [|c r]]]]]]]]]]];
      try discriminate Hl.
    simpl in Hd.
    repeat (apply andb_true_iff in Hd as [? Hd]).
    assert (E : Formatters.keep_digits
                  ("(" +:+ String.substring 0 3
                             (String c0 (String c1 (String c2 (String c3 (String c4
                               (String c5 (String c6 (String c7 (String c8
                                 (String c9 EmptyString))))))))))
                   +:+ ") " +:+ String.substring 3 3
                             (String c0 (String c1 (String c2 (String c3 (String c4
                               (String c5 (String c6 (String c7 (String c8
                                 (String c9 EmptyString))))))))))
                   +:+ "-" +:+ String.substring 6 4
                             (String c0 (String c1 (String c2 (String c3 (String c4
                               (String c5 (String c6 (String c7 (String c8
                                 (String c9 EmptyString)))))))))))
                = String c0 (String c1 (String c2 (String c3 (String c4
                    (String c5 (String c6 (String c7 (String c8
                      (String c9 EmptyString)))))))))).
    { simpl. repeat match goal with H : JsString.is_digit _ = true |- _ =>
                      rewrite H end.
      reflexivity. }
    rewrite E. split; [reflexivity|]. split; [reflexivity|].
    split; [intros Hn; contradiction|]. intros _.
    split; [reflexivity|].
    exists c0, c1, c2, c3, c4, c5, c6, c7, c8, c9.
    split; [reflexivity|]. split; [|reflexivity].
    repeat (apply Forall_cons; split; [assumption|]). apply Forall_nil_2.
  - split; [reflexivity|]. split.
    + destruct (Nat.eqb_spec (String.length (Formatters.keep_digits phone)) 10);
        [contradiction|reflexivity].
    + split; [reflexivity|]. intros H; contradiction.
Qed.

Example formatPhone_samples :
  Formatters.formatPhone "555 123-4567" = "(555) 123-4567"
  /\ Formatters.formatPhone "+1 555 123 4567" = "+1 555 123 4567"
  /\ Formatters.formatPhone "call 5551234567 now" = "(555) 123-4567".
Proof. repeat split; vm_compute; reflexivity. Qed.

Lemma formatPhone_idempotent_witness :
  String.length (Formatters.keep_digits "555-(123) 4567") = 10%nat
  /\ Formatters.formatPhone "555-(123) 4567" = "(555) 123-4567"
  /\ String.length (Formatters.formatPhone "555-(123) 4567") = 14%nat.
Proof.
  split; [vm_compute; reflexivity|].
  destruct (formatPhone_idempotent "555-(123) 4567") as (_ & _ & _ & H).
  destruct (H eq_refl) as (Hlen & d0 & d1 & d2 & d3 & d4 & d5 & d6 & d7 & d8 & d9
                           & Hd & _ & Hfmt).
  split; [|exact Hlen].
  rewrite Hfmt. vm_compute in Hd.
  injection Hd as <- <- <- <- <- <- <- <- <- <-. reflexivity.
Defined.

Lemma split_three (sep : ascii) (a b c : string) :
  free_of sep a = true -> free_of sep b = true -> free_of sep c = true ->
  JsString.split sep (a +:+ String sep (b +:+ String sep c)) = [a; b; c].
Proof.
  intros Ha Hb Hc. unfold JsString.split.
  rewrite (split_go_first sep EmptyString a _ Ha).
  rewrite (split_go_first sep EmptyString b _ Hb).
  rewrite (split_go_free sep EmptyString c Hc).
  rewrite !rev_rev_app. reflexivity.
Qed.

Lemma append_assoc (a b c : string) : (a +:+ b) +:+ c = a +:+ (b +:+ c).
Proof.
  induction a as [|x a IH]; [reflexivity|].
  change (String x ((a +:+ b) +:+ c) = String x (a +:+ (b +:+ c))).
  rewrite IH. reflexivity.
Qed.

(** X24. For a whole number of seconds from 0 up to, not including, 100
    hours, [formatDuration] gives eight characters HH:MM:SS that read back
    to the same duration: split at the colons and parsed, the three parts
    are the hours, the minutes below 60 and the seconds below 60 whose
    total is the argument. *)
Theorem formatDuration_reads_back (seconds : Z) :
  0 <= seconds < 360000 ->
  exists hh mm ss h m s,
    JsString.split ":"%char (Formatters.formatDuration seconds) = [hh; mm; ss]
    /\ JsString.parseInt hh = Some h
    /\ JsString.parseInt mm = Some m
    /\ JsString.parseInt ss = Some s
    /\ 0 <= m < 60 /\ 0 <= s < 60 /\ 0 <= h
    /\ h * 3600 + m * 60 + s = seconds
    /\ String.length (Formatters.formatDuration seconds) = 8%nat.
Proof.
  intros H.
  assert (Hh : 0 <= seconds / 3600 < 100).
  { split; [apply Z.div_pos; lia|apply Z.div_lt_upper_bound; lia]. }
  assert (Hrem : Z.rem seconds 3600 = seconds mod 3600) by (apply Z.rem_mod_nonneg; lia).
  assert (Hrem' : Z.rem seconds 60 = seconds mod 60) by (apply Z.rem_mod_nonneg; lia).
  pose proof (Z.mod_pos_bound seconds 3600 ltac:(lia)) as B1.
  pose proof (Z.mod_pos_bound seconds 60 ltac:(lia)) as B2.
  assert (Hm : 0 <= seconds mod 3600 / 60 < 60).
  { split; [apply Z.div_pos; lia|apply Z.div_lt_upper_bound; lia]. }
  destruct (parseInt_two_digits (seconds / 3600)) as (Ph & Dh & Lh); [lia|].
  destruct (parseInt_two_digits (seconds mod 3600 / 60)) as (Pm & Dm & Lm); [lia|].
  destruct (parseInt_two_digits (seconds mod 60)) as (Ps & Ds & Ls); [lia|].
  unfold Formatters.formatDuration. cbv zeta. rewrite Hrem, Hrem'.
  fold (two_digits (seconds / 3600)) (two_digits (seconds mod 3600 / 60))
       (two_digits (seconds mod 60)).
  set (hh := two_digits (seconds / 3600)) in *.
  set (mm := two_digits (seconds mod 3600 / 60)) in *.
  set (ss := two_digits (seconds mod 60)) in *.
  assert (E : hh +:+ ":" +:+ mm +:+ ":" +:+ ss
              = hh +:+ String ":"%char (mm +:+ String ":"%char ss)) by reflexivity.
  rewrite E.
  exists hh, mm, ss, (seconds / 3600), (seconds mod 3600 / 60), (seconds mod 60).
  split.
  { apply split_three; apply digits_free_of; try reflexivity; assumption. }
  repeat (split; [assumption || lia|]).
  split.
  - pose proof (Z.div_mod seconds 3600 ltac:(lia)).
    pose proof (Z.div_mod (seconds mod 3600) 60 ltac:(lia)).
    assert ((seconds mod 3600) mod 60 = seconds mod 60).
    { replace seconds with (seconds mod 3600 + seconds / 3600 * 60 * 60) at 2
        by lia.
      rewrite Z_mod_plus_full. reflexivity. }
    lia.
  - rewrite string_length_app. simpl String.length.
    rewrite string_length_app. simpl String.length. lia.
Qed.

Lemma formatDuration_reads_back_witness :
  exists hh mm ss h m s,
    JsString.split ":"%char (Formatters.formatDuration 3725) = [hh; mm; ss]
    /\ JsString.parseInt hh = Some h
    /\ JsString.parseInt mm = Some m
    /\ JsString.parseInt ss = Some s
    /\ 0 <= m < 60 /\ 0 <= s < 60 /\ 0 <= h
    /\ h * 3600 + m * 60 + s = 3725
    /\ String.length (Formatters.formatDuration 3725) = 8%nat.
Proof.
  apply (formatDuration_reads_back 3725). lia.
Defined.

Example formatDuration_sample : Formatters.formatDuration 3725 = "01:02:05".
Proof. vm_compute. reflexivity. Qed.

(** ** Removing duplicates *)

Section RemoveDuplicatesFacts.

Context {A K : Type} `{EqDecision K}.
Variable keyOf : A -> K.

Lemma removeDuplicates_from_sublist (seen : list K) (array : list A) :
  sublist (ArrayUtils.removeDuplicates_from keyOf seen array) array.
Proof.
  revert seen. induction array as [|item rest IH]; intros seen; simpl.
  - constructor.
  - destruct (decide (keyOf item ∈ seen)).
    + apply sublist_cons. apply IH.
    + apply sublist_skip. apply IH.
Qed.

Lemma removeDuplicates_from_unseen (seen : list K) (array : list A) (x : A) :
  x ∈ ArrayUtils.removeDuplicates_from keyOf seen array -> keyOf x ∉ seen.
Proof.
  revert seen. induction array as [|item rest IH]; intros seen; simpl.
  - intros Hx. apply elem_of_nil in Hx. contradiction.
  - destruct (decide (keyOf item ∈ seen)) as [Hs|Hs].
    + apply IH.
    + intros Hx. apply elem_of_cons in Hx as [->|Hx]; [exact Hs|].
      apply IH in Hx. intros Hin. apply Hx. apply elem_of_cons. right. exact Hin.
Qed.

Lemma removeDuplicates_from_NoDup (seen : list K) (array : list A) :
  NoDup (keyOf <$> ArrayUtils.removeDuplicates_from keyOf seen array).
Proof.
  revert seen. induction array as [|item rest IH]; intros seen; simpl.
  - constructor.
  - destruct (decide (keyOf item ∈ seen)) as [Hs|Hs]; [apply IH|].
    rewrite fmap_cons. apply NoDup_cons. split; [|apply IH].
    intros Hin. apply list_elem_of_fmap in Hin as (y & Hy & Hin).
    apply removeDuplicates_from_unseen in Hin. apply Hin.
    rewrite Hy. apply elem_of_cons. left. reflexivity.
Qed.

Lemma removeDuplicates_from_covers (seen : list K) (array : list A) (x : A) :
  x ∈ array ->
  keyOf x ∈ seen
  \/ keyOf x ∈ keyOf <$> ArrayUtils.removeDuplicates_from keyOf seen array.
Proof.
  revert seen. induction array as [|item rest IH]; intros seen Hx; simpl.
  - apply elem_of_nil in Hx. contradiction.
  - apply elem_of_cons in Hx as [->|Hx].
    + destruct (decide (keyOf item ∈ seen)) as [Hs|Hs]; [left; exact Hs|].
      right. rewrite fmap_cons. apply elem_of_cons. left. reflexivity.
    + destruct (decide (keyOf item ∈ seen)) as [Hs|Hs]; [apply IH; exact Hx|].
      destruct (IH (keyOf item :: seen) Hx) as [Hin|Hin].
      * apply elem_of_cons in Hin as [Heq|Hin]; [|left; exact Hin].
        right. rewrite fmap_cons, Heq. apply elem_of_cons. left. reflexivity.
      * right. rewrite fmap_cons. apply elem_of_cons. right. exact Hin.
Qed.

Lemma removeDuplicates_from_first (seen : list K) (array : list A) (x : A) :
  x ∈ ArrayUtils.removeDuplicates_from keyOf seen array ->
  exists before after,
    array = before ++ x :: after /\ keyOf x ∉ keyOf <$> before.
Proof.
  revert seen. induction array as [|item rest IH]; intros seen; simpl.
  - intros Hx. apply elem_of_nil in Hx. contradiction.
  - destruct (decide (keyOf item ∈ seen)) as [Hs|Hs].
    + intros Hx. pose proof (removeDuplicates_from_unseen _ _ _ Hx) as Hu.
      destruct (IH seen Hx) as (before & after & -> & Hb).
      exists (item :: before), after. split; [reflexivity|].
      rewrite fmap_cons. intros Hin. apply elem_of_cons in Hin as [Heq|Hin].
      * apply Hu. rewrite Heq. exact Hs.
      * apply Hb. exact Hin.
    + intros Hx. apply elem_of_cons in Hx as [->|Hx].
      * exists [], rest. split; [reflexivity|]. apply not_elem_of_nil.
      * pose proof (removeDuplicates_from_unseen _ _ _ Hx) as Hu.
        destruct (IH _ Hx) as (before & after & -> & Hb).
        exists (item :: before), after. split; [reflexivity|].
        rewrite fmap_cons. intros Hin. apply elem_of_cons in Hin as [Heq|Hin].
        -- apply Hu. rewrite Heq. apply elem_of_cons. left. reflexivity.
        -- apply Hb. exact Hin.
Qed.

Lemma removeDuplicates_from_fixed (seen : list K) (array : list A) :
  NoDup (keyOf <$> array) ->
  (forall x, x ∈ array -> keyOf x ∉ seen) ->
  ArrayUtils.removeDuplicates_from keyOf seen array = array.
Proof.
  revert seen. induction array as [|item rest IH]; intros seen Hnd Hs; simpl.
  - reflexivity.
  - rewrite fmap_cons in Hnd. apply NoDup_cons in Hnd as [Hitem Hnd].
    rewrite decide_False.
    + f_equal. apply IH; [exact Hnd|].
      intros x Hx Hin. apply elem_of_cons in Hin as [Heq|Hin].
      * apply Hitem. rewrite <- Heq. apply list_elem_of_fmap.
        exists x. split; [reflexivity|exact Hx].
      * apply (Hs x); [apply elem_of_cons; right; exact Hx|exact Hin].
    + apply Hs. apply elem_of_cons. left. reflexivity.
Qed.

(** X25. [removeDuplicates] keeps, in their order, exactly the items that
    are the first of the array to carry their value: what it returns is a
    sublist of the array in which no value occurs twice, every value of
    the array still occurs in it, and each item kept is preceded in the
    array by no item of the same value. Removing duplicates again changes
    nothing. *)
Theorem removeDuplicates_first_occurrences (array : list A) :
  let result := ArrayUtils.removeDuplicates keyOf array in
  sublist result array
  /\ NoDup (keyOf <$> result)
  /\ (forall x, x ∈ array -> keyOf x ∈ keyOf <$> result)
  /\ (forall x, x ∈ result ->
        exists before after,
          array = before ++ x :: after /\ keyOf x ∉ keyOf <$> before)
  /\ ArrayUtils.removeDuplicates keyOf result = result.
Proof.
  cbv zeta. unfold ArrayUtils.removeDuplicates.
  split; [apply removeDuplicates_from_sublist|].
  split; [apply removeDuplicates_from_NoDup|].
  split.
  { intros x Hx.
    destruct (removeDuplicates_from_covers [] array x Hx) as [Hin|Hin];
      [apply elem_of_nil in Hin; contradiction|exact Hin]. }
  split; [apply removeDuplicates_from_first|].
  apply removeDuplicates_from_fixed; [apply removeDuplicates_from_NoDup|].
  intros x _. apply not_elem_of_nil.
Qed.

End RemoveDuplicatesFacts.

Example removeDuplicates_samples :
  ArrayUtils.removeDuplicates (fun x : Z => x) [3; 1; 3; 2; 1] = [3; 1; 2]
  /\ ArrayUtils.removeDuplicates ntf_memberId
       [Inbox.unread_1; Inbox.unread_2; Inbox.other_4; Inbox.read_3]
     = [Inbox.unread_1; Inbox.other_4].
Proof. split; vm_compute; reflexivity. Qed.
